(** * MessageQueue-NestJS: the queue abstraction layer

    A shallow embedding of the queue providers of the repository
    (src/queue/providers/*.ts, src/queue/queue.module.ts), of the
    controller and the consumer that use them (src/queue/queue.controller.ts,
    src/queue/queue-consumer.service.ts, src/app.controller.ts), and the
    properties of the abstraction layer proved about them.

    Conventions of the embedding:
    - a JavaScript value is a [JsVal]; the numbers that occur (counters,
      message counts, epoch milliseconds) are integers and are kept in [Z];
    - a promise is represented by the way it settles, [settled A], and an
      [async] method by a function from the state it runs in to its settled
      result and the state it leaves ([Async W A]);
    - a string that can be [undefined] when the program runs (an optional
      field, a field that no statement has assigned yet) is an
      [option string], [None] standing for [undefined];
    - what a method reads from its environment ([new Date()], [Date.now()],
      [Math.random()], a timer handle) is an explicit argument;
    - a callback given to [subscribe] is code of the caller: it resolves
      or rejects with a value of its choice ([Outcome]), [null] and
      [undefined] included;
    - the brokers (the AWS SQS client, the amqp channel) are not code of the
      repository: they are the operations of a type class, and every theorem
      holds for whatever they answer. *)

From Stdlib Require Import String Ascii List ZArith Lia Bool DecimalString.
From Stdlib Require DecimalPos DecimalZ.
Import ListNotations.

Local Open Scope list_scope.
Local Open Scope string_scope.

(* ------------------------------------------------------------------ *)
(** ** JavaScript values *)

#[local] Unset Elimination Schemes.
Inductive JsVal : Type :=
| JUndefined
| JNull
| JBool (b : bool)
| JNum (n : Z)
| JStr (s : string)
| JArr (items : list JsVal)
| JObj (fields : list (string * JsVal)).
#[local] Set Elimination Schemes.

(** [Record<string, any>]: the entries of an object, in insertion order. *)
Definition JsRecord : Type := list (string * JsVal).

(** [a || b] on an optional string ([undefined] and [''] are falsy). *)
Definition or_string (a : option string) (b : option string) : option string :=
  match a with
  | Some s => if s =? "" then b else a
  | None => b
  end.

(** [a || d] on an optional string with a string default. *)
Definition or_default (a : option string) (d : string) : string :=
  match a with
  | Some s => if s =? "" then d else s
  | None => d
  end.

(** [a || d] on an optional number with a number default
    ([undefined] and [0] are falsy). *)
Definition or_number (a : option Z) (d : Z) : Z :=
  match a with
  | Some n => if (n =? 0)%Z then d else n
  | None => d
  end.

(** [!a] on an optional string. *)
Definition falsy_string (a : option string) : bool :=
  match a with
  | Some s => s =? ""
  | None => true
  end.

(** The decimal text of an integer, as a template literal prints it. *)
Definition string_of_Z (n : Z) : string := NilZero.string_of_int (Z.to_int n).

(** The text a template literal gives an optional string. *)
Definition template (a : option string) : string :=
  match a with
  | Some s => s
  | None => "undefined"
  end.

(** [{...a, ...b}]: every entry of [b] is assigned in turn; a key that is
    already present keeps its place and takes the new value, a new key is
    added at the end. *)
Fixpoint assign {A} (k : string) (v : A) (r : list (string * A))
  : list (string * A) :=
  match r with
  | [] => [(k, v)]
  | (k', v') :: r' =>
      if k' =? k then (k, v) :: r' else (k', v') :: assign k v r'
  end.

Definition spread {A} (a b : list (string * A)) : list (string * A) :=
  fold_left (fun acc e => assign (fst e) (snd e) acc) b a.

(** [Array.prototype.splice(start, deleteCount)] without inserted items:
    the removed elements and the array that is left. *)
Definition splice {A : Type} (start deleteCount : Z) (l : list A)
  : list A * list A :=
  let len := Z.of_nat (length l) in
  let actualStart :=
    if (start <? 0)%Z then Z.max (len + start) 0 else Z.min start len in
  let actualDeleteCount := Z.min (Z.max deleteCount 0) (len - actualStart) in
  let s := Z.to_nat actualStart in
  let d := Z.to_nat actualDeleteCount in
  (firstn d (skipn s l), (firstn s l ++ skipn (s + d) l)%list).

(** [Array.prototype.join] on strings. *)
Definition join (sep : string) (l : list string) : string := String.concat sep l.

(* ------------------------------------------------------------------ *)
(** ** Errors, promises and async methods *)

Record Error : Type := mkError { message : string }.

Inductive settled (A : Type) : Type :=
| fulfilled (value : A)
| rejected (reason : Error).
Arguments fulfilled {A} value.
Arguments rejected {A} reason.

Definition is_fulfilled {A} (r : settled A) : bool :=
  match r with fulfilled _ => true | rejected _ => false end.

Definition is_rejected {A} (r : settled A) : bool := negb (is_fulfilled r).

(** An async method run in a state [W]. *)
Definition Async (W A : Type) : Type := W -> settled A * W.

Definition ret {W A} (a : A) : Async W A := fun w => (fulfilled a, w).

Definition throw {W A} (e : Error) : Async W A := fun w => (rejected e, w).

Definition bind {W A B} (m : Async W A) (k : A -> Async W B) : Async W B :=
  fun w =>
    match m w with
    | (fulfilled a, w') => k a w'
    | (rejected e, w') => (rejected e, w')
    end.

(** [try { m } catch (error) { h error }] *)
Definition try_catch {W A} (m : Async W A) (h : Error -> Async W A) : Async W A :=
  fun w =>
    match m w with
    | (fulfilled a, w') => (fulfilled a, w')
    | (rejected e, w') => h e w'
    end.

(** [p.catch(h)] where the handler returns a plain value. *)
Definition catch {W A} (m : Async W A) (h : Error -> A) : Async W A :=
  try_catch m (fun e => ret (h e)).

Definition modify {W} (f : W -> W) : Async W unit := fun w => (fulfilled tt, f w).

(** Run an async method of a component inside the state of its owner. *)
Definition lift {W V A} (proj : W -> V) (upd : V -> W -> W) (m : Async V A)
  : Async W A :=
  fun w => let (r, v') := m (proj w) in (r, upd v' w).

Declare Scope async_scope.
Delimit Scope async_scope with async.
Notation "x <- m ;; k" := (bind m (fun x => k))
  (at level 100, m at next level, right associativity) : async_scope.
Notation "m ;;; k" := (bind m (fun _ => k))
  (at level 100, right associativity) : async_scope.
Local Open Scope async_scope.

(* ------------------------------------------------------------------ *)
(** ** The data model (interfaces/queue.interface.ts) *)

(** A [Date]: a time value in epoch milliseconds, or the invalid date that
    [new Date(NaN)] builds. *)
Inductive JsDate : Type :=
| DateAt (ms : Z)
| InvalidDate.

Record QueueMessage : Type := {
  id : option string;
  body : JsVal;
  attributes : option JsRecord;
  timestamp : option JsDate
}.

Record PublishOptions : Type := {
  delaySeconds : option Z;
  messageAttributes : option JsRecord
}.

Record SubscribeOptions : Type := {
  maxNumberOfMessages : option Z;
  waitTimeSeconds : option Z;
  visibilityTimeout : option Z
}.

(** [options?.field] *)
Definition opt_field {O A} (options : option O) (field : O -> option A) : option A :=
  match options with
  | Some o => field o
  | None => None
  end.

(** [a === b] on two ids, each a string or [undefined]. *)
Definition same_id (a b : option string) : bool :=
  match a, b with
  | Some x, Some y => x =? y
  | None, None => true
  | _, _ => false
  end.

(* ------------------------------------------------------------------ *)
(** ** Callbacks of the caller

    The function given to [subscribe] is code of the caller. Its promise
    can be rejected with any value, an [Error] or not; the adapters await
    it inside a [try] whose [catch] reads [error.message]. *)

Inductive Thrown : Type :=
| thrown_error (e : Error)
| thrown_value (v : JsVal).

Inductive Outcome : Type :=
| resolved
| rejected_with (reason : Thrown).

(** A callback run in the state [W] of the adapter that calls it. *)
Definition Callback (W : Type) : Type := QueueMessage -> W -> Outcome * W.

(** A callback that leaves the adapter alone. *)
Definition answering {W} (handler : QueueMessage -> Outcome) : Callback W :=
  fun message w => (handler message, w).

(** The outcome of awaiting an async method of the program. *)
Definition outcome_of (r : settled unit) : Outcome :=
  match r with
  | fulfilled _ => resolved
  | rejected e => rejected_with (thrown_error e)
  end.

(** The caught value is [null] or [undefined]. *)
Definition nullish (reason : Thrown) : bool :=
  match reason with
  | thrown_value JNull | thrown_value JUndefined => true
  | _ => false
  end.

(** What reading a property of [null] or [undefined] throws. *)
Definition cannot_read_properties (what name : string) : Error :=
  mkError ("Cannot read properties of " ++ what ++ " (reading '" ++ name ++ "')").

(** [error.message], [error.stack]: reading a property of the caught value
    throws a [TypeError] when the value is [null] or [undefined], and gives
    a value, [undefined] perhaps, in every other case. *)
Definition read_property {W} (error : Thrown) (name : string) : Async W unit :=
  fun w =>
    (match error with
     | thrown_value JNull => rejected (cannot_read_properties "null" name)
     | thrown_value JUndefined => rejected (cannot_read_properties "undefined" name)
     | _ => fulfilled tt
     end, w).

(** [try { await c; k } catch (error) { h error }] where [c] is the call of
    a callback of the caller. *)
Definition try_await {W A} (c : W -> Outcome * W) (k : Async W A)
    (h : Thrown -> Async W A) : Async W A :=
  fun w =>
    match c w with
    | (resolved, w') => try_catch k (fun e => h (thrown_error e)) w'
    | (rejected_with reason, w') => h reason w'
    end.

(* ------------------------------------------------------------------ *)
(** ** MockQueueService (providers/mock-queue.service.ts) *)

Module MockQueueService.

Record t : Type := {
  messages : list QueueMessage;
  messageIdCounter : Z
}.

Definition create : t := {| messages := []; messageIdCounter := 0 |}.

Definition publish (message : JsVal) (options : option PublishOptions) (now : Z)
  : Async t string :=
  fun this =>
    let counter := (messageIdCounter this + 1)%Z in
    let messageId := "mock-msg-" ++ string_of_Z counter in
    let queueMessage :=
      {| id := Some messageId;
         body := message;
         attributes := opt_field options messageAttributes;
         timestamp := Some (DateAt now) |} in
    (fulfilled messageId,
     {| messages := (messages this ++ [queueMessage])%list;
        messageIdCounter := counter |}).

(** One firing of the interval that [subscribe] installs. The [catch]
    reads [error.message] for its log line before it pushes the message
    back. *)
Definition tick (callback : Callback t) : Async t unit :=
  fun this =>
    match messages this with
    | [] => (fulfilled tt, this)
    | message :: rest =>
        let shifted :=
          {| messages := rest; messageIdCounter := messageIdCounter this |} in
        try_await (callback message) (ret tt)
          (fun error =>
             read_property error "message" ;;;
             modify (fun s =>
               {| messages := (messages s ++ [message])%list;
                  messageIdCounter := messageIdCounter s |}))
          shifted
    end.

(** [subscribe] installs the interval and returns; the firings come
    afterwards, each one a [tick]. *)
Definition subscribe (callback : Callback t) : Async t unit :=
  ret tt.

Definition receiveMessages (options : option SubscribeOptions)
  : Async t (list QueueMessage) :=
  fun this =>
    let maxMessages := or_number (opt_field options maxNumberOfMessages) 10 in
    let (removed, rest) := splice 0 maxMessages (messages this) in
    (fulfilled removed,
     {| messages := rest; messageIdCounter := messageIdCounter this |}).

Definition deleteMessage (messageId : string) : Async t unit :=
  modify (fun this =>
    {| messages :=
         filter (fun msg =>
                   negb (match id msg with
                         | Some i => i =? messageId
                         | None => false
                         end))
                (messages this);
       messageIdCounter := messageIdCounter this |}).

Definition getQueueIdentifier (this : t) : option string :=
  Some "mock-queue (in-memory)".

Definition close : Async t unit :=
  modify (fun this =>
    {| messages := []; messageIdCounter := messageIdCounter this |}).

Definition getQueueSize (this : t) : Z := Z.of_nat (length (messages this)).

(** [deleteMessage] as a caller reaches it with [msg.id], which may be
    [undefined]: the filter keeps the messages whose id is not that value. *)
Definition deleteMessage_id (messageId : option string) : Async t unit :=
  modify (fun this =>
    {| messages :=
         filter (fun msg => negb (same_id (id msg) messageId)) (messages this);
       messageIdCounter := messageIdCounter this |}).

End MockQueueService.

(* ------------------------------------------------------------------ *)
(** ** Built-ins of the JavaScript runtime

    [JSON.parse] throws on a text that is not JSON; [JSON.stringify] gives
    [undefined] for a value that has no JSON text; [parseInt] gives [NaN]
    ([None]) for a text that starts with no number. Their tables are the
    runtime's, not the repository's. *)

Class JsRuntime : Type := {
  JSON_parse : string -> settled JsVal;
  JSON_stringify : JsVal -> option string;
  parseInt : string -> option Z
}.

(** A synchronous call that may throw, used inside an async method. *)
Definition call {W A} (r : settled A) : Async W A := fun w => (r, w).

(** [typeof message === 'string' ? message : JSON.stringify(message)] *)
Definition serialize `{JsRuntime} (message : JsVal) : option string :=
  match message with
  | JStr s => Some s
  | _ => JSON_stringify message
  end.

(** [new Date(n)] for a number [n] that may be [NaN]. *)
Definition new_Date (n : option Z) : JsDate :=
  match n with
  | Some ms => DateAt ms
  | None => InvalidDate
  end.

(** [undefined] or a string, as a value. *)
Definition of_optional_string (a : option string) : JsVal :=
  match a with
  | Some s => JStr s
  | None => JUndefined
  end.

(** [r?.[k]] on an optional record of strings. *)
Fixpoint lookup {A} (k : string) (r : list (string * A)) : option A :=
  match r with
  | [] => None
  | (k', v) :: r' => if k' =? k then Some v else lookup k r'
  end.

(** [value[key]], [undefined] when there is no such property. *)
Definition member (key : string) (value : JsVal) : JsVal :=
  match value with
  | JObj fields =>
      match lookup key fields with
      | Some v => v
      | None => JUndefined
      end
  | _ => JUndefined
  end.

(** Whether the conversion of a value to a string, as a template literal
    makes it, throws. An object of own properties [fields] inherits the
    [toString] of [Object.prototype] unless it has an own [toString]; no
    value of [JsVal] is a function, so an own [toString] cannot be called,
    [valueOf] gives no primitive either, and the conversion throws. An
    array is joined: each element other than [null] and [undefined] is
    converted in turn. *)
Fixpoint to_string_throws (value : JsVal) : bool :=
  match value with
  | JObj fields =>
      match lookup "toString" fields with
      | Some _ => true
      | None => false
      end
  | JArr items => existsb to_string_throws items
  | _ => false
  end.

(** [acc[key] = value] on an object created by [{}]: an assignment to the
    key [__proto__] goes to the setter of [Object.prototype] and defines
    no own property; any other key is defined or updated. *)
Definition set_property {A} (key : string) (value : A) (r : list (string * A))
  : list (string * A) :=
  if key =? "__proto__" then r else assign key value r.

(* ------------------------------------------------------------------ *)
(** ** QueueModuleOptions (queue.module.ts) *)

Module SqsOptions.
Record t : Type := {
  region : option string;
  endpoint : option string;
  queueUrl : option string;
  accessKeyId : option string;
  secretAccessKey : option string
}.
End SqsOptions.

Module RabbitMqOptions.
Record t : Type := {
  url : option string;
  queueName : option string;
  exchangeName : option string;
  routingKey : option string
}.
End RabbitMqOptions.

Record QueueModuleOptions : Type := {
  provider : string;
  sqs : option SqsOptions.t;
  rabbitmq : option RabbitMqOptions.t
}.

(* ------------------------------------------------------------------ *)
(** ** The AWS SQS client, as the adapter uses it *)

Module Sqs.

Record Credentials : Type := {
  cred_accessKeyId : string;
  cred_secretAccessKey : string
}.

Record ClientConfig : Type := {
  cfg_region : string;
  cfg_endpoint : option string;
  cfg_credentials : option Credentials
}.

(** [new SQSClient(clientConfig)] *)
Inductive SQSClient : Type := new_SQSClient (clientConfig : ClientConfig).

Record Message : Type := {
  MessageId : option string;
  ReceiptHandle : option string;
  Body : option string;
  Attributes : option (list (string * string));
  MessageAttributes : option JsRecord
}.

Record SendMessageCommand : Type := {
  send_QueueUrl : option string;
  send_MessageBody : option string;
  send_DelaySeconds : option Z;
  send_MessageAttributes : option JsRecord
}.

Record SendMessageOutput : Type := {
  out_MessageId : string
}.

Record ReceiveMessageCommand : Type := {
  recv_QueueUrl : option string;
  recv_MaxNumberOfMessages : Z;
  recv_WaitTimeSeconds : Z;
  recv_VisibilityTimeout : Z;
  recv_MessageAttributeNames : list string;
  recv_AttributeNames : list string
}.

Record ReceiveMessageOutput : Type := {
  out_Messages : option (list Message)
}.

Record DeleteMessageCommand : Type := {
  del_QueueUrl : option string;
  del_ReceiptHandle : option string
}.

(** What [sqsClient.send(command)] and [sqsClient.destroy()] do is the
    service's business: [Aws] is whatever state it keeps. *)
Class Backend : Type := {
  Aws : Type;
  send_SendMessage : SQSClient -> SendMessageCommand -> Async Aws SendMessageOutput;
  send_ReceiveMessage : SQSClient -> ReceiveMessageCommand -> Async Aws ReceiveMessageOutput;
  send_DeleteMessage : SQSClient -> DeleteMessageCommand -> Async Aws unit;
  destroy : SQSClient -> Aws -> Aws
}.

End Sqs.

(* ------------------------------------------------------------------ *)
(** ** SqsQueueService (providers/sqs-queue.service.ts) *)

Module SqsQueueService.
Import Sqs.

Record t : Type := {
  options : QueueModuleOptions;
  sqsClient : option SQSClient;
  queueUrl : option string;
  isPolling : bool;
  pollingInterval : option Z
}.

(** The adapter together with the service its client talks to. *)
Record World `{Backend} : Type := {
  this : t;
  aws : Aws
}.

Definition set_isPolling (b : bool) (s : t) : t :=
  {| options := options s; sqsClient := sqsClient s; queueUrl := queueUrl s;
     isPolling := b; pollingInterval := pollingInterval s |}.

Definition set_pollingInterval (p : option Z) (s : t) : t :=
  {| options := options s; sqsClient := sqsClient s; queueUrl := queueUrl s;
     isPolling := isPolling s; pollingInterval := p |}.

Definition initializeSqsClient (s : t) : t :=
  match sqs (options s) with
  | None => s
  | Some sqs =>
      if falsy_string (SqsOptions.queueUrl sqs) then s
      else
        let clientConfig :=
          {| cfg_region := or_default (SqsOptions.region sqs) "us-east-1";
             cfg_endpoint :=
               if falsy_string (SqsOptions.endpoint sqs) then None
               else SqsOptions.endpoint sqs;
             cfg_credentials :=
               match SqsOptions.accessKeyId sqs, SqsOptions.secretAccessKey sqs with
               | Some k, Some sk =>
                   if (k =? "") || (sk =? "") then None
                   else Some {| cred_accessKeyId := k; cred_secretAccessKey := sk |}
               | _, _ => None
               end |} in
        {| options := options s;
           sqsClient := Some (new_SQSClient clientConfig);
           queueUrl := SqsOptions.queueUrl sqs;
           isPolling := isPolling s;
           pollingInterval := pollingInterval s |}
  end.

(** [new SqsQueueService(options)]: the field initialisers, then the
    constructor body. *)
Definition create (opts : QueueModuleOptions) : t :=
  initializeSqsClient
    {| options := opts; sqsClient := None; queueUrl := None;
       isPolling := false; pollingInterval := None |}.

Definition getQueueIdentifier (s : t) : option string := queueUrl s.

Section Operations.
Context `{JsRuntime} `{Backend}.

Definition on_aws {A} (m : Async Aws A) : Async World A :=
  lift aws (fun a w => {| this := this w; aws := a |}) m.

Definition on_this (f : t -> t) : Async World unit :=
  modify (fun w => {| this := f (this w); aws := aws w |}).

Definition not_initialized : Error := mkError "SQS client is not initialized".

Definition formatMessageAttributes (attributes : option JsRecord) : option JsRecord :=
  match attributes with
  | None => None
  | Some entries =>
      Some (fold_left
              (fun acc e =>
                 set_property (fst e)
                   (JObj [("DataType", JStr "String");
                          ("StringValue", of_optional_string (serialize (snd e)))])
                   acc)
              entries [])
  end.

Definition mapSqsMessage {W} (message : Message) (now : Z) : Async W QueueMessage :=
  body <- try_catch (call (JSON_parse (or_default (Body message) "{}")))
                    (fun _ => ret (of_optional_string (Body message))) ;;
  ret {| id := ReceiptHandle message;
         body := body;
         attributes :=
           Some (spread
                   (spread [("messageId", of_optional_string (MessageId message))]
                           (map (fun e => (fst e, JStr (snd e)))
                                (match Attributes message with
                                 | Some a => a
                                 | None => []
                                 end)))
                   (match MessageAttributes message with
                    | Some a => a
                    | None => []
                    end));
         timestamp :=
           Some (match opt_field (Attributes message) (lookup "SentTimestamp") with
                 | Some ts =>
                     if ts =? "" then DateAt now else new_Date (parseInt ts)
                 | None => DateAt now
                 end) |}.

(** [list.map(f)] for an [f] that may throw. *)
Fixpoint map_each {W A B} (f : A -> Async W B) (l : list A) : Async W (list B) :=
  match l with
  | [] => ret []
  | a :: l' => b <- f a ;; bs <- map_each f l' ;; ret (b :: bs)
  end.

(** [for (const x of l) { f x }] *)
Fixpoint for_of {W A} (l : list A) (f : A -> Async W unit) : Async W unit :=
  match l with
  | [] => ret tt
  | a :: l' => f a ;;; for_of l' f
  end.

Definition publish (message : JsVal) (opts : option PublishOptions)
  : Async World string :=
  fun w =>
    match sqsClient (this w) with
    | None => throw not_initialized w
    | Some client =>
        let messageBody := serialize message in
        let command :=
          {| send_QueueUrl := queueUrl (this w);
             send_MessageBody := messageBody;
             send_DelaySeconds := opt_field opts delaySeconds;
             send_MessageAttributes :=
               formatMessageAttributes (opt_field opts messageAttributes) |} in
        try_catch
          (response <- on_aws (send_SendMessage client command) ;;
           ret (out_MessageId response))
          (fun error => throw error) w
    end.

(** The [ReceiveMessageCommand] that [receiveMessages] builds. *)
Definition receiveCommand (opts : option SubscribeOptions) (s : t)
  : ReceiveMessageCommand :=
  {| recv_QueueUrl := queueUrl s;
     recv_MaxNumberOfMessages := or_number (opt_field opts maxNumberOfMessages) 10;
     recv_WaitTimeSeconds := or_number (opt_field opts waitTimeSeconds) 10;
     recv_VisibilityTimeout := or_number (opt_field opts visibilityTimeout) 30;
     recv_MessageAttributeNames := ["All"];
     recv_AttributeNames := ["All"] |}.

Definition receiveMessages (opts : option SubscribeOptions) (now : Z)
  : Async World (list QueueMessage) :=
  fun w =>
    match sqsClient (this w) with
    | None => throw not_initialized w
    | Some client =>
        let command := receiveCommand opts (this w) in
        try_catch
          (response <- on_aws (send_ReceiveMessage client command) ;;
           map_each (fun msg => mapSqsMessage msg now)
                    (match out_Messages response with
                     | Some l => l
                     | None => []
                     end))
          (fun error => throw error) w
    end.

Definition deleteMessage (messageId : option string) : Async World unit :=
  fun w =>
    match sqsClient (this w) with
    | None => throw not_initialized w
    | Some client =>
        let command :=
          {| del_QueueUrl := queueUrl (this w);
             del_ReceiptHandle := messageId |} in
        try_catch (on_aws (send_DeleteMessage client command))
                  (fun error => throw error) w
    end.

(** The body of the [for] loop of [poll], for one received message. The
    [catch] reads [error.message] and [error.stack] for its log line. *)
Definition process (callback : Callback World) (message : QueueMessage)
  : Async World unit :=
  try_await (callback message) (deleteMessage (id message))
    (fun error =>
       read_property error "message" ;;; read_property error "stack").

(** One round of [poll]; [timer] is the handle [setTimeout] returns if the
    round schedules the next one. *)
Definition poll (callback : Callback World) (now timer : Z)
  : Async World unit :=
  fun w =>
    if negb (isPolling (this w)) then ret tt w
    else
      (try_catch
         (messages <- receiveMessages
                        (Some {| maxNumberOfMessages := Some 10%Z;
                                 waitTimeSeconds := Some 20%Z;
                                 visibilityTimeout := None |}) now ;;
          for_of messages (process callback))
         (fun _error => ret tt) ;;;
       (fun w' =>
          if isPolling (this w')
          then on_this (set_pollingInterval (Some timer)) w'
          else ret tt w')) w.

(** [subscribe] starts the polling and returns; the rounds of [poll] run
    afterwards. *)
Definition subscribe (callback : Callback World) : Async World unit :=
  fun w =>
    match sqsClient (this w) with
    | None => throw not_initialized w
    | Some _ => on_this (set_isPolling true) w
    end.

Definition close : Async World unit :=
  fun w =>
    let s1 := set_isPolling false (this w) in
    let s2 :=
      match pollingInterval s1 with
      | Some _ => set_pollingInterval None s1
      | None => s1
      end in
    let aws' :=
      match sqsClient s2 with
      | Some client => destroy client (aws w)
      | None => aws w
      end in
    (fulfilled tt, {| this := s2; aws := aws' |}).

End Operations.
End SqsQueueService.

(* ------------------------------------------------------------------ *)
(** ** The amqp connection manager and channel, as the adapter uses them *)

Module Amqp.

(** [amqp.connect(urls)] and [connection.createChannel({ setup })] give
    handles; what is behind them is the broker's. *)
Inductive AmqpConnectionManager : Type := amqp_connect (urls : list string).

Inductive ChannelWrapper : Type :=
  createChannel (connection : AmqpConnectionManager).

Record MessageProperties : Type := {
  props_messageId : option string;
  props_timestamp : option Z;
  props_headers : option JsRecord;
  props_rest : JsRecord
}.

Record MessageFields : Type := {
  fields_deliveryTag : option Z;
  fields_rest : JsRecord
}.

Record ConsumeMessage : Type := {
  content : string;
  fields : option MessageFields;
  properties : option MessageProperties
}.

Record PublishProperties : Type := {
  pub_persistent : bool;
  pub_messageId : string;
  pub_timestamp : Z;
  pub_headers : option JsRecord
}.

(** The own enumerable entries of the two objects, for [{...x}]. *)
Definition properties_entries (p : option MessageProperties) : JsRecord :=
  match p with
  | None => []
  | Some p =>
      [("messageId", of_optional_string (props_messageId p));
       ("timestamp", match props_timestamp p with
                     | Some n => JNum n
                     | None => JUndefined
                     end);
       ("headers", match props_headers p with
                   | Some h => JObj h
                   | None => JUndefined
                   end)] ++ props_rest p
  end%list.

Definition fields_entries (f : option MessageFields) : JsRecord :=
  match f with
  | None => []
  | Some f =>
      ("deliveryTag", match fields_deliveryTag f with
                      | Some n => JNum n
                      | None => JUndefined
                      end) :: fields_rest f
  end.

(** The calls the adapter makes. [channel.ack] and [channel.nack] write a
    frame and return nothing; the others return promises. *)
Class Backend : Type := {
  Broker : Type;
  waitForConnect : Async Broker unit;
  channelWrapper_publish :
    option string -> option string -> string -> PublishProperties ->
    Async Broker unit;
  channel_get : option string -> Async Broker (option ConsumeMessage);
  channel_consume : option string -> Async Broker unit;
  channel_ack : ConsumeMessage -> Broker -> Broker;
  channel_nack : ConsumeMessage -> bool -> bool -> Broker -> Broker;
  channelWrapper_close : Async Broker unit;
  connection_close : Async Broker unit
}.

End Amqp.

(* ------------------------------------------------------------------ *)
(** ** RabbitMqQueueService (providers/rabbitmq-queue.service.ts) *)

Module RabbitMqQueueService.
Import Amqp.

Record t : Type := {
  options : QueueModuleOptions;
  connection : option AmqpConnectionManager;
  channelWrapper : option ChannelWrapper;
  queueName : option string;
  exchangeName : option string;
  routingKey : option string;
  isConnected : bool
}.

Record World `{Backend} : Type := {
  this : t;
  broker : Broker
}.

Definition set_isConnected (b : bool) (s : t) : t :=
  {| options := options s; connection := connection s;
     channelWrapper := channelWrapper s; queueName := queueName s;
     exchangeName := exchangeName s; routingKey := routingKey s;
     isConnected := b |}.

Definition getQueueIdentifier (s : t) : option string :=
  Some (template (exchangeName s) ++ "/" ++ template (queueName s)).

Definition generateMessageId (now : Z) (random36 : string) : string :=
  string_of_Z now ++ "-" ++ substring 2 9 random36.

Definition not_connected : Error := mkError "RabbitMQ is not connected".

(** What [Buffer.from(undefined)] throws. *)
Definition buffer_from_undefined : Error :=
  mkError "The first argument must be of type string or an instance of Buffer, ArrayBuffer, or Array or an Array-like Object. Received undefined".

Section Operations.
Context `{JsRuntime} `{Backend}.

Definition on_broker {A} (m : Async Broker A) : Async World A :=
  lift broker (fun b w => {| this := this w; broker := b |}) m.

Definition tell_broker (f : Broker -> Broker) : Async World unit :=
  modify (fun w => {| this := this w; broker := f (broker w) |}).

Definition on_this (f : t -> t) : Async World unit :=
  modify (fun w => {| this := f (this w); broker := broker w |}).

Definition initializeRabbitMq : Async World unit :=
  fun w =>
    match rabbitmq (options (this w)) with
    | None => ret tt w
    | Some rabbitmq =>
        if falsy_string (RabbitMqOptions.url rabbitmq) then ret tt w
        else
          let conn := amqp_connect [template (RabbitMqOptions.url rabbitmq)] in
          let s :=
            {| options := options (this w);
               connection := Some conn;
               channelWrapper := Some (createChannel conn);
               queueName := RabbitMqOptions.queueName rabbitmq;
               exchangeName := RabbitMqOptions.exchangeName rabbitmq;
               routingKey := RabbitMqOptions.routingKey rabbitmq;
               isConnected := isConnected (this w) |} in
          try_catch (on_broker waitForConnect) (fun error => throw error)
                    {| this := s; broker := broker w |}
    end.

(** [new RabbitMqQueueService(options)]: the constructor starts
    [initializeRabbitMq] and drops its promise. *)
Definition create (opts : QueueModuleOptions) (b : Broker) : World :=
  snd (initializeRabbitMq
         {| this := {| options := opts; connection := None;
                       channelWrapper := None; queueName := None;
                       exchangeName := None; routingKey := None;
                       isConnected := false |};
            broker := b |}).

(** The listeners of the connection's ['connect'] and ['disconnect']. *)
Definition on_connect : Async World unit := on_this (set_isConnected true).
Definition on_disconnect : Async World unit := on_this (set_isConnected false).

Definition mapRabbitMqMessage {W} (msg : ConsumeMessage) (now : Z)
  : Async W QueueMessage :=
  body <- try_catch (call (JSON_parse (content msg)))
                    (fun _ => ret (JStr (content msg))) ;;
  ret {| id := or_string (opt_field (properties msg) props_messageId)
                         (option_map string_of_Z
                            (opt_field (fields msg) fields_deliveryTag));
         body := body;
         attributes :=
           Some (spread (properties_entries (properties msg))
                        (fields_entries (fields msg)));
         timestamp :=
           Some (match opt_field (properties msg) props_timestamp with
                 | Some ts => if (ts =? 0)%Z then DateAt now else DateAt ts
                 | None => DateAt now
                 end) |}.

Definition publish (message : JsVal) (opts : option PublishOptions)
    (now : Z) (random36 : string) : Async World string :=
  fun w =>
    if negb (isConnected (this w)) then throw not_connected w
    else
      let messageId := generateMessageId now random36 in
      match serialize message with
      | None => throw buffer_from_undefined w
      | Some messageBody =>
          try_catch
            (on_broker
               (channelWrapper_publish
                  (exchangeName (this w)) (routingKey (this w)) messageBody
                  {| pub_persistent := true;
                     pub_messageId := messageId;
                     pub_timestamp := now;
                     pub_headers := opt_field opts messageAttributes |}) ;;;
             ret messageId)
            (fun error => throw error) w
      end.

(** The [catch] of the function below: it reads [error.message] and
    [error.stack] for its log line, then requeues. *)
Definition on_error (msg : ConsumeMessage) (error : Thrown) : Async World unit :=
  read_property error "message" ;;;
  read_property error "stack" ;;;
  tell_broker (channel_nack msg false true).

(** The function [subscribe] hands to [channel.consume], for one delivery. *)
Definition on_message (callback : Callback World) (msg : option ConsumeMessage)
    (now : Z) : Async World unit :=
  match msg with
  | None => ret tt
  | Some msg =>
      fun w =>
        match mapRabbitMqMessage msg now w with
        | (fulfilled queueMessage, w') =>
            try_await (callback queueMessage) (tell_broker (channel_ack msg))
                      (on_error msg) w'
        | (rejected e, w') => on_error msg (thrown_error e) w'
        end
  end.

Definition subscribe (callback : Callback World) : Async World unit :=
  fun w =>
    if negb (isConnected (this w)) then throw not_connected w
    else on_broker (channel_consume (queueName (this w))) w.

(** The [for] loop of [receiveMessages], with [n] iterations left. *)
Fixpoint get_loop (n : nat) (now : Z) (messages : list QueueMessage)
  : Async World (list QueueMessage) :=
  match n with
  | O => ret messages
  | S n' =>
      fun w =>
        (msg <- on_broker (channel_get (queueName (this w))) ;;
         match msg with
         | Some m =>
             q <- mapRabbitMqMessage m now ;;
             get_loop n' now (messages ++ [q])%list
         | None => ret messages
         end) w
  end.

Definition receiveMessages (opts : option SubscribeOptions) (now : Z)
  : Async World (list QueueMessage) :=
  fun w =>
    if negb (isConnected (this w)) then throw not_connected w
    else
      let maxMessages := or_number (opt_field opts maxNumberOfMessages) 10 in
      get_loop (Z.to_nat maxMessages) now [] w.

Definition deleteMessage (messageId : option string) : Async World unit :=
  ret tt.

(** The [try] block of [close]. *)
Definition close_attempt : Async World unit :=
  (fun w =>
     match channelWrapper (this w) with
     | Some _ => on_broker channelWrapper_close w
     | None => ret tt w
     end) ;;;
  (fun w =>
     match connection (this w) with
     | Some _ => on_broker connection_close w
     | None => ret tt w
     end) ;;;
  on_this (set_isConnected false).

Definition close : Async World unit :=
  try_catch close_attempt (fun _error => ret tt).

End Operations.
End RabbitMqQueueService.

(* ------------------------------------------------------------------ *)
(** ** Promise combinators

    The children of the composite own disjoint states, so running them one
    after the other gives the results and the states that running them
    together gives. *)

(** [Promise.allSettled([a, b])] *)
Definition allSettled2 {W A} (a b : Async W A) : Async W (list (settled A)) :=
  fun w =>
    let (r1, w1) := a w in
    let (r2, w2) := b w1 in
    (fulfilled [r1; r2], w2).

(** [Promise.all([a, b])] *)
Definition all2 {W A} (a b : Async W A) : Async W (A * A) :=
  fun w =>
    let (r1, w1) := a w in
    let (r2, w2) := b w1 in
    (match r1, r2 with
     | fulfilled x, fulfilled y => fulfilled (x, y)
     | rejected e, _ => rejected e
     | _, rejected e => rejected e
     end, w2).

(* ------------------------------------------------------------------ *)
(** ** CompositeQueueService (providers/composite-queue.service.ts) *)

Module CompositeQueueService.

Record World `{Sqs.Backend} `{Amqp.Backend} : Type := {
  sqsService : SqsQueueService.World;
  rabbitMqService : RabbitMqQueueService.World
}.

Definition all_failed : Error :=
  mkError "Failed to publish message to any queue provider".

(** The [forEach] of [publish]: the ids of the fulfilled results and the
    reasons of the rejected ones, each in the order of [results]. *)
Definition collect (results : list (settled string)) : list string * list Error :=
  fold_left
    (fun acc result =>
       match result with
       | fulfilled value => (fst acc ++ [value], snd acc)
       | rejected reason => (fst acc, snd acc ++ [reason])
       end%list)
    results ([], []).

(** What [publish] makes of the settled results of its children. *)
Definition reconcile {W} (results : list (settled string)) : Async W string :=
  let (successfulIds, errors) := collect results in
  if (length successfulIds =? 0)%nat then throw all_failed
  else ret (join "," successfulIds).

Section Operations.
Context `{JsRuntime} `{Sqs.Backend} `{Amqp.Backend}.

Definition on_sqs {A} (m : Async SqsQueueService.World A) : Async World A :=
  lift sqsService
       (fun s w => {| sqsService := s; rabbitMqService := rabbitMqService w |}) m.

Definition on_rabbitMq {A} (m : Async RabbitMqQueueService.World A)
  : Async World A :=
  lift rabbitMqService
       (fun r w => {| sqsService := sqsService w; rabbitMqService := r |}) m.

Definition create (s : SqsQueueService.World) (r : RabbitMqQueueService.World)
  : World :=
  {| sqsService := s; rabbitMqService := r |}.

Definition publish (message : JsVal) (opts : option PublishOptions)
    (now : Z) (random36 : string) : Async World string :=
  results <- allSettled2
               (on_sqs (SqsQueueService.publish message opts))
               (on_rabbitMq
                  (RabbitMqQueueService.publish message opts now random36)) ;;
  reconcile results.

Definition subscribe (callback : QueueMessage -> Outcome) : Async World unit :=
  all2 (on_sqs (SqsQueueService.subscribe (answering callback)))
       (on_rabbitMq (RabbitMqQueueService.subscribe (answering callback))) ;;;
  ret tt.

Definition receiveMessages (opts : option SubscribeOptions) (now : Z)
  : Async World (list QueueMessage) :=
  received <- all2
                (catch (on_sqs (SqsQueueService.receiveMessages opts now))
                       (fun _err => []))
                (catch (on_rabbitMq
                          (RabbitMqQueueService.receiveMessages opts now))
                       (fun _err => [])) ;;
  let (sqsMessages, rabbitMqMessages) := received in
  ret (sqsMessages ++ rabbitMqMessages)%list.

Definition deleteMessage (messageId : string) : Async World unit :=
  allSettled2
    (on_sqs (SqsQueueService.deleteMessage (Some messageId)))
    (on_rabbitMq (RabbitMqQueueService.deleteMessage (Some messageId))) ;;;
  ret tt.

Definition getQueueIdentifier (w : World) : option string :=
  Some ("composite["
        ++ template (SqsQueueService.getQueueIdentifier
                       (SqsQueueService.this (sqsService w)))
        ++ ","
        ++ template (RabbitMqQueueService.getQueueIdentifier
                       (RabbitMqQueueService.this (rabbitMqService w)))
        ++ "]").

Definition close : Async World unit :=
  all2 (on_sqs SqsQueueService.close)
       (on_rabbitMq RabbitMqQueueService.close) ;;;
  ret tt.

(** [deleteMessage] as a caller reaches it with [msg.id]. *)
Definition deleteMessage_id (messageId : option string) : Async World unit :=
  allSettled2
    (on_sqs (SqsQueueService.deleteMessage messageId))
    (on_rabbitMq (RabbitMqQueueService.deleteMessage messageId)) ;;;
  ret tt.

End Operations.
End CompositeQueueService.

(* ------------------------------------------------------------------ *)
(** ** QueueModule (queue.module.ts): the provider selection *)

Module QueueModule.

(** The instance the factory of [QUEUE_SERVICE] hands out. *)
Inductive QueueServiceRef (S R C M : Type) : Type :=
| sqs_instance (sqsService : S)
| rabbitMq_instance (rabbitMqService : R)
| composite_instance (compositeService : C)
| mock_instance (mockService : M).
Arguments sqs_instance {S R C M} sqsService.
Arguments rabbitMq_instance {S R C M} rabbitMqService.
Arguments composite_instance {S R C M} compositeService.
Arguments mock_instance {S R C M} mockService.

Definition unknown_provider (p : string) : Error :=
  mkError ("Unknown queue provider: " ++ p).

(** The [useFactory] of [QUEUE_SERVICE]; [forRoot] and [forRootAsync] carry
    the same one. *)
Definition useFactory {S R C M} (opts : QueueModuleOptions)
    (sqsService : S) (rabbitMqService : R) (compositeService : C)
    (mockService : M) : settled (QueueServiceRef S R C M) :=
  if provider opts =? "sqs" then fulfilled (sqs_instance sqsService)
  else if provider opts =? "rabbitmq" then fulfilled (rabbitMq_instance rabbitMqService)
  else if provider opts =? "both" then fulfilled (composite_instance compositeService)
  else if provider opts =? "mock" then fulfilled (mock_instance mockService)
  else rejected (unknown_provider (provider opts)).

(** [configService.get(key, defaultValue)] over the environment. *)
Definition config_get (env : string -> option string) (key : string)
    (defaultValue : option string) : option string :=
  match env key with
  | Some v => Some v
  | None => defaultValue
  end.

(** The [useFactory] of [QUEUE_OPTIONS] in [forRoot]. *)
Definition optionsFactory (env : string -> option string) : QueueModuleOptions :=
  {| provider := template (config_get env "QUEUE_PROVIDER" (Some "rabbitmq"));
     sqs := Some
       {| SqsOptions.region := config_get env "AWS_REGION" (Some "us-east-1");
          SqsOptions.endpoint := config_get env "AWS_ENDPOINT" None;
          SqsOptions.queueUrl := config_get env "SQS_QUEUE_URL" None;
          SqsOptions.accessKeyId := config_get env "AWS_ACCESS_KEY_ID" None;
          SqsOptions.secretAccessKey := config_get env "AWS_SECRET_ACCESS_KEY" None |};
     rabbitmq := Some
       {| RabbitMqOptions.url :=
            config_get env "RABBITMQ_URL" (Some "amqp://localhost:5672");
          RabbitMqOptions.queueName :=
            config_get env "RABBITMQ_QUEUE_NAME" (Some "test-queue");
          RabbitMqOptions.exchangeName :=
            config_get env "RABBITMQ_EXCHANGE_NAME" (Some "test-exchange");
          RabbitMqOptions.routingKey :=
            config_get env "RABBITMQ_ROUTING_KEY" (Some "test-routing-key") |} |}.

Section Startup.
Context `{JsRuntime} `{Sqs.Backend} `{Amqp.Backend}.

(** What the container does with the providers of the module when it is
    built: the options, one instance of every adapter, then the selection. *)
Definition instantiate (opts : QueueModuleOptions) (aws : Sqs.Aws)
    (broker : Amqp.Broker)
  : settled (QueueServiceRef SqsQueueService.World RabbitMqQueueService.World
                             CompositeQueueService.World MockQueueService.t) :=
  let sqsService :=
    {| SqsQueueService.this := SqsQueueService.create opts;
       SqsQueueService.aws := aws |} in
  let rabbitMqService := RabbitMqQueueService.create opts broker in
  let compositeService := CompositeQueueService.create sqsService rabbitMqService in
  let mockService := MockQueueService.create in
  useFactory opts sqsService rabbitMqService compositeService mockService.

Definition forRoot (env : string -> option string) (aws : Sqs.Aws)
    (broker : Amqp.Broker) :=
  instantiate (optionsFactory env) aws broker.

End Startup.
End QueueModule.

(* ------------------------------------------------------------------ *)
(** ** A reference runtime and two in-memory brokers

    Concrete instances of the three interfaces, to run the adapters on
    concrete inputs: a JSON reader and printer for the texts whose numbers
    are integers and whose strings use the one-letter escapes, and brokers
    that keep their queue in a list. *)

Module Reference.

Definition dquote : ascii := "034"%char.
Definition backslash : ascii := "092"%char.

Definition is_ws (c : ascii) : bool :=
  ((c =? " ") || (c =? "009") || (c =? "010") || (c =? "013"))%char.

Fixpoint skip_ws (s : string) : string :=
  match s with
  | String c r => if is_ws c then skip_ws r else s
  | EmptyString => s
  end.

Definition digit_of (c : ascii) : option Z :=
  let n := nat_of_ascii c in
  if ((48 <=? n) && (n <=? 57))%nat then Some (Z.of_nat (n - 48)) else None.

Definition hex_digit_of (c : ascii) : option Z :=
  let n := nat_of_ascii c in
  if ((48 <=? n) && (n <=? 57))%nat then Some (Z.of_nat (n - 48))
  else if ((97 <=? n) && (n <=? 102))%nat then Some (Z.of_nat (n - 87))
  else if ((65 <=? n) && (n <=? 70))%nat then Some (Z.of_nat (n - 55))
  else None.

(** The longest run of digits in front of [s], read in base [radix] after
    the digits already read into [acc]. *)
Fixpoint read_digits (digit : ascii -> option Z) (radix acc : Z) (s : string)
  : Z * string :=
  match s with
  | String c r =>
      match digit c with
      | Some d => read_digits digit radix (acc * radix + d)%Z r
      | None => (acc, s)
      end
  | EmptyString => (acc, s)
  end.

Definition read_number (digit : ascii -> option Z) (radix : Z) (s : string)
  : option (Z * string) :=
  match s with
  | String c r =>
      match digit c with
      | Some d => Some (read_digits digit radix d r)
      | None => None
      end
  | EmptyString => None
  end.

Definition parse_int (s : string) : option Z :=
  let s := skip_ws s in
  let (negative, s) :=
    match s with
    | String "-" r => (true, r)
    | String "+" r => (false, r)
    | _ => (false, s)
    end in
  let magnitude :=
    match s with
    | String "0" (String "x" r) | String "0" (String "X" r) =>
        read_number hex_digit_of 16 r
    | _ => read_number digit_of 10 s
    end in
  match magnitude with
  | Some (n, _) => Some (if negative then (- n)%Z else n)
  | None => None
  end.

Definition unescape (c : ascii) : option ascii :=
  (if c =? dquote then Some dquote
   else if c =? backslash then Some backslash
   else if c =? "/" then Some "/"
   else if c =? "b" then Some "008"
   else if c =? "f" then Some "012"
   else if c =? "n" then Some "010"
   else if c =? "r" then Some "013"
   else if c =? "t" then Some "009"
   else None)%char.

(** The characters of a JSON string up to its closing quote. *)
Fixpoint read_string (s : string) : option (string * string) :=
  match s with
  | EmptyString => None
  | String c r =>
      if (c =? dquote)%char then Some (EmptyString, r)
      else if (c =? backslash)%char then
        match r with
        | String e r' =>
            match unescape e, read_string r' with
            | Some ch, Some (text, rest) => Some (String ch text, rest)
            | _, _ => None
            end
        | EmptyString => None
        end
      else if (nat_of_ascii c <? 32)%nat then None
      else
        match read_string r with
        | Some (text, rest) => Some (String c text, rest)
        | None => None
        end
  end.

Definition drop_prefix (p s : string) : option string :=
  if String.prefix p s
  then Some (substring (String.length p) (String.length s - String.length p) s)
  else None.

Definition read_integer (s : string) : option (Z * string) :=
  match s with
  | String "0" r => Some (0%Z, r)
  | _ => read_number digit_of 10 s
  end.

Fixpoint parse_value (fuel : nat) (s : string) {struct fuel}
  : option (JsVal * string) :=
  match fuel with
  | O => None
  | S fuel =>
      match skip_ws s with
      | EmptyString => None
      | String c r =>
          (if c =? "n" then option_map (pair JNull) (drop_prefix "ull" r)
           else if c =? "t" then option_map (pair (JBool true)) (drop_prefix "rue" r)
           else if c =? "f" then option_map (pair (JBool false)) (drop_prefix "alse" r)
           else if c =? dquote then
             option_map (fun p => (JStr (fst p), snd p)) (read_string r)
           else if c =? "[" then
             match skip_ws r with
             | String "]" r' => Some (JArr [], r')
             | _ => option_map (fun p => (JArr (fst p), snd p)) (parse_items fuel r)
             end
           else if c =? "{" then
             match skip_ws r with
             | String "}" r' => Some (JObj [], r')
             | _ =>
                 option_map (fun p => (JObj (spread [] (fst p)), snd p))
                            (parse_members fuel r)
             end
           else if c =? "-" then
             option_map (fun p => (JNum (- fst p), snd p)) (read_integer r)
           else
             option_map (fun p => (JNum (fst p), snd p)) (read_integer (String c r))
          )%char
      end
  end
with parse_items (fuel : nat) (s : string) {struct fuel}
  : option (list JsVal * string) :=
  match fuel with
  | O => None
  | S fuel =>
      match parse_value fuel s with
      | Some (v, r) =>
          match skip_ws r with
          | String "," r' =>
              option_map (fun p => (v :: fst p, snd p)) (parse_items fuel r')
          | String "]" r' => Some ([v], r')
          | _ => None
          end
      | None => None
      end
  end
with parse_members (fuel : nat) (s : string) {struct fuel}
  : option (list (string * JsVal) * string) :=
  match fuel with
  | O => None
  | S fuel =>
      match skip_ws s with
      | String c r =>
          if (c =? dquote)%char then
            match read_string r with
            | Some (key, r1) =>
                match skip_ws r1 with
                | String ":" r2 =>
                    match parse_value fuel r2 with
                    | Some (v, r3) =>
                        match skip_ws r3 with
                        | String "," r4 =>
                            option_map (fun p => ((key, v) :: fst p, snd p))
                                       (parse_members fuel r4)
                        | String "}" r4 => Some ([(key, v)], r4)
                        | _ => None
                        end
                    | None => None
                    end
                | _ => None
                end
            | None => None
            end
          else None
      | EmptyString => None
      end
  end.

Definition syntax_error : Error := mkError "Unexpected token in JSON".

Definition json_parse (s : string) : settled JsVal :=
  match parse_value (2 * String.length s + 2) s with
  | Some (v, rest) =>
      match skip_ws rest with
      | EmptyString => fulfilled v
      | _ => rejected syntax_error
      end
  | None => rejected syntax_error
  end.

Definition escape (c : ascii) : string :=
  (if c =? dquote then String backslash (String dquote EmptyString)
   else if c =? backslash then String backslash (String backslash EmptyString)
   else if c =? "008" then String backslash "b"
   else if c =? "012" then String backslash "f"
   else if c =? "010" then String backslash "n"
   else if c =? "013" then String backslash "r"
   else if c =? "009" then String backslash "t"
   else String c EmptyString)%char.

Fixpoint quote_chars (s : string) : string :=
  match s with
  | EmptyString => String dquote EmptyString
  | String c r => escape c ++ quote_chars r
  end.

Definition quote (s : string) : string := String dquote (quote_chars s).

Fixpoint json_stringify (v : JsVal) : option string :=
  match v with
  | JUndefined => None
  | JNull => Some "null"
  | JBool true => Some "true"
  | JBool false => Some "false"
  | JNum n => Some (string_of_Z n)
  | JStr s => Some (quote s)
  | JArr items =>
      Some ("[" ++ join ","
                     (map (fun item =>
                             match json_stringify item with
                             | Some text => text
                             | None => "null"
                             end) items)
                ++ "]")
  | JObj entries =>
      Some ("{" ++ join ","
                     (flat_map
                        (fun entry =>
                           match entry with
                           | (key, value) =>
                               match json_stringify value with
                               | Some text => [quote key ++ ":" ++ text]
                               | None => []
                               end
                           end) entries)
                ++ "}")
  end.

Definition runtime : JsRuntime :=
  {| JSON_parse := json_parse;
     JSON_stringify := json_stringify;
     parseInt := parse_int |}.

(** An SQS queue kept in a list: a sent message joins the back, a receive
    shows the front of the list and a delete removes by receipt handle. *)
Record MemoryQueue : Type := {
  stored : list Sqs.Message;
  sent : Z
}.

Definition has_handle (h : option string) (m : Sqs.Message) : bool :=
  match h, Sqs.ReceiptHandle m with
  | Some a, Some b => a =? b
  | _, _ => false
  end.

Definition memory_send (client : Sqs.SQSClient) (command : Sqs.SendMessageCommand)
  : Async MemoryQueue Sqs.SendMessageOutput :=
  fun q =>
    match Sqs.send_MessageBody command with
    | None => (rejected (mkError "The request must contain the parameter MessageBody."), q)
    | Some text =>
        let n := (sent q + 1)%Z in
        let m :=
          {| Sqs.MessageId := Some ("id-" ++ string_of_Z n);
             Sqs.ReceiptHandle := Some ("rh-" ++ string_of_Z n);
             Sqs.Body := Some text;
             Sqs.Attributes := None;
             Sqs.MessageAttributes := Sqs.send_MessageAttributes command |} in
        (fulfilled {| Sqs.out_MessageId := "id-" ++ string_of_Z n |},
         {| stored := (stored q ++ [m])%list; sent := n |})
    end.

Definition memory_receive (client : Sqs.SQSClient)
    (command : Sqs.ReceiveMessageCommand)
  : Async MemoryQueue Sqs.ReceiveMessageOutput :=
  fun q =>
    match firstn (Z.to_nat (Sqs.recv_MaxNumberOfMessages command)) (stored q) with
    | [] => (fulfilled {| Sqs.out_Messages := None |}, q)
    | l => (fulfilled {| Sqs.out_Messages := Some l |}, q)
    end.

Definition memory_delete (client : Sqs.SQSClient)
    (command : Sqs.DeleteMessageCommand) : Async MemoryQueue unit :=
  fun q =>
    if existsb (has_handle (Sqs.del_ReceiptHandle command)) (stored q)
    then (fulfilled tt,
          {| stored :=
               filter (fun m => negb (has_handle (Sqs.del_ReceiptHandle command) m))
                      (stored q);
             sent := sent q |})
    else (rejected (mkError "The input receipt handle is invalid."), q).

Definition sqs_backend : Sqs.Backend :=
  {| Sqs.Aws := MemoryQueue;
     Sqs.send_SendMessage := memory_send;
     Sqs.send_ReceiveMessage := memory_receive;
     Sqs.send_DeleteMessage := memory_delete;
     Sqs.destroy := fun _ q => q |}.

(** An amqp queue kept in two lists: the messages that are ready and the
    ones delivered and not yet acknowledged. *)
Record MemoryBroker : Type := {
  ready : list Amqp.ConsumeMessage;
  unacked : list Amqp.ConsumeMessage;
  delivered : Z
}.

Definition same_tag (a b : Amqp.ConsumeMessage) : bool :=
  match opt_field (Amqp.fields a) Amqp.fields_deliveryTag,
        opt_field (Amqp.fields b) Amqp.fields_deliveryTag with
  | Some x, Some y => (x =? y)%Z
  | _, _ => false
  end.

Definition memory_publish (exchange routingKey : option string) (text : string)
    (props : Amqp.PublishProperties) : Async MemoryBroker unit :=
  fun b =>
    let m :=
      {| Amqp.content := text;
         Amqp.fields := None;
         Amqp.properties :=
           Some {| Amqp.props_messageId := Some (Amqp.pub_messageId props);
                   Amqp.props_timestamp := Some (Amqp.pub_timestamp props);
                   Amqp.props_headers := Amqp.pub_headers props;
                   Amqp.props_rest := [] |} |} in
    (fulfilled tt,
     {| ready := (ready b ++ [m])%list; unacked := unacked b;
        delivered := delivered b |}).

Definition memory_get (queue : option string)
  : Async MemoryBroker (option Amqp.ConsumeMessage) :=
  fun b =>
    match ready b with
    | [] => (fulfilled None, b)
    | m :: rest =>
        let n := (delivered b + 1)%Z in
        let m' :=
          {| Amqp.content := Amqp.content m;
             Amqp.fields :=
               Some {| Amqp.fields_deliveryTag := Some n; Amqp.fields_rest := [] |};
             Amqp.properties := Amqp.properties m |} in
        (fulfilled (Some m'),
         {| ready := rest; unacked := (unacked b ++ [m'])%list; delivered := n |})
    end.

Definition memory_ack (m : Amqp.ConsumeMessage) (b : MemoryBroker) : MemoryBroker :=
  {| ready := ready b;
     unacked := filter (fun u => negb (same_tag m u)) (unacked b);
     delivered := delivered b |}.

Definition memory_nack (m : Amqp.ConsumeMessage) (allUpTo requeue : bool)
    (b : MemoryBroker) : MemoryBroker :=
  {| ready := if requeue then m :: ready b else ready b;
     unacked := filter (fun u => negb (same_tag m u)) (unacked b);
     delivered := delivered b |}.

Definition amqp_backend : Amqp.Backend :=
  {| Amqp.Broker := MemoryBroker;
     Amqp.waitForConnect := ret tt;
     Amqp.channelWrapper_publish := memory_publish;
     Amqp.channel_get := memory_get;
     Amqp.channel_consume := fun _ => ret tt;
     Amqp.channel_ack := memory_ack;
     Amqp.channel_nack := memory_nack;
     Amqp.channelWrapper_close := ret tt;
     Amqp.connection_close := ret tt |}.

Definition empty_queue : MemoryQueue := {| stored := []; sent := 0 |}.

Definition empty_broker : MemoryBroker :=
  {| ready := []; unacked := []; delivered := 0 |}.

(** Options with neither backend configured, and with both. *)
Definition unconfigured (p : string) : QueueModuleOptions :=
  {| provider := p; sqs := None; rabbitmq := None |}.

Definition configured (p : string) : QueueModuleOptions :=
  {| provider := p;
     sqs := Some
       {| SqsOptions.region := Some "us-east-1";
          SqsOptions.endpoint := Some "http://localhost:4566";
          SqsOptions.queueUrl := Some "http://localhost:4566/000000000000/test-queue";
          SqsOptions.accessKeyId := Some "test";
          SqsOptions.secretAccessKey := Some "test" |};
     rabbitmq := Some
       {| RabbitMqOptions.url := Some "amqp://localhost:5672";
          RabbitMqOptions.queueName := Some "test-queue";
          RabbitMqOptions.exchangeName := Some "test-exchange";
          RabbitMqOptions.routingKey := Some "test-routing-key" |} |}.

(** The adapters the container builds from [opts] over the empty brokers;
    the RabbitMQ one is also given after its connection came up. *)
Definition sqs_service (opts : QueueModuleOptions)
  : @SqsQueueService.World sqs_backend :=
  @SqsQueueService.Build_World sqs_backend (SqsQueueService.create opts) empty_queue.

Definition rabbitMq_service (opts : QueueModuleOptions)
  : @RabbitMqQueueService.World amqp_backend :=
  @RabbitMqQueueService.create amqp_backend opts empty_broker.

Definition rabbitMq_service_connected (opts : QueueModuleOptions)
  : @RabbitMqQueueService.World amqp_backend :=
  snd (@RabbitMqQueueService.on_connect amqp_backend (rabbitMq_service opts)).

Definition composite_service (opts : QueueModuleOptions)
  : @CompositeQueueService.World sqs_backend amqp_backend :=
  @CompositeQueueService.create sqs_backend amqp_backend
    (sqs_service opts) (rabbitMq_service_connected opts).

End Reference.

(* ------------------------------------------------------------------ *)
(** ** Calls through the interface

    The controller and the consumer hold an [IQueueService] and call its
    methods; which class answers depends on the instance the selection
    handed out. *)

Module QueueService.
Import QueueModule.

Section Dispatch.
Context `{JsRuntime} `{Sqs.Backend} `{Amqp.Backend}.

Definition IQueueService : Type :=
  QueueServiceRef SqsQueueService.World RabbitMqQueueService.World
                  CompositeQueueService.World MockQueueService.t.

(** Run a method of the class of the instance, on the instance. *)
Definition dispatch {A}
    (on_sqs : Async SqsQueueService.World A)
    (on_rabbitMq : Async RabbitMqQueueService.World A)
    (on_composite : Async CompositeQueueService.World A)
    (on_mock : Async MockQueueService.t A) : Async IQueueService A :=
  fun svc =>
    match svc with
    | sqs_instance s => let (r, s') := on_sqs s in (r, sqs_instance s')
    | rabbitMq_instance s => let (r, s') := on_rabbitMq s in (r, rabbitMq_instance s')
    | composite_instance s => let (r, s') := on_composite s in (r, composite_instance s')
    | mock_instance s => let (r, s') := on_mock s in (r, mock_instance s')
    end.

Definition publish (message : JsVal) (opts : option PublishOptions)
    (now : Z) (random36 : string) : Async IQueueService string :=
  dispatch (SqsQueueService.publish message opts)
           (RabbitMqQueueService.publish message opts now random36)
           (CompositeQueueService.publish message opts now random36)
           (MockQueueService.publish message opts now).

Definition receiveMessages (opts : option SubscribeOptions) (now : Z)
  : Async IQueueService (list QueueMessage) :=
  dispatch (SqsQueueService.receiveMessages opts now)
           (RabbitMqQueueService.receiveMessages opts now)
           (CompositeQueueService.receiveMessages opts now)
           (MockQueueService.receiveMessages opts).

Definition deleteMessage (messageId : string) : Async IQueueService unit :=
  dispatch (SqsQueueService.deleteMessage (Some messageId))
           (RabbitMqQueueService.deleteMessage (Some messageId))
           (CompositeQueueService.deleteMessage messageId)
           (MockQueueService.deleteMessage messageId).

Definition close : Async IQueueService unit :=
  dispatch SqsQueueService.close RabbitMqQueueService.close
           CompositeQueueService.close MockQueueService.close.

Definition getQueueIdentifier (svc : IQueueService) : option string :=
  match svc with
  | sqs_instance s => SqsQueueService.getQueueIdentifier (SqsQueueService.this s)
  | rabbitMq_instance s =>
      RabbitMqQueueService.getQueueIdentifier (RabbitMqQueueService.this s)
  | composite_instance s => CompositeQueueService.getQueueIdentifier s
  | mock_instance s => MockQueueService.getQueueIdentifier s
  end.

(** The fields of the adapter itself, without what its broker holds. *)
Inductive Fields : Type :=
| sqs_fields (s : SqsQueueService.t)
| rabbitMq_fields (r : RabbitMqQueueService.t)
| composite_fields (s : SqsQueueService.t) (r : RabbitMqQueueService.t)
| mock_fields (m : MockQueueService.t).

Definition fields_of (svc : IQueueService) : Fields :=
  match svc with
  | sqs_instance s => sqs_fields (SqsQueueService.this s)
  | rabbitMq_instance s => rabbitMq_fields (RabbitMqQueueService.this s)
  | composite_instance s =>
      composite_fields
        (SqsQueueService.this (CompositeQueueService.sqsService s))
        (RabbitMqQueueService.this (CompositeQueueService.rabbitMqService s))
  | mock_instance s => mock_fields s
  end.

Definition subscribe (callback : QueueMessage -> Outcome)
  : Async IQueueService unit :=
  dispatch (SqsQueueService.subscribe (answering callback))
           (RabbitMqQueueService.subscribe (answering callback))
           (CompositeQueueService.subscribe callback)
           (MockQueueService.subscribe (answering callback)).

(** [deleteMessage(msg.id)], the id being a string or [undefined]. *)
Definition deleteMessage_id (messageId : option string)
  : Async IQueueService unit :=
  dispatch (SqsQueueService.deleteMessage messageId)
           (RabbitMqQueueService.deleteMessage messageId)
           (CompositeQueueService.deleteMessage_id messageId)
           (MockQueueService.deleteMessage_id messageId).

End Dispatch.
End QueueService.

(* ------------------------------------------------------------------ *)
(** ** QueueConsumerService (queue-consumer.service.ts) *)

Module QueueConsumerService.

(** What destructuring [message.body] throws when the body is [null] or
    [undefined]. *)
Definition cannot_destructure (what : string) : Error :=
  mkError ("Cannot destructure property 'message' of 'message.body' as it is "
           ++ what ++ ".").

(** What the template literal throws on a value it cannot convert. *)
Definition cannot_convert : Error :=
  mkError "Cannot convert object to primitive value".

(** [handleMessage]: inside its [try] the body is destructured, [content]
    is printed by a template literal, [metadata] by [JSON.stringify] (which
    throws on no value of [JsVal]), and the processing is a timer that
    always ends; whatever is thrown is logged, it is an [Error], and thrown
    again. *)
Definition handleMessage (message : QueueMessage) : settled unit :=
  match body message with
  | JUndefined => rejected (cannot_destructure "undefined")
  | JNull => rejected (cannot_destructure "null")
  | body =>
      let content := member "message" body in
      if to_string_throws content then rejected cannot_convert
      else fulfilled tt
  end.

Section Consumer.
Context `{JsRuntime} `{Sqs.Backend} `{Amqp.Backend}.

(** The callback [startConsuming] subscribes awaits [handleMessage]. *)
Definition startConsuming : Async QueueService.IQueueService unit :=
  QueueService.subscribe (fun message => outcome_of (handleMessage message)).

End Consumer.
End QueueConsumerService.

(* ------------------------------------------------------------------ *)
(** ** QueueController (queue.controller.ts)

    One [now] stands for the clock reads of a request, [toISOString] for
    the text of a time; the bulk publish reads the clock once more when it
    ends. *)

Module QueueController.

Record PublishMessageDto : Type := {
  dto_message : string;
  dto_metadata : option JsRecord
}.

Record ReceiveMessagesDto : Type := {
  maxMessages : option Z;
  dto_waitTimeSeconds : option Z
}.

(** The two shapes of every answer: [{ success: true, ... }] and
    [{ success: false, error, timestamp }]. *)
Inductive Response (A : Type) : Type :=
| success (payload : A) (timestamp : string)
| failure (error : string) (timestamp : string).
Arguments success {A} payload timestamp.
Arguments failure {A} error timestamp.

Record Published : Type := {
  messageId : string;
  published_queueIdentifier : option string
}.

Record Received : Type := {
  count : Z;
  received_messages : list QueueMessage;
  received_queueIdentifier : option string
}.

Record BulkItem : Type := {
  messageNumber : Z;
  item_messageId : string;
  item_timestamp : string
}.

Record BulkPublished : Type := {
  totalPublished : Z;
  bulk_messages : list BulkItem;
  bulk_queueIdentifier : option string;
  durationMs : Z
}.

Record Cleared : Type := {
  messagesCleared : Z;
  cleared_queueIdentifier : option string
}.

Record QueueInfo : Type := {
  info_queueIdentifier : option string;
  info_timestamp : string
}.

Definition object_or_undefined (r : option JsRecord) : JsVal :=
  match r with
  | Some entries => JObj entries
  | None => JUndefined
  end.

Section Endpoints.
Context `{JsRuntime} `{Sqs.Backend} `{Amqp.Backend}.
Variable toISOString : Z -> string.

Definition identifier : Async QueueService.IQueueService (option string) :=
  fun svc => (fulfilled (QueueService.getQueueIdentifier svc), svc).

Definition publishMessage (publishDto : PublishMessageDto) (now : Z)
    (random36 : string)
  : Async QueueService.IQueueService (Response Published) :=
  try_catch
    (messageId <- QueueService.publish
                    (JObj [("message", JStr (dto_message publishDto));
                           ("metadata", object_or_undefined (dto_metadata publishDto));
                           ("timestamp", JStr (toISOString now))])
                    (Some {| delaySeconds := None;
                             messageAttributes := dto_metadata publishDto |})
                    now random36 ;;
     queueIdentifier <- identifier ;;
     ret (success {| messageId := messageId;
                     published_queueIdentifier := queueIdentifier |}
                  (toISOString now)))
    (fun error => ret (failure (message error) (toISOString now))).

Definition receiveMessages (receiveDto : ReceiveMessagesDto) (now : Z)
  : Async QueueService.IQueueService (Response Received) :=
  try_catch
    (messages <- QueueService.receiveMessages
                   (Some {| maxNumberOfMessages :=
                              Some (or_number (maxMessages receiveDto) 10);
                            waitTimeSeconds :=
                              Some (or_number (dto_waitTimeSeconds receiveDto) 10);
                            visibilityTimeout := None |})
                   now ;;
     queueIdentifier <- identifier ;;
     ret (success {| count := Z.of_nat (length messages);
                     received_messages := messages;
                     received_queueIdentifier := queueIdentifier |}
                  (toISOString now)))
    (fun error => ret (failure (message error) (toISOString now))).

Definition getQueueInfo (now : Z) (svc : QueueService.IQueueService) : QueueInfo :=
  {| info_queueIdentifier := QueueService.getQueueIdentifier svc;
     info_timestamp := toISOString now |}.

(** The [for] loop of [publishBulkMessages], for the indices that are
    left; [clock i] and [random i] are what [Date] and [Math.random] give
    during the round of index [i]. *)
Fixpoint publish_each (indices : list Z) (clock : Z -> Z) (random : Z -> string)
    (results : list BulkItem)
  : Async QueueService.IQueueService (list BulkItem) :=
  match indices with
  | [] => ret results
  | i :: rest =>
      messageId <- QueueService.publish
                     (JObj [("message", JStr ("Test message #" ++ string_of_Z i));
                            ("metadata",
                             JObj [("testNumber", JNum i);
                                   ("batch", JBool true);
                                   ("timestamp", JStr (toISOString (clock i)))])])
                     (Some {| delaySeconds := None;
                              messageAttributes :=
                                Some [("testNumber", JStr (string_of_Z i));
                                      ("batch", JStr "true")] |})
                     (clock i) (random i) ;;
      publish_each rest clock random
        (results ++ [{| messageNumber := i;
                        item_messageId := messageId;
                        item_timestamp := toISOString (clock i) |}])%list
  end.

(** The values [i] takes in [for (let i = 1; i <= count; i++)]. *)
Definition indices_up_to (count : Z) : list Z :=
  map Z.of_nat (seq 1 (Z.to_nat count)).

Definition publishBulkMessages (requested : option Z) (startTime endTime : Z)
    (clock : Z -> Z) (random : Z -> string)
  : Async QueueService.IQueueService (Response BulkPublished) :=
  let count := match requested with Some n => n | None => 5%Z end in
  try_catch
    (results <- publish_each (indices_up_to count) clock random [] ;;
     queueIdentifier <- identifier ;;
     ret (success {| totalPublished := count;
                     bulk_messages := results;
                     bulk_queueIdentifier := queueIdentifier;
                     durationMs := (endTime - startTime)%Z |}
                  (toISOString endTime)))
    (fun error => ret (failure (message error) (toISOString endTime))).

Definition ten : option SubscribeOptions :=
  Some {| maxNumberOfMessages := Some 10%Z;
          waitTimeSeconds := None;
          visibilityTimeout := None |}.

Definition delete_all (messages : list QueueMessage)
  : Async QueueService.IQueueService unit :=
  SqsQueueService.for_of messages
    (fun msg => QueueService.deleteMessage_id (id msg)).

(** The [while] loop of [clearAllMessages], entered with the messages the
    last receive gave; [None] when [fuel] rounds were not enough. *)
Fixpoint clear_more (fuel : nat) (additionalMessages : list QueueMessage)
    (totalCleared : Z) (now : Z)
  : Async QueueService.IQueueService (option Z) :=
  match additionalMessages with
  | [] => ret (Some totalCleared)
  | _ :: _ =>
      match fuel with
      | O => ret None
      | S fuel' =>
          delete_all additionalMessages ;;;
          (next <- QueueService.receiveMessages ten now ;;
           clear_more fuel' next
             (totalCleared + Z.of_nat (length additionalMessages))%Z now)
      end
  end.

Definition clearAllMessages (fuel : nat) (now : Z)
  : Async QueueService.IQueueService (option (Response Cleared)) :=
  try_catch
    (messages <- QueueService.receiveMessages ten now ;;
     delete_all messages ;;;
     (additionalMessages <- QueueService.receiveMessages ten now ;;
      (total <- clear_more fuel additionalMessages
                  (Z.of_nat (length messages)) now ;;
       match total with
       | None => ret None
       | Some totalCleared =>
           queueIdentifier <- identifier ;;
           ret (Some (success {| messagesCleared := totalCleared;
                                 cleared_queueIdentifier := queueIdentifier |}
                              (toISOString now)))
       end)))
    (fun error => ret (Some (failure (message error) (toISOString now)))).

End Endpoints.
End QueueController.

(* ------------------------------------------------------------------ *)
(** ** AppController (app.controller.ts) *)

Module AppController.

(** [getWelcome]; [env] is the environment of the process, the one the
    [ConfigService] of [QueueModule.forRoot] reads too. *)
Definition getWelcome (env : string -> option string) : JsVal :=
  JObj [("message", JStr "NestJS Queue API");
        ("version", JStr "1.0.0");
        ("status", JStr "running");
        ("endpoints",
         JObj [("queueInfo", JStr "GET /queue/info");
               ("publishMessage", JStr "POST /queue/publish");
               ("receiveMessages", JStr "GET /queue/receive")]);
        ("documentation",
         JObj [("readme", JStr "See README.md for complete documentation");
               ("quickstart", JStr "See QUICKSTART.md to get started");
               ("examples", JStr "See API-EXAMPLES.md for usage examples")]);
        ("queue",
         JObj [("provider", JStr (or_default (env "QUEUE_PROVIDER") "mock"));
               ("status", JStr "operational")])].

End AppController.

(* ------------------------------------------------------------------ *)
(** ** The vocabulary of the properties *)

Module Spec.
Import QueueModule.

(** What a promise contributes once [.catch(() => [])] is applied to it. *)
Definition contribution {A} (r : settled (list A)) : list A :=
  match r with
  | fulfilled l => l
  | rejected _ => []
  end.

(** The messages [publish] is called with, one call per element: the
    message, its options and the time of the call. *)
Definition publish_all (calls : list (JsVal * option PublishOptions * Z)) (s : MockQueueService.t)
  : MockQueueService.t :=
  fold_left (fun s c => snd (MockQueueService.publish (fst (fst c)) (snd (fst c)) (snd c) s)) calls s.

(** The comma-separated components of a composite id: [id.split(',')]. *)
Fixpoint components (s : string) : list string :=
  match s with
  | EmptyString => [EmptyString]
  | String c r =>
      if (c =? ",")%char then EmptyString :: components r
      else
        match components r with
        | first :: others => String c first :: others
        | [] => [String c EmptyString]
        end
  end.

Fixpoint comma_free (s : string) : bool :=
  match s with
  | EmptyString => true
  | String c r => negb (c =? ",")%char && comma_free r
  end.

(** The provider names of [QueueModuleOptions]. *)
Definition known_providers : list string := ["sqs"; "rabbitmq"; "both"; "mock"].

(** [!sqs?.queueUrl] and [!rabbitmq?.url], the tests of the two
    initialisers. *)
Definition sqs_unconfigured (opts : QueueModuleOptions) : bool :=
  falsy_string (opt_field (sqs opts) SqsOptions.queueUrl).

Definition rabbitMq_unconfigured (opts : QueueModuleOptions) : bool :=
  falsy_string (opt_field (rabbitmq opts) RabbitMqOptions.url).

(** An environment that selects SQS and gives no queue URL. *)
Definition env_sqs_without_url (key : string) : option string :=
  if key =? "QUEUE_PROVIDER" then Some "sqs" else None.

(** A payload that is no JSON text, as each broker delivers it. *)
Definition sqs_plain_text : Sqs.Message :=
  {| Sqs.MessageId := Some "bc6b80c3-defc-48ca-b81f-e135b93e81a3";
     Sqs.ReceiptHandle := Some "AQEBwJnKyrHigUMZj6rYigCgxlaS3SLy0a";
     Sqs.Body := Some "hello, queue";
     Sqs.Attributes := Some [("SentTimestamp", "1763642060497")];
     Sqs.MessageAttributes := None |}.

Definition rabbitMq_plain_text : Amqp.ConsumeMessage :=
  {| Amqp.content := "{message: hi}";
     Amqp.fields :=
       Some {| Amqp.fields_deliveryTag := Some 1%Z; Amqp.fields_rest := [] |};
     Amqp.properties := None |}.

Section WithBackends.
Context `{JsRuntime} `{Sqs.Backend} `{Amqp.Backend}.

(** The outcome of each child's own call, in the state the composite is in. *)
Definition sqs_publish_result (message : JsVal) (opts : option PublishOptions)
    (w : CompositeQueueService.World) : settled string :=
  fst (SqsQueueService.publish message opts (CompositeQueueService.sqsService w)).

Definition rabbitMq_publish_result (message : JsVal) (opts : option PublishOptions)
    (now : Z) (random36 : string) (w : CompositeQueueService.World) : settled string :=
  fst (RabbitMqQueueService.publish message opts now random36 (CompositeQueueService.rabbitMqService w)).

Definition sqs_receive_result (opts : option SubscribeOptions) (now : Z)
    (w : CompositeQueueService.World) : settled (list QueueMessage) :=
  fst (SqsQueueService.receiveMessages opts now (CompositeQueueService.sqsService w)).

Definition rabbitMq_receive_result (opts : option SubscribeOptions) (now : Z)
    (w : CompositeQueueService.World) : settled (list QueueMessage) :=
  fst (RabbitMqQueueService.receiveMessages opts now (CompositeQueueService.rabbitMqService w)).

(** The state the field initialisers of the RabbitMQ adapter leave. *)
Definition rabbitMq_blank (opts : QueueModuleOptions) (b : Amqp.Broker)
  : RabbitMqQueueService.World :=
  {| RabbitMqQueueService.this :=
       {| RabbitMqQueueService.options := opts;
          RabbitMqQueueService.connection := None;
          RabbitMqQueueService.channelWrapper := None;
          RabbitMqQueueService.queueName := None;
          RabbitMqQueueService.exchangeName := None;
          RabbitMqQueueService.routingKey := None;
          RabbitMqQueueService.isConnected := false |};
     RabbitMqQueueService.broker := b |}.

(** A [close] is completed when the calls it makes to release its
    resources all went through. Only the RabbitMQ adapter can be cut
    short: the [try] block of its [close] stops at the first call the
    broker rejects, and the [catch] only logs. *)
Definition close_completed (svc : QueueService.IQueueService) : bool :=
  match svc with
  | rabbitMq_instance r => is_fulfilled (fst (RabbitMqQueueService.close_attempt r))
  | composite_instance c =>
      is_fulfilled
        (fst (RabbitMqQueueService.close_attempt
                (CompositeQueueService.rabbitMqService c)))
  | _ => true
  end.

(** The fields of the RabbitMQ adapter behind the interface, when there
    is one. *)
Definition rabbitMq_fields_of (svc : QueueService.IQueueService)
  : option RabbitMqQueueService.t :=
  match svc with
  | rabbitMq_instance r => Some (RabbitMqQueueService.this r)
  | composite_instance c =>
      Some (RabbitMqQueueService.this (CompositeQueueService.rabbitMqService c))
  | _ => None
  end.

(** The SQS adapter has its client, and the service answers the receive
    command of the adapter with no message: a response without [Messages],
    or with an empty one. *)
Definition sqs_queue_is_empty (opts : option SubscribeOptions)
    (w : SqsQueueService.World) : Prop :=
  match SqsQueueService.sqsClient (SqsQueueService.this w) with
  | None => False
  | Some client =>
      match fst (Sqs.send_ReceiveMessage client
                   (SqsQueueService.receiveCommand opts (SqsQueueService.this w))
                   (SqsQueueService.aws w)) with
      | fulfilled response =>
          match Sqs.out_Messages response with
          | None | Some [] => True
          | Some (_ :: _) => False
          end
      | rejected _ => False
      end
  end.

(** The RabbitMQ adapter is connected, and [channel.get] on its queue
    answers [false]: no message. *)
Definition rabbitMq_queue_is_empty (w : RabbitMqQueueService.World) : Prop :=
  RabbitMqQueueService.isConnected (RabbitMqQueueService.this w) = true
  /\ fst (Amqp.channel_get
            (RabbitMqQueueService.queueName (RabbitMqQueueService.this w))
            (RabbitMqQueueService.broker w))
     = fulfilled None.

Definition no_message_available (opts : option SubscribeOptions)
    (svc : QueueService.IQueueService) : Prop :=
  match svc with
  | sqs_instance s => sqs_queue_is_empty opts s
  | rabbitMq_instance r => rabbitMq_queue_is_empty r
  | composite_instance c =>
      sqs_queue_is_empty opts (CompositeQueueService.sqsService c)
      /\ rabbitMq_queue_is_empty (CompositeQueueService.rabbitMqService c)
  | mock_instance m => MockQueueService.messages m = []
  end.

End WithBackends.
End Spec.

(* ------------------------------------------------------------------ *)
(** ** Sample states on the reference brokers *)

Module Samples.

#[local] Existing Instance Reference.runtime.
#[local] Existing Instance Reference.sqs_backend.
#[local] Existing Instance Reference.amqp_backend.

Definition hi : JsVal := JObj [("message", JStr "hi")].

Definition both : CompositeQueueService.World :=
  Reference.composite_service (Reference.configured "both").

(** The composite over the two adapters as they are built when nothing is
    configured. *)
Definition both_unconfigured : CompositeQueueService.World :=
  CompositeQueueService.create
    (Reference.sqs_service (Reference.unconfigured "both"))
    (Reference.rabbitMq_service (Reference.unconfigured "both")).

(** The composite whose RabbitMQ connection has not come up. *)
Definition sqs_only_up : CompositeQueueService.World :=
  CompositeQueueService.create
    (Reference.sqs_service (Reference.configured "both"))
    (Reference.rabbitMq_service (Reference.configured "both")).

Definition three_published : MockQueueService.t :=
  Spec.publish_all
    [(JStr "a", None, 1%Z); (JStr "b", None, 2%Z); (JStr "c", None, 3%Z)]
    MockQueueService.create.

Definition at_most (n : Z) : option SubscribeOptions :=
  Some {| maxNumberOfMessages := Some n;
          waitTimeSeconds := None;
          visibilityTimeout := None |}.

(** A handler that rejects the message whose body is ["b"]. *)
Definition rejects_b {W} : Callback W :=
  answering (fun m =>
    match body m with
    | JStr "b" => rejected_with (thrown_error (mkError "cannot process b"))
    | _ => resolved
    end).

(** A handler whose promise is rejected with [null]. *)
Definition rejects_with_null {W} : Callback W :=
  answering (fun _ => rejected_with (thrown_value JNull)).

(** RabbitMQ on the in-memory broker: a delivery whose handler is rejected
    is back at the front of the ready messages, one whose handler is
    fulfilled is in neither list. *)
Definition delivered_b : RabbitMqQueueService.World :=
  snd (RabbitMqQueueService.publish (JStr "b") None 1763642060497 "0.qom6s7yfyzz"
         (Reference.rabbitMq_service_connected (Reference.configured "rabbitmq"))).

Definition delivery_of (w : RabbitMqQueueService.World)
  : option Amqp.ConsumeMessage * RabbitMqQueueService.World :=
  let (r, b) := Reference.memory_get (RabbitMqQueueService.queueName
                                        (RabbitMqQueueService.this w))
                                     (RabbitMqQueueService.broker w) in
  (match r with fulfilled m => m | rejected _ => None end,
   {| RabbitMqQueueService.this := RabbitMqQueueService.this w;
      RabbitMqQueueService.broker := b |}).

(** SQS on the in-memory queue: of a polled batch the accepted messages
    are deleted and the rejected one is still stored. *)
Definition stored_abc : SqsQueueService.World :=
  fold_left (fun w text => snd (SqsQueueService.publish (JStr text) None w))
            ["a"; "b"; "c"]
            (snd (SqsQueueService.subscribe rejects_b
                    (Reference.sqs_service (Reference.configured "sqs")))).

End Samples.

(* ------------------------------------------------------------------ *)
(** ** A broker that refuses to close its channel

    The channel of this broker rejects [close] as many times as its state
    says and accepts it afterwards; its other calls go through and it
    stores nothing. *)

Module Unsteady.

Definition close_channel : Async nat unit :=
  fun refusals =>
    match refusals with
    | O => (fulfilled tt, O)
    | S fewer => (rejected (mkError "Channel closing timed out"), fewer)
    end.

Definition amqp_backend : Amqp.Backend :=
  {| Amqp.Broker := nat;
     Amqp.waitForConnect := ret tt;
     Amqp.channelWrapper_publish := fun _ _ _ _ => ret tt;
     Amqp.channel_get := fun _ => ret None;
     Amqp.channel_consume := fun _ => ret tt;
     Amqp.channel_ack := fun _ b => b;
     Amqp.channel_nack := fun _ _ _ b => b;
     Amqp.channelWrapper_close := close_channel;
     Amqp.connection_close := ret tt |}.

Definition IQueueService : Type :=
  @QueueService.IQueueService Reference.sqs_backend amqp_backend.

(** The RabbitMQ adapter, configured and connected, on a broker that will
    refuse one close; then the adapter after one [close], and after two. *)
Definition connected : IQueueService :=
  QueueModule.rabbitMq_instance
    (snd (@RabbitMqQueueService.on_connect amqp_backend
            (@RabbitMqQueueService.create amqp_backend
               (Reference.configured "rabbitmq") 1))).

Definition closed_once : IQueueService := snd (QueueService.close connected).

Definition closed_twice : IQueueService := snd (QueueService.close closed_once).

(** [isConnected] of the RabbitMQ adapter behind the interface. *)
Definition is_connected (svc : IQueueService) : option bool :=
  option_map RabbitMqQueueService.isConnected (Spec.rabbitMq_fields_of svc).

End Unsteady.

(* ------------------------------------------------------------------ *)
(** ** Histories of the mock adapter *)

Module MockHistory.

(** A call made on the mock adapter; the handler of a firing of the
    interval resolves, or rejects with a value of its choice. *)
Inductive Call : Type :=
| Publish (message : JsVal) (options : option PublishOptions) (now : Z)
| Receive (options : option SubscribeOptions)
| Delete (messageId : option string)
| Close
| Tick (handler : QueueMessage -> Outcome).

Definition apply_call (s : MockQueueService.t) (c : Call) : MockQueueService.t :=
  match c with
  | Publish message options now =>
      snd (MockQueueService.publish message options now s)
  | Receive options => snd (MockQueueService.receiveMessages options s)
  | Delete messageId => snd (MockQueueService.deleteMessage_id messageId s)
  | Close => snd (MockQueueService.close s)
  | Tick handler => snd (MockQueueService.tick (answering handler) s)
  end.

(** The adapter after a history of calls, starting from a new one. *)
Definition after (calls : list Call) : MockQueueService.t :=
  fold_left apply_call calls MockQueueService.create.

(** The id the adapter gives the message of its [k]-th publish. *)
Definition mock_id (k : Z) : string := "mock-msg-" ++ string_of_Z k.

Definition ids (s : MockQueueService.t) : list (option string) :=
  map id (MockQueueService.messages s).

(** [n] firings of the interval, one after the other. *)
Fixpoint ticks (n : nat) (handler : QueueMessage -> Outcome)
    (s : MockQueueService.t) : MockQueueService.t :=
  match n with
  | O => s
  | S n' => ticks n' handler (snd (MockQueueService.tick (answering handler) s))
  end.

End MockHistory.

(* ================================================================== *)
(* ------------------------------------------------------------------ *)
(** ** Notions of the further properties *)

Module Notions.
Import QueueModule MockHistory.

(** Every queued message carries the id of a publish that happened, and
    no two carry the same. *)
Definition well_numbered (s : MockQueueService.t) : Prop :=
  NoDup (ids s)
  /\ Forall (fun i => exists k, (0 < k <= MockQueueService.messageIdCounter s)%Z
                                /\ i = Some (mock_id k)) (ids s)
  /\ (0 <= MockQueueService.messageIdCounter s)%Z.

(** The test of the filter of [deleteMessage]. *)
Definition other_than (i : string) (msg : QueueMessage) : bool :=
  negb (match id msg with
        | Some j => j =? i
        | None => false
        end).

(** The attribute [formatMessageAttributes] makes of a value. *)
Definition string_attribute `{JsRuntime} (value : JsVal) : JsVal :=
  JObj [("DataType", JStr "String");
        ("StringValue", of_optional_string (serialize value))].

(** The body both adapters give a message whose payload is [text]. *)
Definition received_as `{JsRuntime} (text : string) : JsVal :=
  match JSON_parse text with
  | fulfilled v => v
  | rejected _ => JStr text
  end.

(** A body the consumer cannot handle: [null] and [undefined], which
    cannot be destructured, and a value whose [message] cannot be printed,
    an object with a [toString] of its own or an array that holds one. *)
Definition poisonous (body : JsVal) : bool :=
  match body with
  | JUndefined | JNull => true
  | _ => to_string_throws (member "message" body)
  end.

(** The messages the consumer can handle. *)
Definition consumable (m : QueueMessage) : bool := negb (poisonous (body m)).

(** The handler rejected the message with a value whose [message] can be
    read: the one case in which the mock adapter puts the message back. *)
Definition put_back (o : Outcome) : bool :=
  match o with
  | resolved => false
  | rejected_with reason => negb (nullish reason)
  end.

(** The mock adapter with the queue [q] and the counter [c], as the
    service the module hands out. *)
Definition mock `{Sqs.Backend} `{Amqp.Backend} (q : list QueueMessage) (c : Z)
  : QueueService.IQueueService :=
  mock_instance {| MockQueueService.messages := q;
                   MockQueueService.messageIdCounter := c |}.

(** One pass of the consumer over the queue of the mock adapter: as many
    firings of the interval of [subscribe] as there are messages, with the
    handler [startConsuming] subscribes. *)
Definition consumer_pass (s : MockQueueService.t) : MockQueueService.t :=
  ticks (length (MockQueueService.messages s))
        (fun message => outcome_of (QueueConsumerService.handleMessage message)) s.

End Notions.

(* ------------------------------------------------------------------ *)
(** ** Sample messages and environments *)

Module Deliveries.

(** The attributes of a publish, one of them called [__proto__]. *)
Definition sample_attributes : JsRecord :=
  [("priority", JStr "high");
   ("__proto__", JObj [("polluted", JBool true)]);
   ("retries", JNum 3)].

(** A message whose attribute [messageId] hides its [MessageId]. *)
Definition shadowed : Sqs.Message :=
  {| Sqs.MessageId := Some "bc6b80c3-defc-48ca-b81f-e135b93e81a3";
     Sqs.ReceiptHandle := Some "AQEBwJnKyrHigUMZj6rYigCgxlaS3SLy0a";
     Sqs.Body := Some "{}";
     Sqs.Attributes := Some [("SentTimestamp", "1763642060497")];
     Sqs.MessageAttributes := Some [("messageId", JStr "mine")] |}.



(** The text [null], as SQS delivers it. *)
Definition sqs_null : Sqs.Message :=
  {| Sqs.MessageId := Some "bc6b80c3-defc-48ca-b81f-e135b93e81a3";
     Sqs.ReceiptHandle := Some "AQEBwJnKyrHigUMZj6rYigCgxlaS3SLy0a";
     Sqs.Body := Some "null";
     Sqs.Attributes := None;
     Sqs.MessageAttributes := None |}.

(** A body whose [message] has a [toString] of its own, and its delivery
    by RabbitMQ. *)
Definition unprintable : JsVal :=
  JObj [("message", JObj [("toString", JNum 1)])].

Definition amqp_unprintable : Amqp.ConsumeMessage :=
  {| Amqp.content := match Reference.json_stringify unprintable with
                     | Some text => text
                     | None => ""
                     end;
     Amqp.fields :=
       Some {| Amqp.fields_deliveryTag := Some 1%Z; Amqp.fields_rest := [] |};
     Amqp.properties := None |}.

(** An environment that sets the provider to [both] and nothing else. *)
Definition env_both (key : string) : option string :=
  if key =? "QUEUE_PROVIDER" then Some "both" else None.

(** The delivery of a message published at time 1763642060497. *)
Definition delivered_hi : Amqp.ConsumeMessage :=
  {| Amqp.content := "hi";
     Amqp.fields :=
       Some {| Amqp.fields_deliveryTag := Some 1%Z; Amqp.fields_rest := [] |};
     Amqp.properties :=
       Some {| Amqp.props_messageId := Some "1763642060497-qom6s7yfy";
               Amqp.props_timestamp := Some 1763642060497%Z;
               Amqp.props_headers := None;
               Amqp.props_rest := [] |} |}.

End Deliveries.

(** * Properties *)

Import Spec.

(** ** Running async code *)

Lemma try_catch_rethrow {W A} (m : Async W A) w :
  try_catch m (fun error => throw error) w = m w.
Proof.
  unfold try_catch, throw. destruct (m w) as [[a | e] w']; reflexivity.
Qed.

Ltac run :=
  repeat (cbv beta iota delta
            [bind ret throw try_catch catch call modify lift
             allSettled2 all2 fst snd] in *;
          cbn [fst snd] in * ).

(* ------------------------------------------------------------------ *)
(** ** The mock adapter *)

Module MockProperties.
Import MockQueueService.

Lemma splice_front {A} (n : Z) (l : list A) :
  splice 0 n l =
  (firstn (Z.to_nat (Z.min n (Z.of_nat (length l)))) l,
   skipn (Z.to_nat (Z.min n (Z.of_nat (length l)))) l).
Proof.
  unfold splice. cbn [Z.ltb Z.compare].
  replace (Z.to_nat (Z.min 0 (Z.of_nat (length l)))) with 0%nat by lia.
  replace (Z.to_nat (Z.min (Z.max n 0)
                           (Z.of_nat (length l) - Z.min 0 (Z.of_nat (length l)))))
    with (Z.to_nat (Z.min n (Z.of_nat (length l)))) by lia.
  reflexivity.
Qed.

Lemma publish_enqueues_last message opts now s :
  exists m,
    messages (snd (publish message opts now s)) = (messages s ++ [m])%list
    /\ body m = message.
Proof. eexists. split; reflexivity. Qed.

Lemma publish_all_bodies calls s :
  map body (messages (publish_all calls s)) =
  (map body (messages s) ++ map (fun c => fst (fst c)) calls)%list.
Proof.
  revert s. induction calls as [| c calls IH]; intros s.
  - cbn. now rewrite app_nil_r.
  - cbn [publish_all fold_left]. fold (publish_all calls). rewrite IH.
    cbn [publish snd messages map]. rewrite map_app. cbn [map].
    now rewrite <- app_assoc.
Qed.

(** C10. [receiveMessages] of the mock adapter returns the first
    [min(maxNumberOfMessages, length q)] messages of its queue [q], where
    [maxNumberOfMessages] counts as 10 when it is absent or zero, and leaves
    exactly the rest of [q]: the two parts put together are [q] again, so
    nothing is added, lost or reordered, and the id counter is untouched.
    The queue is in publish order, since [publish] adds at the back: after
    any sequence of publishes the bodies in the queue are those that were
    there followed by the published ones in call order. *)
Theorem mock_receiveMessages_fifo_prefix :
  forall (s : t) (opts : option SubscribeOptions),
    let requested :=
      match opt_field opts maxNumberOfMessages with
      | None => 10%Z
      | Some n => if (n =? 0)%Z then 10%Z else n
      end in
    let k := Z.to_nat (Z.min requested (Z.of_nat (length (messages s)))) in
    receiveMessages opts s =
      (fulfilled (firstn k (messages s)),
       {| messages := skipn k (messages s);
          messageIdCounter := messageIdCounter s |})
    /\ (firstn k (messages s) ++ skipn k (messages s))%list = messages s
    /\ forall calls,
         map body (messages (publish_all calls s)) =
         (map body (messages s) ++ map (fun c => fst (fst c)) calls)%list.
Proof.
  intros s opts requested k. split; [| split].
  - unfold receiveMessages, or_number. rewrite splice_front.
    subst k requested. destruct (opt_field opts maxNumberOfMessages); reflexivity.
  - apply firstn_skipn.
  - intros calls. apply publish_all_bodies.
Qed.

End MockProperties.

(* ------------------------------------------------------------------ *)
(** ** The composite adapter *)

Module CompositeProperties.
Import CompositeQueueService.

Section WithBackends.
Context `{JsRuntime} `{Sqs.Backend} `{Amqp.Backend}.

Lemma publish_unfold message opts now random36 w :
  fst (publish message opts now random36 w) =
  fst (reconcile (W := World)
         [sqs_publish_result message opts w;
          rabbitMq_publish_result message opts now random36 w] w).
Proof.
  unfold publish, sqs_publish_result, rabbitMq_publish_result, reconcile,
    on_sqs, on_rabbitMq.
  run.
  destruct (SqsQueueService.publish message opts (sqsService w)) as [r1 s1].
  cbn [rabbitMqService].
  destruct (RabbitMqQueueService.publish message opts now random36
              (rabbitMqService w)) as [r2 s2].
  destruct (collect [r1; r2]) as [ids errs].
  destruct (length ids =? 0)%nat; reflexivity.
Qed.

Lemma reconcile_two {W} (r1 r2 : settled string) (w : W) :
  fst (reconcile [r1; r2] w) =
  match r1, r2 with
  | fulfilled a, fulfilled b => fulfilled (join "," [a; b])
  | fulfilled a, rejected _ => fulfilled a
  | rejected _, fulfilled b => fulfilled b
  | rejected _, rejected _ => rejected all_failed
  end.
Proof. destruct r1, r2; reflexivity. Qed.

Lemma components_comma_free (a : string) :
  comma_free a = true -> components a = [a].
Proof.
  induction a as [| c a IH]; [reflexivity |].
  cbn [comma_free components]. intros F.
  apply andb_prop in F as [Fc Fa].
  destruct (c =? ",")%char; [discriminate |].
  now rewrite (IH Fa).
Qed.

Lemma components_of_two (a b : string) :
  comma_free a = true -> comma_free b = true ->
  components (a ++ String "," b) = [a; b].
Proof.
  intros Fa Fb. induction a as [| c a IH].
  - cbn. now rewrite (components_comma_free b Fb).
  - cbn [comma_free] in Fa. apply andb_prop in Fa as [Fc Fa].
    cbn [append components].
    destruct (c =? ",")%char; [discriminate |].
    now rewrite (IH Fa).
Qed.

(** C1. The composite [publish] succeeds as soon as one child's publish
    does: with both it returns the two ids joined by a comma, the SQS id
    first (two components exactly, for ids that hold no comma themselves);
    with one it returns that child's id alone; and it is rejected, with the
    error that no provider took the message, exactly when both children's
    publishes are rejected. *)
Theorem composite_publish_reconciles :
  forall (message : JsVal) (opts : option PublishOptions) (now : Z)
         (random36 : string) (w : World),
    let r1 := sqs_publish_result message opts w in
    let r2 := rabbitMq_publish_result message opts now random36 w in
    let result := fst (publish message opts now random36 w) in
    result =
      match r1, r2 with
      | fulfilled a, fulfilled b => fulfilled (a ++ "," ++ b)
      | fulfilled a, rejected _ => fulfilled a
      | rejected _, fulfilled b => fulfilled b
      | rejected _, rejected _ => rejected all_failed
      end
    /\ is_rejected result = is_rejected r1 && is_rejected r2
    /\ (is_fulfilled result = true ->
        result = fulfilled (join "," (fst (collect [r1; r2]))))
    /\ (forall a b,
          r1 = fulfilled a -> r2 = fulfilled b ->
          comma_free a = true -> comma_free b = true ->
          exists composite,
            result = fulfilled composite /\ components composite = [a; b]).
Proof.
  intros message opts now random36 w r1 r2 result.
  assert (E : result =
              match r1, r2 with
              | fulfilled a, fulfilled b => fulfilled (a ++ "," ++ b)
              | fulfilled a, rejected _ => fulfilled a
              | rejected _, fulfilled b => fulfilled b
              | rejected _, rejected _ => rejected all_failed
              end).
  { subst result. rewrite publish_unfold. fold r1 r2. rewrite reconcile_two.
    destruct r1, r2; reflexivity. }
  split; [exact E |]. rewrite E. clear E.
  split; [| split].
  - destruct r1, r2; reflexivity.
  - destruct r1, r2; cbn; intros; try reflexivity; discriminate.
  - intros a b -> -> Fa Fb. eexists. split; [reflexivity |].
    exact (components_of_two a b Fa Fb).
Qed.

Lemma receiveMessages_unfold opts now w :
  fst (receiveMessages opts now w) =
  fulfilled (contribution (sqs_receive_result opts now w)
             ++ contribution (rabbitMq_receive_result opts now w))%list.
Proof.
  unfold receiveMessages, sqs_receive_result, rabbitMq_receive_result,
    on_sqs, on_rabbitMq.
  run.
  destruct (SqsQueueService.receiveMessages opts now (sqsService w)) as [r1 s1].
  destruct r1; cbn [rabbitMqService sqsService];
    destruct (RabbitMqQueueService.receiveMessages opts now (rabbitMqService w))
      as [r2 s2];
    destruct r2; reflexivity.
Qed.

(** C2. The composite [receiveMessages] is never rejected: it returns the
    messages the SQS child returned followed by those the RabbitMQ child
    returned, a rejected child counting for the empty list. So the length
    of the result is the sum of the two contributions, and what one child
    returned is in the result whole whatever happened to the other. *)
Theorem composite_receiveMessages_concatenates :
  forall (opts : option SubscribeOptions) (now : Z) (w : World),
    let r1 := sqs_receive_result opts now w in
    let r2 := rabbitMq_receive_result opts now w in
    let result := fst (receiveMessages opts now w) in
    result = fulfilled (contribution r1 ++ contribution r2)%list
    /\ (exists l,
          result = fulfilled l
          /\ length l = (length (contribution r1) + length (contribution r2))%nat
          /\ firstn (length (contribution r1)) l = contribution r1
          /\ skipn (length (contribution r1)) l = contribution r2).
Proof.
  intros opts now w r1 r2 result.
  assert (E : result = fulfilled (contribution r1 ++ contribution r2)%list)
    by apply receiveMessages_unfold.
  split; [exact E |].
  exists (contribution r1 ++ contribution r2)%list.
  split; [exact E |]. split; [apply length_app |]. split.
  - rewrite firstn_app, Nat.sub_diag, firstn_all. cbn. apply app_nil_r.
  - rewrite skipn_app, Nat.sub_diag, skipn_all. reflexivity.
Qed.

End WithBackends.
End CompositeProperties.

(* ------------------------------------------------------------------ *)
(** ** The provider selection *)

Module SelectionProperties.
Import QueueModule.

Lemma eqb_false_not_in (p : string) :
  (p =? "sqs") = false -> (p =? "rabbitmq") = false ->
  (p =? "both") = false -> (p =? "mock") = false ->
  ~ In p known_providers.
Proof.
  intros E1 E2 E3 E4 [<- | [<- | [<- | [<- | []]]]];
    rewrite String.eqb_refl in *; discriminate.
Qed.

Section WithBackends.
Context `{JsRuntime} `{Sqs.Backend} `{Amqp.Backend}.

(** C3. The selection knows exactly the four provider names: for each it
    hands out the instance of the corresponding adapter, and for every other
    string it throws. The throw happens in the factory the container runs
    while it builds the module, so building the module ([instantiate]) is
    what fails: it is fulfilled if and only if the name is a known one, and
    no adapter is handed out on which an operation could be tried. *)
Theorem provider_selection_exhaustive_fail_fast :
  forall (opts : QueueModuleOptions) (S R C M : Type)
         (sqsService : S) (rabbitMqService : R) (compositeService : C)
         (mockService : M) (aws : Sqs.Aws) (broker : Amqp.Broker),
    let selected :=
      useFactory opts sqsService rabbitMqService compositeService mockService in
    ((provider opts = "sqs" /\ selected = fulfilled (sqs_instance sqsService))
     \/ (provider opts = "rabbitmq"
         /\ selected = fulfilled (rabbitMq_instance rabbitMqService))
     \/ (provider opts = "both"
         /\ selected = fulfilled (composite_instance compositeService))
     \/ (provider opts = "mock" /\ selected = fulfilled (mock_instance mockService))
     \/ (~ In (provider opts) known_providers
         /\ selected = rejected (unknown_provider (provider opts))))
    /\ (is_fulfilled (instantiate opts aws broker) = true
        <-> In (provider opts) known_providers)
    /\ (is_fulfilled (instantiate opts aws broker) = false
        -> instantiate opts aws broker
           = rejected (unknown_provider (provider opts))).
Proof.
  intros opts S R C M s r c m aws broker selected.
  subst selected. unfold instantiate, useFactory.
  destruct (provider opts =? "sqs") eqn:E1;
    [apply String.eqb_eq in E1 |
     destruct (provider opts =? "rabbitmq") eqn:E2;
     [apply String.eqb_eq in E2 |
      destruct (provider opts =? "both") eqn:E3;
      [apply String.eqb_eq in E3 |
       destruct (provider opts =? "mock") eqn:E4;
       [apply String.eqb_eq in E4 |]]]].
  - split; [left; auto |]. cbn [is_fulfilled]. rewrite E1.
    split; [split; [intros _; cbn; auto | reflexivity] | discriminate].
  - split; [right; left; auto |]. cbn [is_fulfilled]. rewrite E2.
    split; [split; [intros _; cbn; auto | reflexivity] | discriminate].
  - split; [do 2 right; left; auto |]. cbn [is_fulfilled]. rewrite E3.
    split; [split; [intros _; cbn; auto | reflexivity] | discriminate].
  - split; [do 3 right; left; auto |]. cbn [is_fulfilled]. rewrite E4.
    split; [split; [intros _; cbn; auto 6 | reflexivity] | discriminate].
  - pose proof (eqb_false_not_in _ E1 E2 E3 E4) as N.
    split; [do 4 right; auto |]. cbn [is_fulfilled].
    split; [split; [discriminate | intros I; destruct (N I)] | reflexivity].
Qed.

End WithBackends.
End SelectionProperties.

(* ------------------------------------------------------------------ *)
(** ** The two backend adapters without their configuration *)

Module UnconfiguredProperties.

Lemma sqs_create_unconfigured opts :
  sqs_unconfigured opts = true ->
  SqsQueueService.create opts =
  {| SqsQueueService.options := opts;
     SqsQueueService.sqsClient := None;
     SqsQueueService.queueUrl := None;
     SqsQueueService.isPolling := false;
     SqsQueueService.pollingInterval := None |}.
Proof.
  unfold sqs_unconfigured, SqsQueueService.create,
    SqsQueueService.initializeSqsClient.
  cbn [SqsQueueService.options]. destruct (sqs opts) as [o |]; cbn [opt_field].
  - intros ->. reflexivity.
  - reflexivity.
Qed.

Section WithBackends.
Context `{JsRuntime} `{Sqs.Backend} `{Amqp.Backend}.

Lemma rabbitMq_initialize_unconfigured opts b :
  rabbitMq_unconfigured opts = true ->
  RabbitMqQueueService.initializeRabbitMq (rabbitMq_blank opts b)
  = (fulfilled tt, rabbitMq_blank opts b).
Proof.
  unfold rabbitMq_unconfigured, RabbitMqQueueService.initializeRabbitMq.
  cbn [rabbitMq_blank RabbitMqQueueService.this RabbitMqQueueService.options].
  destruct (rabbitmq opts) as [o |]; cbn [opt_field].
  - intros ->. reflexivity.
  - reflexivity.
Qed.

Lemma rabbitMq_create_unconfigured opts b :
  rabbitMq_unconfigured opts = true ->
  RabbitMqQueueService.create opts b = rabbitMq_blank opts b.
Proof.
  intros U. unfold RabbitMqQueueService.create.
  fold (rabbitMq_blank opts b).
  now rewrite (rabbitMq_initialize_unconfigured opts b U).
Qed.

(** C4, as the code has it. Both backend adapters are built without
    throwing when their configuration is absent, and the promise of the
    RabbitMQ initialiser, which the constructor drops, is fulfilled. In
    that state [publish], [receiveMessages], [subscribe] and
    [deleteMessage] of the SQS adapter are rejected by its guard (the
    client is not initialised), and [publish], [receiveMessages] and
    [subscribe] of the RabbitMQ adapter by its guard (not connected), all
    at once and without touching any state; [deleteMessage] of the
    RabbitMQ adapter has no guard and is fulfilled, doing nothing. *)
Theorem unconfigured_adapters_guard_their_operations :
  forall (opts : QueueModuleOptions),
    (sqs_unconfigured opts = true ->
     forall (aws : Sqs.Aws) (message : JsVal) (popts : option PublishOptions)
            (ropts : option SubscribeOptions) (now : Z)
            (callback : Callback SqsQueueService.World)
            (messageId : option string),
       let s := {| SqsQueueService.this := SqsQueueService.create opts;
                   SqsQueueService.aws := aws |} in
       SqsQueueService.publish message popts s
         = (rejected SqsQueueService.not_initialized, s)
       /\ SqsQueueService.receiveMessages ropts now s
         = (rejected SqsQueueService.not_initialized, s)
       /\ SqsQueueService.subscribe callback s
         = (rejected SqsQueueService.not_initialized, s)
       /\ SqsQueueService.deleteMessage messageId s
         = (rejected SqsQueueService.not_initialized, s))
    /\ (rabbitMq_unconfigured opts = true ->
        forall (broker : Amqp.Broker) (message : JsVal)
               (popts : option PublishOptions) (ropts : option SubscribeOptions)
               (now : Z) (random36 : string)
               (callback : Callback RabbitMqQueueService.World)
               (messageId : option string),
          let r := RabbitMqQueueService.create opts broker in
          fst (RabbitMqQueueService.initializeRabbitMq (rabbitMq_blank opts broker))
            = fulfilled tt
          /\ RabbitMqQueueService.publish message popts now random36 r
            = (rejected RabbitMqQueueService.not_connected, r)
          /\ RabbitMqQueueService.receiveMessages ropts now r
            = (rejected RabbitMqQueueService.not_connected, r)
          /\ RabbitMqQueueService.subscribe callback r
            = (rejected RabbitMqQueueService.not_connected, r)
          /\ RabbitMqQueueService.deleteMessage messageId r = (fulfilled tt, r)).
Proof.
  intros opts. split.
  - intros U aws message popts ropts now callback messageId s. subst s.
    rewrite (sqs_create_unconfigured opts U). repeat split.
  - intros U broker message popts ropts now random36 callback messageId r.
    subst r. rewrite (rabbitMq_create_unconfigured opts broker U).
    rewrite (rabbitMq_initialize_unconfigured opts broker U). repeat split.
Qed.

End WithBackends.

(** The RabbitMQ adapter built without any configuration fulfils
    [deleteMessage]: not every operation fails in that state. *)
Lemma rabbitMq_deleteMessage_unconfigured_is_fulfilled :
  rabbitMq_unconfigured (Reference.unconfigured "rabbitmq") = true
  /\ fst (RabbitMqQueueService.deleteMessage (Some "1763642060497-qom6s7yfy")
            (Reference.rabbitMq_service (Reference.unconfigured "rabbitmq")))
     = fulfilled tt.
Proof. split; reflexivity. Qed.

Lemma unconfigured_adapters_guard_their_operations_witness :
  sqs_unconfigured (Reference.unconfigured "both") = true
  /\ rabbitMq_unconfigured (Reference.unconfigured "both") = true
  /\ fst (@SqsQueueService.publish Reference.runtime Reference.sqs_backend
            (JStr "hi") None
            (Reference.sqs_service (Reference.unconfigured "both")))
     = rejected SqsQueueService.not_initialized
  /\ fst (@RabbitMqQueueService.receiveMessages Reference.runtime
            Reference.amqp_backend None 0%Z
            (Reference.rabbitMq_service (Reference.unconfigured "both")))
     = rejected RabbitMqQueueService.not_connected.
Proof.
  pose proof (@unconfigured_adapters_guard_their_operations
                Reference.runtime Reference.sqs_backend Reference.amqp_backend
                (Reference.unconfigured "both")) as [S R].
  split; [reflexivity |]. split; [reflexivity |]. split.
  - exact (f_equal fst
             (proj1 (S eq_refl Reference.empty_queue (JStr "hi") None None 0%Z
                       (answering (fun _ => resolved)) None))).
  - exact (f_equal fst
             (proj1 (proj2 (proj2
                (R eq_refl Reference.empty_broker (JStr "hi") None None 0%Z
                   "0.qom6s7yfyzz" (answering (fun _ => resolved)) None))))).
Defined.

Section CompositeWithoutConfiguration.
Context `{JsRuntime} `{Sqs.Backend} `{Amqp.Backend}.

(** The composite over two adapters without configuration: [publish] and
    [subscribe] are rejected, [receiveMessages] gives the empty list and
    [deleteMessage] is fulfilled; none changes any state. *)
Lemma composite_over_unconfigured_children
    (opts : QueueModuleOptions) (aws : Sqs.Aws) (broker : Amqp.Broker)
    (message : JsVal) (popts : option PublishOptions)
    (ropts : option SubscribeOptions) (now : Z) (random36 : string)
    (handler : QueueMessage -> Outcome) (messageId : string) :
  sqs_unconfigured opts = true ->
  rabbitMq_unconfigured opts = true ->
  let c :=
    CompositeQueueService.create
      {| SqsQueueService.this := SqsQueueService.create opts;
         SqsQueueService.aws := aws |}
      (RabbitMqQueueService.create opts broker) in
  CompositeQueueService.publish message popts now random36 c
    = (rejected CompositeQueueService.all_failed, c)
  /\ CompositeQueueService.subscribe handler c
    = (rejected SqsQueueService.not_initialized, c)
  /\ CompositeQueueService.receiveMessages ropts now c = (fulfilled [], c)
  /\ CompositeQueueService.deleteMessage messageId c = (fulfilled tt, c).
Proof.
  intros Us Ur c. subst c.
  rewrite (sqs_create_unconfigured opts Us),
    (rabbitMq_create_unconfigured opts broker Ur).
  repeat split.
Qed.

End CompositeWithoutConfiguration.

End UnconfiguredProperties.

(* ------------------------------------------------------------------ *)
(** ** The queue identifier *)

Module IdentifierProperties.
Import QueueModule.

Section WithBackends.
Context `{JsRuntime} `{Sqs.Backend} `{Amqp.Backend}.

(** Every adapter but the SQS one builds its identifier as a text, in
    whatever state it is; the SQS adapter returns its [queueUrl] field. *)
Lemma getQueueIdentifier_text_or_queueUrl (svc : QueueService.IQueueService) :
  match svc with
  | sqs_instance s =>
      QueueService.getQueueIdentifier svc
      = SqsQueueService.queueUrl (SqsQueueService.this s)
  | _ => exists text, QueueService.getQueueIdentifier svc = Some text
  end.
Proof. destruct svc; cbn; try reflexivity; eexists; reflexivity. Qed.

(** The SQS adapter built without a queue URL has no identifier to give. *)
Lemma sqs_getQueueIdentifier_unconfigured (opts : QueueModuleOptions) :
  Spec.sqs_unconfigured opts = true ->
  SqsQueueService.getQueueIdentifier (SqsQueueService.create opts) = None.
Proof.
  intros U. now rewrite (UnconfiguredProperties.sqs_create_unconfigured opts U).
Qed.

Lemma sqs_queueUrl_set_when_configured (opts : QueueModuleOptions) :
  Spec.sqs_unconfigured opts = false ->
  exists text,
    SqsQueueService.getQueueIdentifier (SqsQueueService.create opts) = Some text.
Proof.
  unfold Spec.sqs_unconfigured, SqsQueueService.create,
    SqsQueueService.initializeSqsClient, SqsQueueService.getQueueIdentifier.
  cbn [SqsQueueService.options].
  destruct (sqs opts) as [o |]; cbn [opt_field falsy_string]; [| discriminate].
  intros E. rewrite E. cbn [SqsQueueService.queueUrl].
  destruct (SqsOptions.queueUrl o) as [u |]; [eauto | discriminate].
Qed.

End WithBackends.

(** C5 at its failing input: with the provider set to SQS and no queue URL
    in the environment the module is built, the SQS adapter is the one
    selected, and its [getQueueIdentifier] returns [undefined], not a
    string. *)
Theorem sqs_getQueueIdentifier_unconfigured_is_undefined :
  exists svc,
    @forRoot Reference.sqs_backend Reference.amqp_backend
      env_sqs_without_url Reference.empty_queue Reference.empty_broker
    = fulfilled svc
    /\ @QueueService.getQueueIdentifier Reference.sqs_backend
         Reference.amqp_backend svc = None.
Proof. eexists. split; reflexivity. Qed.

End IdentifierProperties.

(* ------------------------------------------------------------------ *)
(** ** Closing twice *)

Module ClosingProperties.
Import QueueModule.

Section WithBackends.
Context `{JsRuntime} `{Sqs.Backend} `{Amqp.Backend}.

Lemma rabbitMq_close_attempt_fields (w : RabbitMqQueueService.World) :
  RabbitMqQueueService.this (snd (RabbitMqQueueService.close_attempt w)) =
  if is_fulfilled (fst (RabbitMqQueueService.close_attempt w))
  then RabbitMqQueueService.set_isConnected false (RabbitMqQueueService.this w)
  else RabbitMqQueueService.this w.
Proof.
  unfold RabbitMqQueueService.close_attempt, RabbitMqQueueService.on_broker,
    RabbitMqQueueService.on_this.
  run.
  destruct (RabbitMqQueueService.channelWrapper (RabbitMqQueueService.this w));
    [destruct (Amqp.channelWrapper_close (RabbitMqQueueService.broker w))
       as [[[] | e] b1]; cbn; [| reflexivity] |];
    (destruct (RabbitMqQueueService.connection (RabbitMqQueueService.this w));
     [match goal with
      | |- context [Amqp.connection_close ?b] =>
          destruct (Amqp.connection_close b) as [[[] | e2] b2]
      end |]; reflexivity).
Qed.

Lemma rabbitMq_close_fulfilled (w : RabbitMqQueueService.World) :
  fst (RabbitMqQueueService.close w) = fulfilled tt.
Proof.
  unfold RabbitMqQueueService.close, try_catch, ret.
  destruct (RabbitMqQueueService.close_attempt w) as [[[] | e] w']; reflexivity.
Qed.

Lemma rabbitMq_close_fields (w : RabbitMqQueueService.World) :
  RabbitMqQueueService.this (snd (RabbitMqQueueService.close w)) =
  RabbitMqQueueService.this (snd (RabbitMqQueueService.close_attempt w)).
Proof.
  unfold RabbitMqQueueService.close, try_catch, ret.
  destruct (RabbitMqQueueService.close_attempt w) as [[[] | e] w']; reflexivity.
Qed.

Lemma set_isConnected_false_twice (s : RabbitMqQueueService.t) :
  RabbitMqQueueService.set_isConnected false
    (RabbitMqQueueService.set_isConnected false s)
  = RabbitMqQueueService.set_isConnected false s.
Proof. reflexivity. Qed.

(** The second [close] of the RabbitMQ adapter after a completed one. *)
Lemma rabbitMq_close_twice (w : RabbitMqQueueService.World) :
  is_fulfilled (fst (RabbitMqQueueService.close_attempt w)) = true ->
  RabbitMqQueueService.this
    (snd (RabbitMqQueueService.close (snd (RabbitMqQueueService.close w))))
  = RabbitMqQueueService.this (snd (RabbitMqQueueService.close w)).
Proof.
  intros C.
  rewrite (rabbitMq_close_fields (snd (RabbitMqQueueService.close w))).
  rewrite rabbitMq_close_attempt_fields.
  rewrite (rabbitMq_close_fields w), (rabbitMq_close_attempt_fields w), C.
  match goal with
  | |- (if ?b then _ else _) = _ => destruct b
  end; reflexivity.
Qed.

Lemma sqs_close_fulfilled (w : SqsQueueService.World) :
  fst (SqsQueueService.close w) = fulfilled tt.
Proof. reflexivity. Qed.

Lemma sqs_close_twice (w : SqsQueueService.World) :
  SqsQueueService.this (snd (SqsQueueService.close (snd (SqsQueueService.close w))))
  = SqsQueueService.this (snd (SqsQueueService.close w)).
Proof.
  destruct w as [[o c u p [t |]] a]; reflexivity.
Qed.

Lemma composite_close_unfold (c : CompositeQueueService.World) :
  CompositeQueueService.close c =
  (fulfilled tt,
   {| CompositeQueueService.sqsService :=
        snd (SqsQueueService.close (CompositeQueueService.sqsService c));
      CompositeQueueService.rabbitMqService :=
        snd (RabbitMqQueueService.close (CompositeQueueService.rabbitMqService c)) |}).
Proof.
  unfold CompositeQueueService.close, CompositeQueueService.on_sqs,
    CompositeQueueService.on_rabbitMq.
  run.
  rewrite (surjective_pairing
             (SqsQueueService.close (CompositeQueueService.sqsService c))).
  rewrite sqs_close_fulfilled.
  cbn [CompositeQueueService.sqsService CompositeQueueService.rabbitMqService].
  pose proof (rabbitMq_close_fulfilled (CompositeQueueService.rabbitMqService c)) as F.
  destruct (RabbitMqQueueService.close (CompositeQueueService.rabbitMqService c))
    as [r w']. cbn in F. subst r. reflexivity.
Qed.

(** C6. On every adapter [close] is fulfilled, the first time and the
    second. After a first [close] that released all it holds, no call to
    the broker having been rejected, the second one leaves the fields of
    the adapter as the first left them. After a first [close] that the
    broker cut short, the RabbitMQ adapter has the fields it had before,
    [isConnected] included, so that the work is left to the second. *)
Theorem close_is_idempotent :
  forall (svc : QueueService.IQueueService),
    let once := snd (QueueService.close svc) in
    let twice := snd (QueueService.close once) in
    fst (QueueService.close svc) = fulfilled tt
    /\ fst (QueueService.close once) = fulfilled tt
    /\ (close_completed svc = true ->
        QueueService.fields_of twice = QueueService.fields_of once)
    /\ (close_completed svc = false ->
        rabbitMq_fields_of once = rabbitMq_fields_of svc).
Proof.
  intros svc once twice. subst once twice.
  destruct svc as [s | r | c | m]; unfold QueueService.close, QueueService.dispatch.
  - cbn. repeat split. intros _. f_equal. apply sqs_close_twice.
  - pose proof (rabbitMq_close_fulfilled r) as F1.
    pose proof (rabbitMq_close_twice r) as T.
    pose proof (rabbitMq_close_fields r) as K.
    pose proof (rabbitMq_close_attempt_fields r) as A.
    destruct (RabbitMqQueueService.close r) as [r1 w1]. cbn in F1, T, K |- *.
    pose proof (rabbitMq_close_fulfilled w1) as F2.
    destruct (RabbitMqQueueService.close w1) as [r2 w2]. cbn in F2, T |- *.
    repeat split; auto.
    + intros C. f_equal. auto.
    + intros C. rewrite C in A. now rewrite K, A.
  - rewrite composite_close_unfold. cbn [fst snd].
    rewrite composite_close_unfold. cbn [fst snd QueueService.fields_of
      CompositeQueueService.sqsService CompositeQueueService.rabbitMqService
      close_completed rabbitMq_fields_of].
    repeat split.
    + intros C. f_equal.
      * apply sqs_close_twice.
      * apply rabbitMq_close_twice, C.
    + intros C. f_equal.
      rewrite rabbitMq_close_fields, rabbitMq_close_attempt_fields.
      now rewrite C.
  - cbn. repeat split.
Qed.

(** A [close] of the RabbitMQ adapter that the broker cuts short is
    fulfilled all the same, and leaves the fields of the adapter,
    [isConnected] included, as they were. *)
Lemma rabbitMq_close_cut_short (w : RabbitMqQueueService.World) :
  is_fulfilled (fst (RabbitMqQueueService.close_attempt w)) = false ->
  fst (RabbitMqQueueService.close w) = fulfilled tt
  /\ RabbitMqQueueService.this (snd (RabbitMqQueueService.close w))
     = RabbitMqQueueService.this w.
Proof.
  intros C. split; [apply rabbitMq_close_fulfilled |].
  now rewrite rabbitMq_close_fields, rabbitMq_close_attempt_fields, C.
Qed.

End WithBackends.

Lemma close_is_idempotent_witness :
  close_completed (QueueModule.composite_instance Samples.both) = true
  /\ QueueService.fields_of
       (snd (QueueService.close
               (snd (QueueService.close
                       (QueueModule.composite_instance Samples.both)))))
     = QueueService.fields_of
         (snd (QueueService.close (QueueModule.composite_instance Samples.both))).
Proof.
  split; [reflexivity |].
  exact (proj1 (proj2 (proj2
           (@close_is_idempotent Reference.sqs_backend Reference.amqp_backend
              (QueueModule.composite_instance Samples.both))))
           eq_refl).
Defined.

(** A first [close] of the RabbitMQ adapter that the broker refuses is
    fulfilled and changes nothing; the second [close], fulfilled too, is
    the one that sets [isConnected] to false. *)
Lemma second_close_after_a_refused_close_disconnects :
  fst (QueueService.close Unsteady.connected) = fulfilled tt
  /\ fst (QueueService.close Unsteady.closed_once) = fulfilled tt
  /\ close_completed Unsteady.connected = false
  /\ Unsteady.is_connected Unsteady.connected = Some true
  /\ Unsteady.is_connected Unsteady.closed_once = Some true
  /\ Unsteady.is_connected Unsteady.closed_twice = Some false
  /\ QueueService.fields_of Unsteady.closed_twice
     <> QueueService.fields_of Unsteady.closed_once.
Proof.
  repeat split. intros E. discriminate E.
Qed.

End ClosingProperties.

(* ------------------------------------------------------------------ *)
(** ** Receiving from a queue that has nothing to give *)

Module EmptyQueueProperties.
Import QueueModule.

Section WithBackends.
Context `{JsRuntime} `{Sqs.Backend} `{Amqp.Backend}.

Lemma sqs_receive_empty opts now w :
  sqs_queue_is_empty opts w ->
  fst (SqsQueueService.receiveMessages opts now w) = fulfilled [].
Proof.
  unfold sqs_queue_is_empty, SqsQueueService.receiveMessages.
  destruct (SqsQueueService.sqsClient (SqsQueueService.this w)) as [client |];
    [| intros []].
  rewrite try_catch_rethrow. unfold SqsQueueService.on_aws. run.
  destruct (Sqs.send_ReceiveMessage client _ (SqsQueueService.aws w))
    as [[response | e] a']; cbn [fst]; [| intros []].
  destruct (Sqs.out_Messages response) as [[| m l] |];
    first [intros _; reflexivity | intros []].
Qed.

Lemma rabbitMq_get_loop_empty n now acc w :
  fst (Amqp.channel_get
         (RabbitMqQueueService.queueName (RabbitMqQueueService.this w))
         (RabbitMqQueueService.broker w)) = fulfilled None ->
  fst (RabbitMqQueueService.get_loop n now acc w) = fulfilled acc.
Proof.
  intros E. destruct n as [| n]; [reflexivity |].
  cbn [RabbitMqQueueService.get_loop]. unfold RabbitMqQueueService.on_broker.
  run.
  destruct (Amqp.channel_get _ (RabbitMqQueueService.broker w)) as [r b'].
  cbn in E. subst r. reflexivity.
Qed.

Lemma rabbitMq_receive_empty opts now w :
  rabbitMq_queue_is_empty w ->
  fst (RabbitMqQueueService.receiveMessages opts now w) = fulfilled [].
Proof.
  intros [C E]. unfold RabbitMqQueueService.receiveMessages. rewrite C.
  cbn [negb]. now apply rabbitMq_get_loop_empty.
Qed.

Lemma mock_receive_empty opts m :
  MockQueueService.messages m = [] ->
  fst (MockQueueService.receiveMessages opts m) = fulfilled [].
Proof.
  intros E. unfold MockQueueService.receiveMessages.
  rewrite MockProperties.splice_front, E. cbn [length fst].
  now rewrite firstn_nil.
Qed.

Lemma dispatch_result {A} f1 f2 f3 f4 (svc : QueueService.IQueueService) :
  fst (QueueService.dispatch (A := A) f1 f2 f3 f4 svc) =
  match svc with
  | sqs_instance s => fst (f1 s)
  | rabbitMq_instance r => fst (f2 r)
  | composite_instance c => fst (f3 c)
  | mock_instance m => fst (f4 m)
  end.
Proof.
  destruct svc as [s | r | c | m]; cbn;
    [destruct (f1 s) | destruct (f2 r) | destruct (f3 c) | destruct (f4 m)];
    reflexivity.
Qed.

(** C7. Whatever the adapter and the receive options, [receiveMessages]
    on a queue that has no message to give is fulfilled with the empty
    list. *)
Theorem receiveMessages_on_empty_queue :
  forall (svc : QueueService.IQueueService) (opts : option SubscribeOptions)
         (now : Z),
    no_message_available opts svc ->
    fst (QueueService.receiveMessages opts now svc) = fulfilled [].
Proof.
  intros svc opts now E. unfold QueueService.receiveMessages.
  rewrite dispatch_result. destruct svc as [s | r | c | m]; cbn in E.
  - now apply sqs_receive_empty.
  - now apply rabbitMq_receive_empty.
  - destruct E as [Es Er].
    rewrite CompositeProperties.receiveMessages_unfold.
    unfold Spec.sqs_receive_result,
      Spec.rabbitMq_receive_result.
    rewrite (sqs_receive_empty opts now _ Es),
      (rabbitMq_receive_empty opts now _ Er).
    reflexivity.
  - now apply mock_receive_empty.
Qed.

End WithBackends.

(** The scenario of the specification: five messages asked of the
    composite over two empty queues. *)
Lemma receiveMessages_on_empty_queue_witness :
  fst (@QueueService.receiveMessages
         Reference.runtime Reference.sqs_backend Reference.amqp_backend
         (Some {| maxNumberOfMessages := Some 5%Z;
                  waitTimeSeconds := None;
                  visibilityTimeout := None |})
         0%Z
         (composite_instance
            (Reference.composite_service (Reference.configured "both"))))
  = fulfilled [].
Proof.
  apply (@receiveMessages_on_empty_queue
           Reference.runtime Reference.sqs_backend Reference.amqp_backend).
  cbn. repeat split.
Defined.

End EmptyQueueProperties.

(* ------------------------------------------------------------------ *)
(** ** Mapping a received message *)

Module MappingProperties.

Section WithRuntime.
Context `{JsRuntime}.

Lemma parse_or_raw {W} (text : string) (raw : JsVal) (w : W) :
  try_catch (call (JSON_parse text)) (fun _ => ret raw) w =
  (fulfilled (match JSON_parse text with
              | fulfilled v => v
              | rejected _ => raw
              end), w).
Proof. run. destruct (JSON_parse text); reflexivity. Qed.

Lemma mapSqsMessage_body {W} (msg : Sqs.Message) (now : Z) (w : W) :
  exists q,
    SqsQueueService.mapSqsMessage msg now w = (fulfilled q, w)
    /\ id q = Sqs.ReceiptHandle msg
    /\ body q = match JSON_parse (or_default (Sqs.Body msg) "{}") with
                | fulfilled v => v
                | rejected _ => of_optional_string (Sqs.Body msg)
                end.
Proof.
  unfold SqsQueueService.mapSqsMessage, bind. rewrite parse_or_raw.
  eexists. repeat split.
Qed.

Lemma mapRabbitMqMessage_body {W} (msg : Amqp.ConsumeMessage) (now : Z) (w : W) :
  exists q,
    RabbitMqQueueService.mapRabbitMqMessage msg now w = (fulfilled q, w)
    /\ body q = match JSON_parse (Amqp.content msg) with
                | fulfilled v => v
                | rejected _ => JStr (Amqp.content msg)
                end.
Proof.
  unfold RabbitMqQueueService.mapRabbitMqMessage, bind. rewrite parse_or_raw.
  eexists. repeat split.
Qed.

(** C8. Mapping a received message never throws, in either adapter; and
    when [JSON.parse] throws on the payload, the body of the mapped message
    is the payload itself: [message.Body] for SQS, the text of
    [msg.content] for RabbitMQ. *)
Theorem mapping_falls_back_to_raw_payload :
  forall (W : Type) (w : W) (now : Z),
    (forall msg : Sqs.Message,
        is_fulfilled (fst (SqsQueueService.mapSqsMessage msg now w)) = true)
    /\ (forall msg : Amqp.ConsumeMessage,
        is_fulfilled (fst (RabbitMqQueueService.mapRabbitMqMessage msg now w)) = true)
    /\ (forall msg : Sqs.Message,
        is_rejected (JSON_parse (or_default (Sqs.Body msg) "{}")) = true ->
        exists q,
          SqsQueueService.mapSqsMessage msg now w = (fulfilled q, w)
          /\ body q = of_optional_string (Sqs.Body msg))
    /\ (forall msg : Amqp.ConsumeMessage,
        is_rejected (JSON_parse (Amqp.content msg)) = true ->
        exists q,
          RabbitMqQueueService.mapRabbitMqMessage msg now w = (fulfilled q, w)
          /\ body q = JStr (Amqp.content msg)).
Proof.
  intros W w now. repeat split.
  - intros msg. destruct (mapSqsMessage_body msg now w) as (q & E & _).
    now rewrite E.
  - intros msg. destruct (mapRabbitMqMessage_body msg now w) as (q & E & _).
    now rewrite E.
  - intros msg R. destruct (mapSqsMessage_body msg now w) as (q & E & _ & B).
    exists q. split; [exact E |]. rewrite B.
    destruct (JSON_parse _); [discriminate | reflexivity].
  - intros msg R. destruct (mapRabbitMqMessage_body msg now w) as (q & E & B).
    exists q. split; [exact E |]. rewrite B.
    destruct (JSON_parse _); [discriminate | reflexivity].
Qed.

End WithRuntime.

Lemma mapping_falls_back_to_raw_payload_witness :
  (exists q,
      @SqsQueueService.mapSqsMessage Reference.runtime unit sqs_plain_text 0%Z tt
      = (fulfilled q, tt)
      /\ body q = JStr "hello, queue")
  /\ (exists q,
      @RabbitMqQueueService.mapRabbitMqMessage Reference.runtime unit
        rabbitMq_plain_text 0%Z tt
      = (fulfilled q, tt)
      /\ body q = JStr "{message: hi}").
Proof.
  pose proof (@mapping_falls_back_to_raw_payload Reference.runtime unit tt 0%Z)
    as (_ & _ & S & R).
  split.
  - exact (S sqs_plain_text eq_refl).
  - exact (R rabbitMq_plain_text eq_refl).
Defined.

End MappingProperties.

(* ------------------------------------------------------------------ *)
(** ** The subscribe loops *)

Module SubscribeProperties.

Lemma read_property_outcome {W} (reason : Thrown) (name : string) (w : W) :
  snd (read_property reason name w) = w
  /\ fst (read_property reason name w)
     = (if nullish reason
        then rejected (cannot_read_properties
                         (match reason with
                          | thrown_value JNull => "null"
                          | _ => "undefined"
                          end) name)
        else fulfilled tt).
Proof.
  destruct reason as [e | []]; split; reflexivity.
Qed.

(** The mock adapter: one firing of the interval on a queue headed by
    [m]. *)
Lemma mock_tick_outcome (callback : Callback MockQueueService.t)
    (m : QueueMessage) (rest : list QueueMessage) (counter : Z) :
  MockQueueService.tick callback
    {| MockQueueService.messages := m :: rest;
       MockQueueService.messageIdCounter := counter |}
  = match callback m {| MockQueueService.messages := rest;
                        MockQueueService.messageIdCounter := counter |} with
    | (resolved, s') => (fulfilled tt, s')
    | (rejected_with reason, s') =>
        if nullish reason
        then (fst (read_property reason "message" s'), s')
        else
          (fulfilled tt,
           {| MockQueueService.messages := (MockQueueService.messages s' ++ [m])%list;
              MockQueueService.messageIdCounter :=
                MockQueueService.messageIdCounter s' |})
    end.
Proof.
  unfold MockQueueService.tick, try_await.
  cbn [MockQueueService.messages MockQueueService.messageIdCounter].
  destruct (callback m _) as [[| reason] s']; [reflexivity |].
  destruct reason as [e | []]; reflexivity.
Qed.

Section WithBackends.
Context `{JsRuntime} `{Sqs.Backend} `{Amqp.Backend}.

(** The RabbitMQ adapter: one delivery. *)
Lemma rabbitMq_on_message_outcome
    (callback : Callback RabbitMqQueueService.World)
    (msg : Amqp.ConsumeMessage) (now : Z) (w : RabbitMqQueueService.World) :
  exists q,
    RabbitMqQueueService.mapRabbitMqMessage msg now w = (fulfilled q, w)
    /\ RabbitMqQueueService.on_message callback (Some msg) now w
       = match callback q w with
         | (resolved, w') =>
             (fulfilled tt,
              {| RabbitMqQueueService.this := RabbitMqQueueService.this w';
                 RabbitMqQueueService.broker :=
                   Amqp.channel_ack msg (RabbitMqQueueService.broker w') |})
         | (rejected_with reason, w') =>
             if nullish reason
             then (fst (read_property reason "message" w'), w')
             else
               (fulfilled tt,
                {| RabbitMqQueueService.this := RabbitMqQueueService.this w';
                   RabbitMqQueueService.broker :=
                     Amqp.channel_nack msg false true
                       (RabbitMqQueueService.broker w') |})
         end.
Proof.
  destruct (MappingProperties.mapRabbitMqMessage_body msg now w) as (q & E & _).
  exists q. split; [exact E |].
  unfold RabbitMqQueueService.on_message. rewrite E. unfold try_await.
  destruct (callback q w) as [[| reason] w']; [reflexivity |].
  destruct reason as [e | []]; reflexivity.
Qed.

(** [deleteMessage] of the SQS adapter sends the service the command for
    the receipt handle it is given, and turns a rejection of the service
    into its own. *)
Lemma sqs_deleteMessage_sends (messageId : option string)
    (w : SqsQueueService.World) :
  SqsQueueService.deleteMessage messageId w
  = match SqsQueueService.sqsClient (SqsQueueService.this w) with
    | Some client =>
        let answer :=
          Sqs.send_DeleteMessage client
            {| Sqs.del_QueueUrl := SqsQueueService.queueUrl (SqsQueueService.this w);
               Sqs.del_ReceiptHandle := messageId |}
            (SqsQueueService.aws w) in
        (fst answer,
         {| SqsQueueService.this := SqsQueueService.this w;
            SqsQueueService.aws := snd answer |})
    | None => (rejected SqsQueueService.not_initialized, w)
    end.
Proof.
  unfold SqsQueueService.deleteMessage.
  destruct (SqsQueueService.sqsClient (SqsQueueService.this w)) as [client |];
    [| reflexivity].
  rewrite try_catch_rethrow. unfold SqsQueueService.on_aws, lift.
  destruct (Sqs.send_DeleteMessage client _ _) as [r a]. reflexivity.
Qed.

(** The SQS adapter: one message of a polled batch. *)
Lemma sqs_process_outcome (callback : Callback SqsQueueService.World)
    (m : QueueMessage) (w : SqsQueueService.World) :
  SqsQueueService.process callback m w
  = match callback m w with
    | (resolved, w') =>
        (fulfilled tt, snd (SqsQueueService.deleteMessage (id m) w'))
    | (rejected_with reason, w') =>
        (if nullish reason then fst (read_property reason "message" w')
         else fulfilled tt, w')
    end.
Proof.
  unfold SqsQueueService.process, try_await.
  destruct (callback m w) as [[| reason] w'].
  - unfold try_catch.
    destruct (SqsQueueService.deleteMessage (id m) w') as [[[] | e] w''];
      reflexivity.
  - destruct reason as [e | []]; reflexivity.
Qed.

(** A whole batch, for a handler that rejects with no [null] and no
    [undefined]: the delete commands that reach the service are those of
    the accepted messages, in the order of the batch, and no other. *)
Lemma sqs_batch_deletes_accepted
    (handler : QueueMessage -> Outcome) (batch : list QueueMessage)
    (w : SqsQueueService.World) :
  Forall (fun m => match handler m with
                   | resolved => True
                   | rejected_with reason => nullish reason = false
                   end) batch ->
  SqsQueueService.for_of batch
    (SqsQueueService.process (answering handler)) w
  = (fulfilled tt,
     fold_left (fun w m => snd (SqsQueueService.deleteMessage (id m) w))
               (filter (fun m => match handler m with
                                 | resolved => true
                                 | rejected_with _ => false
                                 end) batch) w).
Proof.
  intros R. revert w. induction R as [| m batch Rm _ IH]; intros w; [reflexivity |].
  cbn [SqsQueueService.for_of filter]. unfold bind at 1.
  rewrite sqs_process_outcome. unfold answering at 1.
  destruct (handler m) as [| reason]; cbn [fold_left]; [apply IH |].
  rewrite Rm. apply IH.
Qed.


End WithBackends.


End SubscribeProperties.

(* ------------------------------------------------------------------ *)
(** ** Scenarios on the reference brokers *)

Module Scenarios.
Import QueueModule Samples.

#[local] Existing Instance Reference.runtime.
#[local] Existing Instance Reference.sqs_backend.
#[local] Existing Instance Reference.amqp_backend.

Example composite_publish_two_ids :
  fst (CompositeQueueService.publish hi None 1763642060497 "0.qom6s7yfyzz" both)
  = fulfilled "id-1,1763642060497-qom6s7yfy".
Proof. reflexivity. Qed.

Example composite_publish_surviving_id :
  fst (CompositeQueueService.publish hi None 1763642060497 "0.qom6s7yfyzz"
         sqs_only_up)
  = fulfilled "id-1".
Proof. reflexivity. Qed.

Example composite_publish_no_provider :
  fst (CompositeQueueService.publish hi None 1763642060497 "0.qom6s7yfyzz"
         both_unconfigured)
  = rejected CompositeQueueService.all_failed.
Proof. reflexivity. Qed.

Example composite_publish_then_receive_bodies :
  option_map (map body)
    (match fst (CompositeQueueService.receiveMessages None 0
                  (snd (CompositeQueueService.publish hi None 1763642060497
                          "0.qom6s7yfyzz" both))) with
     | fulfilled l => Some l
     | rejected _ => None
     end)
  = Some [hi; hi].
Proof. reflexivity. Qed.

Example composite_receive_without_configuration :
  fst (CompositeQueueService.receiveMessages None 0 both_unconfigured)
  = fulfilled [].
Proof. reflexivity. Qed.

Example composite_identifier_without_configuration :
  CompositeQueueService.getQueueIdentifier both_unconfigured
  = Some "composite[undefined,undefined/undefined]".
Proof. reflexivity. Qed.

Example selection_of_unknown_provider :
  instantiate (Reference.configured "kafka") Reference.empty_queue
    Reference.empty_broker
  = rejected (mkError "Unknown queue provider: kafka").
Proof. reflexivity. Qed.

Example selection_is_case_sensitive :
  is_fulfilled
    (instantiate (Reference.configured "SQS") Reference.empty_queue
       Reference.empty_broker)
  = false.
Proof. reflexivity. Qed.

Example selection_defaults_to_rabbitmq :
  provider (optionsFactory (fun _ => None)) = "rabbitmq".
Proof. reflexivity. Qed.

Example mock_ids_count_up :
  map id (MockQueueService.messages three_published)
  = [Some "mock-msg-1"; Some "mock-msg-2"; Some "mock-msg-3"].
Proof. reflexivity. Qed.

Example mock_receive_two_of_three :
  let (r, s) := MockQueueService.receiveMessages (at_most 2) three_published in
  (match r with fulfilled l => map body l | rejected _ => [] end,
   map body (MockQueueService.messages s))
  = ([JStr "a"; JStr "b"], [JStr "c"]).
Proof. reflexivity. Qed.

Example mock_receive_zero_means_ten :
  fst (MockQueueService.receiveMessages (at_most 0) three_published)
  = fulfilled (MockQueueService.messages three_published).
Proof. reflexivity. Qed.

Example mock_receive_negative_takes_nothing :
  MockQueueService.receiveMessages (at_most (-3)) three_published
  = (fulfilled [], three_published).
Proof. reflexivity. Qed.

Example mock_subscribe_requeues_rejected :
  map body
    (MockQueueService.messages
       (snd (MockQueueService.tick rejects_b
               (snd (MockQueueService.tick rejects_b three_published)))))
  = [JStr "c"; JStr "b"].
Proof. reflexivity. Qed.

Example rabbitMq_rejected_handler_requeues :
  let (m, w) := delivery_of delivered_b in
  let after := RabbitMqQueueService.broker
                 (snd (RabbitMqQueueService.on_message rejects_b m 0 w)) in
  (map Amqp.content (Reference.ready after), Reference.unacked after)
  = (["b"], []).
Proof. reflexivity. Qed.

Example rabbitMq_fulfilled_handler_acks :
  let (m, w) := delivery_of delivered_b in
  let after := RabbitMqQueueService.broker
                 (snd (RabbitMqQueueService.on_message
                         (answering (fun _ => resolved)) m 0 w)) in
  (Reference.ready after, Reference.unacked after) = ([], []).
Proof. reflexivity. Qed.

Example sqs_poll_leaves_rejected_undeleted :
  map Sqs.Body
    (Reference.stored
       (SqsQueueService.aws (snd (SqsQueueService.poll rejects_b 0 1 stored_abc))))
  = [Some "b"].
Proof. reflexivity. Qed.

Example rabbitMq_null_rejection_sends_no_answer :
  let (m, w) := delivery_of delivered_b in
  let after := RabbitMqQueueService.broker
                 (snd (RabbitMqQueueService.on_message rejects_with_null m 0 w)) in
  (Reference.ready after, map Amqp.content (Reference.unacked after))
  = ([], ["b"]).
Proof. reflexivity. Qed.

Example sqs_null_rejection_skips_the_batch :
  let (r, w) := SqsQueueService.poll rejects_with_null 0 1 stored_abc in
  (r, map Sqs.Body (Reference.stored (SqsQueueService.aws w)))
  = (fulfilled tt, [Some "a"; Some "b"; Some "c"]).
Proof. reflexivity. Qed.

Example sqs_poll_schedules_next_round :
  SqsQueueService.pollingInterval
    (SqsQueueService.this (snd (SqsQueueService.poll rejects_b 0 1 stored_abc)))
  = Some 1%Z.
Proof. reflexivity. Qed.

Example sqs_close_stops_polling :
  let closed := snd (SqsQueueService.close
                       (snd (SqsQueueService.poll rejects_b 0 1 stored_abc))) in
  (SqsQueueService.isPolling (SqsQueueService.this closed),
   SqsQueueService.pollingInterval (SqsQueueService.this closed),
   SqsQueueService.poll rejects_b 0 2 closed)
  = (false, None, (fulfilled tt, closed)).
Proof. reflexivity. Qed.

End Scenarios.

(* ================================================================== *)
(** * Further properties of the adapters *)

Import Notions Deliveries.

(* ------------------------------------------------------------------ *)
(** ** The mock adapter over its histories *)

Module MockHistoryProperties.
Import MockHistory.

Lemma string_of_Z_inj (a b : Z) : string_of_Z a = string_of_Z b -> a = b.
Proof.
  unfold string_of_Z. intros E.
  assert (N : forall n, NilZero.int_of_string (NilZero.string_of_int (Z.to_int n))
                        = Some (Z.to_int n)).
  { intros n. apply NilZero.isi; destruct n as [| q | q]; cbn;
      try discriminate; intros E'; injection E' as E';
      exact (DecimalPos.Unsigned.to_uint_nonnil q E'). }
  apply DecimalZ.to_int_inj.
  pose proof (N a) as Na. rewrite E, N in Na. now injection Na.
Qed.

Lemma mock_id_inj (a b : Z) : mock_id a = mock_id b -> a = b.
Proof.
  unfold mock_id. cbn [append]. intros E. apply string_of_Z_inj.
  now injection E.
Qed.

Lemma filter_keeps_distinct {A B} (key : A -> B) (keep : A -> bool) :
  forall q : list A, NoDup (map key q) -> NoDup (map key (filter keep q)).
Proof.
  intros q. induction q as [| a q IH]; cbn; [auto |].
  intros N. inversion N as [| ? ? Hn N']; subst.
  destruct (keep a); cbn; [constructor |]; auto.
  intros I. apply Hn. apply in_map_iff in I as (x & E & I).
  apply filter_In in I as [I _]. apply in_map_iff. eauto.
Qed.

Lemma NoDup_map_skipn {A B} (f : A -> B) (n : nat) (l : list A) :
  NoDup (map f l) -> NoDup (map f (skipn n l)).
Proof.
  revert l. induction n as [| n IH]; intros [| a l]; cbn; auto.
  intros N. inversion N; subst. auto.
Qed.

Lemma Forall_map_sub {A B} (f : A -> B) (P : B -> Prop) (l l' : list A) :
  (forall x, In x l' -> In x l) -> Forall P (map f l) -> Forall P (map f l').
Proof.
  intros S F. rewrite Forall_forall in *. intros y I.
  apply in_map_iff in I as (x & <- & I). apply F, in_map, S, I.
Qed.

Lemma skipn_incl {A} (n : nat) (l : list A) x : In x (skipn n l) -> In x l.
Proof.
  intros I. rewrite <- (firstn_skipn n l). apply in_or_app. now right.
Qed.

Lemma well_numbered_step (s : MockQueueService.t) (c : Call) :
  well_numbered s -> well_numbered (apply_call s c).
Proof.
  intros (N & F & P). destruct c as [message options now | options | i | | h];
    unfold well_numbered, ids in *; cbn [apply_call].
  - cbn [MockQueueService.publish snd MockQueueService.messages
         MockQueueService.messageIdCounter].
    rewrite map_app. cbn [map id]. repeat split.
    + apply NoDup_app; [exact N | constructor; [intros [] | constructor] |].
      intros x Ix [<- | []]. rewrite Forall_forall in F.
      destruct (F _ Ix) as (k & Hk & E). injection E as E.
      first [apply mock_id_inj in E | apply string_of_Z_inj in E]; lia.
    + apply Forall_app. split.
      * eapply Forall_impl; [| exact F]. intros x (k & Hk & E).
        exists k. split; [lia | exact E].
      * constructor; [| constructor].
        exists (MockQueueService.messageIdCounter s + 1)%Z. split; [lia | reflexivity].
    + lia.
  - unfold MockQueueService.receiveMessages.
    rewrite MockProperties.splice_front.
    cbn [snd MockQueueService.messages MockQueueService.messageIdCounter].
    repeat split; [now apply NoDup_map_skipn | | exact P].
    eapply Forall_map_sub; [| exact F]. intros x. apply skipn_incl.
  - cbn [MockQueueService.deleteMessage_id modify snd MockQueueService.messages
         MockQueueService.messageIdCounter].
    repeat split; [now apply filter_keeps_distinct | | exact P].
    eapply Forall_map_sub; [| exact F]. intros x I.
    now apply filter_In in I.
  - cbn. repeat split; [constructor | constructor | exact P].
  - destruct s as [[| m rest] counter]; [cbn; auto |].
    rewrite SubscribeProperties.mock_tick_outcome. unfold answering.
    cbn [MockQueueService.messages MockQueueService.messageIdCounter map] in *.
    inversion N as [| ? ? Hn N']; subst. inversion F as [| ? ? Fm F']; subst.
    destruct (h m) as [| reason];
      [| destruct (nullish reason)];
      cbn [snd MockQueueService.messages MockQueueService.messageIdCounter];
      auto.
    rewrite map_app. cbn [map]. repeat split; [| | exact P].
    + apply NoDup_app; [exact N' | constructor; [intros [] | constructor] |].
      intros x Ix [<- | []]. auto.
    + apply Forall_app. split; [exact F' | constructor; [exact Fm | constructor]].
Qed.

Lemma well_numbered_after (calls : list Call) : well_numbered (after calls).
Proof.
  unfold after.
  assert (G : forall s, well_numbered s -> well_numbered (fold_left apply_call calls s)).
  { induction calls as [| c calls IH]; intros s W; [exact W |].
    cbn [fold_left]. apply IH, well_numbered_step, W. }
  apply G. repeat split; cbn; [constructor | constructor | lia].
Qed.

(** Whatever was published, received, deleted, closed or handled before,
    the ids of the queued messages are pairwise different, and the id the
    next [publish] returns is the id of none of them. *)
Theorem mock_ids_never_repeat :
  forall (calls : list Call) (message : JsVal) (options : option PublishOptions)
         (now : Z),
    NoDup (ids (after calls))
    /\ exists fresh,
         fst (MockQueueService.publish message options now (after calls))
         = fulfilled fresh
         /\ ~ In (Some fresh) (ids (after calls)).
Proof.
  intros calls message options now.
  destruct (well_numbered_after calls) as (N & F & P).
  split; [exact N |]. eexists. split; [reflexivity |].
  intros I. rewrite Forall_forall in F. destruct (F _ I) as (k & Hk & E).
  injection E as E. first [apply mock_id_inj in E | apply string_of_Z_inj in E]; lia.
Qed.

End MockHistoryProperties.

(* ------------------------------------------------------------------ *)
(** ** Deleting, round trips and passes on the mock adapter *)

Module MockQueueProperties.
Import MockHistory.

Lemma other_than_false i m : other_than i m = false <-> id m = Some i.
Proof.
  unfold other_than. destruct (id m) as [j |]; cbn; [| split; discriminate].
  destruct (String.eqb_spec j i) as [-> | N]; cbn; split; auto; try discriminate.
  intros E. injection E as E. contradiction.
Qed.

Lemma filter_other_than_absent i (l : list QueueMessage) :
  ~ In (Some i) (map id l) -> filter (other_than i) l = l.
Proof.
  induction l as [| m l IH]; cbn; [reflexivity |]. intros N.
  destruct (other_than i m) eqn:O.
  - f_equal. apply IH. intros I. apply N. now right.
  - apply other_than_false in O. destruct N. now left.
Qed.

Lemma filter_other_than_present i (l : list QueueMessage) :
  NoDup (map id l) -> In (Some i) (map id l) ->
  S (length (filter (other_than i) l)) = length l.
Proof.
  induction l as [| m l IH]; cbn; [intros _ [] |]. intros N I.
  inversion N as [| ? ? Hn N']; subst.
  destruct (other_than i m) eqn:O.
  - cbn. f_equal. apply IH; [exact N' |]. destruct I as [E | I]; [| exact I].
    apply other_than_false in E. congruence.
  - apply other_than_false in O. rewrite O in Hn.
    now rewrite (filter_other_than_absent i l Hn).
Qed.

(** In the mock adapter, wherever it has been, [deleteMessage] removes the
    one queued message that has the id and leaves every other message
    where it is; with an id that is not queued it changes nothing. *)
Theorem mock_deleteMessage_removes_the_one :
  forall (calls : list Call) (i : string),
    let s := after calls in
    let s' := snd (MockQueueService.deleteMessage i s) in
    ~ In (Some i) (ids s')
    /\ (In (Some i) (ids s) ->
        S (length (MockQueueService.messages s'))
        = length (MockQueueService.messages s))
    /\ (~ In (Some i) (ids s) -> s' = s)
    /\ MockQueueService.messages s'
       = filter (fun m => negb (same_id (id m) (Some i)))
                (MockQueueService.messages s).
Proof.
  intros calls i s s'.
  destruct (MockHistoryProperties.well_numbered_after calls) as (N & _ & _).
  fold s in N. subst s'. unfold ids in *.
  cbn [MockQueueService.deleteMessage modify snd MockQueueService.messages].
  fold (other_than i). repeat split.
  - intros I. apply in_map_iff in I as (m & E & I).
    apply filter_In in I as [_ O].
    apply other_than_false in E. rewrite E in O. discriminate.
  - intros I. now apply filter_other_than_present.
  - intros A. rewrite (filter_other_than_absent i _ A). now destruct s.
Qed.

(** A message published to a mock queue that holds fewer messages than a
    receive may take comes back whole from that receive, last in the
    batch: with the body it was published with, the id [publish] returned
    and the attributes of the publish options; and the queue is empty
    afterwards. *)
Theorem mock_publish_then_receive :
  forall (s : MockQueueService.t) (message : JsVal)
         (options : option PublishOptions) (now : Z)
         (ropts : option SubscribeOptions),
    (Z.of_nat (length (MockQueueService.messages s))
     < or_number (opt_field ropts maxNumberOfMessages) 10)%Z ->
    exists (i : string) (m : QueueMessage),
      fst (MockQueueService.publish message options now s) = fulfilled i
      /\ MockQueueService.receiveMessages ropts
           (snd (MockQueueService.publish message options now s))
         = (fulfilled (MockQueueService.messages s ++ [m])%list,
            {| MockQueueService.messages := [];
               MockQueueService.messageIdCounter :=
                 (MockQueueService.messageIdCounter s + 1)%Z |})
      /\ body m = message
      /\ id m = Some i
      /\ attributes m = opt_field options messageAttributes.
Proof.
  intros s message options now ropts L.
  exists ("mock-msg-" ++ string_of_Z (MockQueueService.messageIdCounter s + 1)).
  exists {| id := Some ("mock-msg-"
                        ++ string_of_Z (MockQueueService.messageIdCounter s + 1));
            body := message;
            attributes := opt_field options messageAttributes;
            timestamp := Some (DateAt now) |}.
  split; [reflexivity |]. split; [| repeat split].
  unfold MockQueueService.receiveMessages.
  rewrite MockProperties.splice_front.
  cbn [MockQueueService.publish snd MockQueueService.messages
       MockQueueService.messageIdCounter].
  set (q := (MockQueueService.messages s ++ _)%list).
  assert (Lq : length q = S (length (MockQueueService.messages s))).
  { subst q. rewrite length_app. cbn. lia. }
  replace (Z.to_nat (Z.min _ (Z.of_nat (length q)))) with (length q) by lia.
  now rewrite firstn_all, skipn_all.
Qed.

Lemma mock_publish_then_receive_witness :
  exists (i : string) (m : QueueMessage),
    fst (MockQueueService.publish (JStr "hi") None 7 MockQueueService.create)
    = fulfilled i
    /\ MockQueueService.receiveMessages None
         (snd (MockQueueService.publish (JStr "hi") None 7 MockQueueService.create))
       = (fulfilled ([] ++ [m])%list,
          {| MockQueueService.messages := [];
             MockQueueService.messageIdCounter := (0 + 1)%Z |})
    /\ body m = JStr "hi"
    /\ id m = Some i
    /\ attributes m = opt_field None messageAttributes.
Proof.
  exact (mock_publish_then_receive MockQueueService.create (JStr "hi") None 7
           None eq_refl).
Defined.

Lemma ticks_pass (handler : QueueMessage -> Outcome)
    (front rest : list QueueMessage) (counter : Z) :
  ticks (length front) handler
    {| MockQueueService.messages := (front ++ rest)%list;
       MockQueueService.messageIdCounter := counter |}
  = {| MockQueueService.messages :=
         (rest ++ filter (fun m => put_back (handler m)) front)%list;
       MockQueueService.messageIdCounter := counter |}.
Proof.
  revert rest. induction front as [| m front IH]; intros rest.
  - cbn. now rewrite app_nil_r.
  - cbn [length ticks app]. rewrite SubscribeProperties.mock_tick_outcome.
    unfold answering. cbn [filter]. unfold put_back at 1.
    destruct (handler m) as [| reason]; [apply IH |].
    destruct (nullish reason); cbn [snd negb]; [apply IH |].
    cbn [MockQueueService.messages MockQueueService.messageIdCounter].
    rewrite <- app_assoc. rewrite IH. now rewrite <- app_assoc.
Qed.


End MockQueueProperties.

(* ------------------------------------------------------------------ *)
(** ** Receiving through the two backend adapters *)

Module ReceiveProperties.

Section WithBackends.
Context `{JsRuntime} `{Sqs.Backend} `{Amqp.Backend}.

Lemma rabbitMq_get_loop_bound (n : nat) (now : Z) (acc : list QueueMessage)
    (w : RabbitMqQueueService.World) :
  RabbitMqQueueService.this (snd (RabbitMqQueueService.get_loop n now acc w))
  = RabbitMqQueueService.this w
  /\ match fst (RabbitMqQueueService.get_loop n now acc w) with
     | fulfilled l => (length acc <= length l <= length acc + n)%nat
     | rejected _ => True
     end.
Proof.
  revert acc w. induction n as [| n IH]; intros acc w.
  - cbn. split; [reflexivity | lia].
  - assert (U : RabbitMqQueueService.get_loop (S n) now acc w =
                match Amqp.channel_get
                        (RabbitMqQueueService.queueName (RabbitMqQueueService.this w))
                        (RabbitMqQueueService.broker w) with
                | (fulfilled (Some m), b') =>
                    bind (RabbitMqQueueService.mapRabbitMqMessage m now)
                         (fun q => RabbitMqQueueService.get_loop n now
                                     (acc ++ [q])%list)
                         {| RabbitMqQueueService.this := RabbitMqQueueService.this w;
                            RabbitMqQueueService.broker := b' |}
                | (fulfilled None, b') =>
                    (fulfilled acc,
                     {| RabbitMqQueueService.this := RabbitMqQueueService.this w;
                        RabbitMqQueueService.broker := b' |})
                | (rejected e, b') =>
                    (rejected e,
                     {| RabbitMqQueueService.this := RabbitMqQueueService.this w;
                        RabbitMqQueueService.broker := b' |})
                end).
    { cbn [RabbitMqQueueService.get_loop].
      unfold RabbitMqQueueService.on_broker, bind at 1, lift.
      destruct (Amqp.channel_get _ (RabbitMqQueueService.broker w))
        as [[[m |] | e] b']; reflexivity. }
    rewrite U. clear U.
    destruct (Amqp.channel_get _ (RabbitMqQueueService.broker w))
      as [[[m |] | e] b'].
    + set (w' := {| RabbitMqQueueService.this := RabbitMqQueueService.this w;
                    RabbitMqQueueService.broker := b' |}).
      destruct (MappingProperties.mapRabbitMqMessage_body m now w')
        as (q & E & _).
      unfold bind. rewrite E.
      destruct (IH (acc ++ [q])%list w') as [T B]. split; [exact T |].
      destruct (fst (RabbitMqQueueService.get_loop n now (acc ++ [q]) w'));
        [| exact I].
      rewrite length_app in B. cbn in B. lia.
    + cbn. split; [reflexivity | lia].
    + cbn. auto.
Qed.

(** [receiveMessages] of the RabbitMQ adapter never returns more than
    [maxNumberOfMessages] messages, 10 when the option is absent or zero
    and none when it is negative, whatever the broker holds; and it leaves
    the fields of the adapter as they are. *)
Theorem rabbitMq_receiveMessages_is_bounded :
  forall (opts : option SubscribeOptions) (now : Z)
         (w : RabbitMqQueueService.World),
    RabbitMqQueueService.this
      (snd (RabbitMqQueueService.receiveMessages opts now w))
    = RabbitMqQueueService.this w
    /\ match fst (RabbitMqQueueService.receiveMessages opts now w) with
       | fulfilled l =>
           (Z.of_nat (length l)
            <= Z.max 0 (or_number (opt_field opts maxNumberOfMessages) 10))%Z
       | rejected _ => True
       end.
Proof.
  intros opts now w. unfold RabbitMqQueueService.receiveMessages.
  destruct (RabbitMqQueueService.isConnected (RabbitMqQueueService.this w));
    cbn [negb]; [| cbn; auto].
  destruct (rabbitMq_get_loop_bound
              (Z.to_nat (or_number (opt_field opts maxNumberOfMessages) 10))
              now [] w) as [T B].
  split; [exact T |].
  destruct (fst (RabbitMqQueueService.get_loop _ now [] w)); [| exact I].
  cbn in B. lia.
Qed.

Lemma sqs_map_each_ids {W} (l : list Sqs.Message) (now : Z) (w : W) :
  exists qs,
    SqsQueueService.map_each (fun msg => SqsQueueService.mapSqsMessage msg now) l w
    = (fulfilled qs, w)
    /\ map id qs = map Sqs.ReceiptHandle l.
Proof.
  induction l as [| m l (qs & E & I)].
  - exists []. split; reflexivity.
  - destruct (MappingProperties.mapSqsMessage_body m now w) as (q & Eq & Iq & _).
    exists (q :: qs). cbn [SqsQueueService.map_each]. unfold bind at 1.
    rewrite Eq. unfold bind at 1. rewrite E. cbn. split; [reflexivity |].
    now rewrite Iq, I.
Qed.

(** [receiveMessages] of the SQS adapter, once its client exists, gives
    back what the service answers: one message for each message of the
    answer, in the same order, whose id is the receipt handle (the value
    [deleteMessage] has to be given); and when the service rejects the
    command, the very error of the service. The fields of the adapter are
    not touched. *)
Theorem sqs_receiveMessages_ids_are_receipt_handles :
  forall (opts : option SubscribeOptions) (now : Z) (w : SqsQueueService.World),
    match SqsQueueService.sqsClient (SqsQueueService.this w) with
    | None => True
    | Some client =>
        match Sqs.send_ReceiveMessage client
                (SqsQueueService.receiveCommand opts (SqsQueueService.this w))
                (SqsQueueService.aws w) with
        | (fulfilled response, aws') =>
            exists l,
              SqsQueueService.receiveMessages opts now w
              = (fulfilled l,
                 {| SqsQueueService.this := SqsQueueService.this w;
                    SqsQueueService.aws := aws' |})
              /\ map id l
                 = map Sqs.ReceiptHandle
                       (match Sqs.out_Messages response with
                        | Some messages => messages
                        | None => []
                        end)
        | (rejected e, aws') =>
            SqsQueueService.receiveMessages opts now w
            = (rejected e,
               {| SqsQueueService.this := SqsQueueService.this w;
                  SqsQueueService.aws := aws' |})
        end
    end.
Proof.
  intros opts now w. unfold SqsQueueService.receiveMessages.
  destruct (SqsQueueService.sqsClient (SqsQueueService.this w)) as [client |];
    [| exact I].
  rewrite try_catch_rethrow. unfold SqsQueueService.on_aws, bind, lift.
  destruct (Sqs.send_ReceiveMessage client _ (SqsQueueService.aws w))
    as [[response | e] aws']; [| reflexivity].
  destruct (sqs_map_each_ids
              (match Sqs.out_Messages response with
               | Some messages => messages
               | None => []
               end) now
              {| SqsQueueService.this := SqsQueueService.this w;
                 SqsQueueService.aws := aws' |}) as (qs & E & Iq).
  exists qs. split; [exact E | exact Iq].
Qed.

End WithBackends.
End ReceiveProperties.

(* ------------------------------------------------------------------ *)
(** ** Bodies and attributes from publish to receive *)

Module PayloadProperties.

Lemma assign_fresh {A} (k : string) (v : A) (r : list (string * A)) :
  ~ In k (map fst r) -> assign k v r = (r ++ [(k, v)])%list.
Proof.
  induction r as [| [k' v'] r IH]; cbn; [reflexivity |]. intros N.
  destruct (String.eqb_spec k' k) as [-> | _]; [destruct N; now left |].
  f_equal. apply IH. intros I. apply N. now right.
Qed.

Lemma fold_assign_fresh {A B} (g : A -> B) (entries : list (string * A))
    (acc : list (string * B)) :
  NoDup (map fst acc ++ map fst entries) ->
  fold_left (fun acc e => assign (fst e) (g (snd e)) acc) entries acc
  = (acc ++ map (fun e => (fst e, g (snd e))) entries)%list.
Proof.
  revert acc. induction entries as [| [k v] entries IH]; intros acc N.
  - cbn. now rewrite app_nil_r.
  - cbn [fold_left map fst snd] in *.
    rewrite assign_fresh.
    + rewrite IH.
      * now rewrite <- app_assoc.
      * rewrite map_app. cbn [map fst]. rewrite <- app_assoc. exact N.
    + apply NoDup_remove_2 in N. intros I. apply N, in_or_app. now left.
Qed.

Lemma fold_set_property {A B} (g : A -> B) (entries : list (string * A))
    (acc : list (string * B)) :
  NoDup (map fst acc ++ map fst entries) ->
  fold_left (fun acc e => set_property (fst e) (g (snd e)) acc) entries acc
  = (acc ++ map (fun e => (fst e, g (snd e)))
                (filter (fun e => negb (fst e =? "__proto__")) entries))%list.
Proof.
  revert acc. induction entries as [| [k v] entries IH]; intros acc N.
  - cbn. now rewrite app_nil_r.
  - cbn [fold_left map filter fst snd] in *. unfold set_property at 2.
    destruct (String.eqb_spec k "__proto__") as [-> | K]; cbn [negb].
    + apply IH. apply NoDup_remove_1 in N. exact N.
    + rewrite assign_fresh.
      * rewrite IH.
        -- cbn [map fst snd]. now rewrite <- app_assoc.
        -- rewrite map_app. cbn [map fst]. rewrite <- app_assoc. exact N.
      * apply NoDup_remove_2 in N. intros I. apply N, in_or_app. now left.
Qed.

Lemma lookup_filter_name {A} (k avoided : string) (r : list (string * A)) :
  lookup k (filter (fun e => negb (fst e =? avoided)) r)
  = if k =? avoided then None else lookup k r.
Proof.
  induction r as [| [k' v'] r IH]; cbn [filter lookup fst];
    [now destruct (k =? avoided) |].
  destruct (String.eqb_spec k' avoided) as [-> | K']; cbn [negb lookup].
  - rewrite IH. destruct (String.eqb_spec k avoided) as [-> | K]; [reflexivity |].
    destruct (String.eqb_spec avoided k) as [<- | _]; [contradiction | reflexivity].
  - rewrite IH. destruct (String.eqb_spec k' k) as [-> | _]; [| reflexivity].
    destruct (String.eqb_spec k avoided) as [-> | _]; [contradiction | reflexivity].
Qed.

Lemma lookup_assign {A} (k k' : string) (v : A) (r : list (string * A)) :
  lookup k (assign k' v r) = if k' =? k then Some v else lookup k r.
Proof.
  induction r as [| [k0 v0] r IH]; cbn.
  - reflexivity.
  - destruct (String.eqb_spec k0 k') as [-> | N0]; cbn.
    + destruct (k' =? k); reflexivity.
    + rewrite IH. destruct (String.eqb_spec k0 k) as [-> | _]; [| reflexivity].
      destruct (String.eqb_spec k' k) as [-> | _]; [contradiction | reflexivity].
Qed.

Lemma lookup_absent {A} (k : string) (r : list (string * A)) :
  ~ In k (map fst r) -> lookup k r = None.
Proof.
  induction r as [| [k' v'] r IH]; cbn; [reflexivity |]. intros N.
  destruct (String.eqb_spec k' k) as [-> | _]; [destruct N; now left |].
  apply IH. intros I. apply N. now right.
Qed.

(** [{...a, ...b}[k]]: the value of [b] when [b] has the key, that of [a]
    otherwise. *)
Lemma lookup_spread {A} (k : string) (a b : list (string * A)) :
  NoDup (map fst b) ->
  lookup k (spread a b) = match lookup k b with
                          | Some v => Some v
                          | None => lookup k a
                          end.
Proof.
  unfold spread. revert a. induction b as [| [k' v'] b IH]; intros a N;
    [reflexivity |].
  cbn [fold_left fst snd map lookup] in *. inversion N as [| ? ? Hn N']; subst.
  rewrite (IH _ N'), lookup_assign.
  destruct (String.eqb_spec k' k) as [-> | _].
  - now rewrite (lookup_absent k b Hn).
  - reflexivity.
Qed.

Lemma lookup_map {A B} (g : A -> B) (k : string) (r : list (string * A)) :
  lookup k (map (fun e => (fst e, g (snd e))) r) = option_map g (lookup k r).
Proof.
  induction r as [| [k' v'] r IH]; cbn; [reflexivity |].
  destruct (k' =? k); [reflexivity | exact IH].
Qed.

Section WithRuntime.
Context `{JsRuntime}.

(** [formatMessageAttributes] keeps the attributes one for one, in their
    order and under their names, each as a [String] attribute: a string
    value is carried as it is, any other value as its JSON text. The one
    exception is an attribute called [__proto__], which the assignment
    [acc[key] = ...] does not define: the result has no such attribute.
    Without attributes the function gives [undefined]. *)
Theorem formatMessageAttributes_keeps_the_attributes :
  forall (entries : JsRecord),
    NoDup (map fst entries) ->
    SqsQueueService.formatMessageAttributes None = None
    /\ SqsQueueService.formatMessageAttributes (Some entries)
       = Some (map (fun e => (fst e, string_attribute (snd e)))
                   (filter (fun e => negb (fst e =? "__proto__")) entries))
    /\ (forall (k s : string),
          k <> "__proto__" ->
          lookup k entries = Some (JStr s) ->
          option_map (fun formatted => lookup k formatted)
                     (SqsQueueService.formatMessageAttributes (Some entries))
          = Some (Some (JObj [("DataType", JStr "String");
                              ("StringValue", JStr s)])))
    /\ option_map (fun formatted => lookup "__proto__" formatted)
                  (SqsQueueService.formatMessageAttributes (Some entries))
       = Some None.
Proof.
  intros entries N.
  assert (E : SqsQueueService.formatMessageAttributes (Some entries)
              = Some (map (fun e => (fst e, string_attribute (snd e)))
                          (filter (fun e => negb (fst e =? "__proto__")) entries))).
  { unfold SqsQueueService.formatMessageAttributes. f_equal.
    apply (fold_set_property string_attribute entries []). exact N. }
  split; [reflexivity |]. split; [exact E |]. rewrite E. cbn [option_map].
  split.
  - intros k s K L. rewrite (lookup_map string_attribute), lookup_filter_name.
    destruct (String.eqb_spec k "__proto__"); [contradiction |].
    now rewrite L.
  - now rewrite (lookup_map string_attribute), lookup_filter_name.
Qed.

(** The attributes of a message received from SQS. Under a name [k] they
    hold the message attribute of that name if there is one, else the
    system attribute of that name, else, for the name [messageId] alone,
    the [MessageId] of the message: an attribute called [messageId]
    replaces it. *)
Theorem sqs_attributes_precedence :
  forall (W : Type) (w : W) (msg : Sqs.Message) (now : Z) (k : string),
    let system := match Sqs.Attributes msg with Some a => a | None => [] end in
    let custom := match Sqs.MessageAttributes msg with Some a => a | None => [] end in
    NoDup (map fst system) ->
    NoDup (map fst custom) ->
    exists q attrs,
      SqsQueueService.mapSqsMessage msg now w = (fulfilled q, w)
      /\ attributes q = Some attrs
      /\ lookup k attrs
         = match lookup k custom with
           | Some v => Some v
           | None =>
               match lookup k system with
               | Some text => Some (JStr text)
               | None =>
                   if "messageId" =? k
                   then Some (of_optional_string (Sqs.MessageId msg))
                   else None
               end
           end.
Proof.
  intros W w msg now k system custom Ns Nc.
  unfold SqsQueueService.mapSqsMessage, bind.
  rewrite MappingProperties.parse_or_raw. do 2 eexists.
  split; [reflexivity |]. split; [reflexivity |].
  fold system custom. rewrite (lookup_spread k _ custom Nc).
  destruct (lookup k custom); [reflexivity |].
  rewrite lookup_spread.
  - rewrite (lookup_map JStr). destruct (lookup k system); [reflexivity |].
    cbn. destruct ("messageId" =? k); reflexivity.
  - rewrite map_map. cbn [fst]. exact Ns.
Qed.

End WithRuntime.

Lemma formatMessageAttributes_keeps_the_attributes_witness :
  NoDup (map fst sample_attributes)
  /\ @SqsQueueService.formatMessageAttributes Reference.runtime
       (Some sample_attributes)
     = Some [("priority", JObj [("DataType", JStr "String");
                                ("StringValue", JStr "high")]);
             ("retries", JObj [("DataType", JStr "String");
                               ("StringValue", JStr "3")])].
Proof.
  assert (N : NoDup (map fst sample_attributes))
    by (repeat constructor; cbn; intuition discriminate).
  split; [exact N |].
  exact (proj1 (proj2 (@formatMessageAttributes_keeps_the_attributes
                         Reference.runtime sample_attributes N))).
Defined.

Lemma sqs_attributes_precedence_witness :
  exists q attrs,
    @SqsQueueService.mapSqsMessage Reference.runtime unit shadowed 0%Z tt
    = (fulfilled q, tt)
    /\ attributes q = Some attrs
    /\ lookup "messageId" attrs = Some (JStr "mine").
Proof.
  refine (@sqs_attributes_precedence Reference.runtime unit tt shadowed 0%Z
            "messageId" _ _);
    repeat constructor; cbn; intuition discriminate.
Defined.

End PayloadProperties.

(* ------------------------------------------------------------------ *)
(** ** What a published body is received as *)

Module RoundTripProperties.

Section WithRuntime.
Context `{JsRuntime}.


End WithRuntime.


End RoundTripProperties.

(* ------------------------------------------------------------------ *)
(** ** The ids of the RabbitMQ adapter *)

Module MessageIdProperties.







End MessageIdProperties.

(* ------------------------------------------------------------------ *)
(** ** The polling of the SQS adapter *)

Module PollingProperties.

Section WithBackends.
Context `{JsRuntime} `{Sqs.Backend} `{Amqp.Backend}.

Lemma sqs_receive_fields opts now (w : SqsQueueService.World) :
  SqsQueueService.this (snd (SqsQueueService.receiveMessages opts now w))
  = SqsQueueService.this w.
Proof.
  unfold SqsQueueService.receiveMessages.
  destruct (SqsQueueService.sqsClient (SqsQueueService.this w)) as [client |];
    [| reflexivity].
  rewrite try_catch_rethrow. unfold SqsQueueService.on_aws, bind, lift.
  destruct (Sqs.send_ReceiveMessage client _ (SqsQueueService.aws w))
    as [[response | e] aws']; [| reflexivity].
  match goal with
  | |- context [SqsQueueService.map_each ?f ?l ?w0] =>
      destruct (ReceiveProperties.sqs_map_each_ids l now w0) as (qs & E & _);
      rewrite E
  end.
  reflexivity.
Qed.

Lemma sqs_delete_fields i (w : SqsQueueService.World) :
  SqsQueueService.this (snd (SqsQueueService.deleteMessage i w))
  = SqsQueueService.this w.
Proof.
  unfold SqsQueueService.deleteMessage.
  destruct (SqsQueueService.sqsClient (SqsQueueService.this w)) as [client |];
    [| reflexivity].
  rewrite try_catch_rethrow. unfold SqsQueueService.on_aws, lift.
  destruct (Sqs.send_DeleteMessage client _ (SqsQueueService.aws w)); reflexivity.
Qed.

Lemma sqs_deletes_fields (l : list QueueMessage) (w : SqsQueueService.World) :
  SqsQueueService.this
    (fold_left (fun w m => snd (SqsQueueService.deleteMessage (id m) w)) l w)
  = SqsQueueService.this w.
Proof.
  revert w. induction l as [| m l IH]; intros w; [reflexivity |].
  cbn [fold_left]. now rewrite IH, sqs_delete_fields.
Qed.

(** A batch changes no field of the adapter, whatever the handler does
    to its messages. *)
Lemma sqs_batch_fields (handler : QueueMessage -> Outcome)
    (batch : list QueueMessage) (w : SqsQueueService.World) :
  SqsQueueService.this
    (snd (SqsQueueService.for_of batch
            (SqsQueueService.process (answering handler)) w))
  = SqsQueueService.this w.
Proof.
  revert w. induction batch as [| m batch IH]; intros w; [reflexivity |].
  cbn [SqsQueueService.for_of]. unfold bind.
  rewrite SubscribeProperties.sqs_process_outcome. unfold answering at 1.
  destruct (handler m) as [| reason].
  - now rewrite IH, sqs_delete_fields.
  - destruct reason as [e | []]; cbn [nullish]; solve [apply IH | reflexivity].
Qed.

(** What is inside the outer [try] of [poll]. *)
Lemma sqs_round_is_fulfilled (handler : QueueMessage -> Outcome)
    (opts : option SubscribeOptions) (now : Z) (w : SqsQueueService.World) :
  exists w',
    try_catch
      (bind (SqsQueueService.receiveMessages opts now)
            (fun messages =>
               SqsQueueService.for_of messages
                 (SqsQueueService.process (answering handler))))
      (fun _ => ret tt) w
    = (fulfilled tt, w')
    /\ SqsQueueService.this w' = SqsQueueService.this w.
Proof.
  unfold try_catch, bind.
  pose proof (sqs_receive_fields opts now w) as F.
  destruct (SqsQueueService.receiveMessages opts now w) as [[l | e] w1];
    cbn [snd] in F.
  - pose proof (sqs_batch_fields handler l w1) as B.
    destruct (SqsQueueService.for_of l _ w1) as [[[] | e] w2]; cbn [snd] in B;
      eexists; (split; [reflexivity | now rewrite B]).
  - eexists. split; [reflexivity | exact F].
Qed.

(** A round of [poll] is always fulfilled, whatever the handler resolves
    or rejects with: neither a rejected receive nor a rejected handler
    nor a rejected delete ends the polling. While the adapter is polling
    the round schedules the next one and changes no other field; once
    [close] has cleared the flag a pending round does nothing at all. *)
Theorem sqs_poll_survives_failures :
  forall (handler : QueueMessage -> Outcome) (now timer : Z)
         (w : SqsQueueService.World),
    let after := SqsQueueService.poll (answering handler) now timer w in
    fst after = fulfilled tt
    /\ SqsQueueService.this (snd after)
       = (if SqsQueueService.isPolling (SqsQueueService.this w)
          then SqsQueueService.set_pollingInterval (Some timer)
                 (SqsQueueService.this w)
          else SqsQueueService.this w)
    /\ (SqsQueueService.isPolling (SqsQueueService.this w) = false ->
        snd after = w)
    /\ SqsQueueService.poll (answering handler) now timer
         (snd (SqsQueueService.close w))
       = (fulfilled tt, snd (SqsQueueService.close w)).
Proof.
  intros handler now timer w after. subst after.
  assert (P : forall w0,
             fst (SqsQueueService.poll (answering handler) now timer w0)
             = fulfilled tt
             /\ SqsQueueService.this
                  (snd (SqsQueueService.poll (answering handler) now timer w0))
                = (if SqsQueueService.isPolling (SqsQueueService.this w0)
                   then SqsQueueService.set_pollingInterval (Some timer)
                          (SqsQueueService.this w0)
                   else SqsQueueService.this w0)
             /\ (SqsQueueService.isPolling (SqsQueueService.this w0) = false ->
                 SqsQueueService.poll (answering handler) now timer w0
                 = (fulfilled tt, w0))).
  { intros w0. unfold SqsQueueService.poll.
    destruct (SqsQueueService.isPolling (SqsQueueService.this w0)) eqn:Q;
      cbn [negb]; [| repeat split].
    destruct (sqs_round_is_fulfilled handler
                (Some {| maxNumberOfMessages := Some 10%Z;
                         waitTimeSeconds := Some 20%Z;
                         visibilityTimeout := None |}) now w0)
      as (w1 & E & F).
    match goal with
    | |- context [bind ?m ?k w0] =>
        assert (U : bind m k w0
                    = (fulfilled tt,
                       {| SqsQueueService.this :=
                            SqsQueueService.set_pollingInterval (Some timer)
                              (SqsQueueService.this w0);
                          SqsQueueService.aws := SqsQueueService.aws w1 |}))
    end.
    { unfold bind at 1. rewrite E. rewrite F, Q.
      unfold SqsQueueService.on_this, modify. now rewrite F. }
    rewrite U. repeat split. discriminate. }
  destruct (P w) as (P1 & P2 & P3).
  split; [exact P1 |]. split; [exact P2 |]. split.
  - intros Q. now rewrite (P3 Q).
  - apply P. destruct w as [[o c u p [t |]] a]; reflexivity.
Qed.

End WithBackends.
End PollingProperties.

(* ------------------------------------------------------------------ *)
(** ** Subscribing and deleting through the composite *)

Module CompositeFanOutProperties.

Section WithBackends.
Context `{JsRuntime} `{Sqs.Backend} `{Amqp.Backend}.

(** [deleteMessage] of the composite is fulfilled whatever its children
    answer. [subscribe] is not so forgiving: it is fulfilled only when
    both children's subscribes are, and rejected with the error of the
    SQS child first; but both children are asked in every case, so the
    consumer of one child is started even when the other child makes
    the call fail. *)
Theorem composite_subscribe_needs_both :
  forall (handler : QueueMessage -> Outcome) (messageId : string)
         (w : CompositeQueueService.World),
    let sqs_after :=
      SqsQueueService.subscribe (answering handler)
        (CompositeQueueService.sqsService w) in
    let rabbitMq_after :=
      RabbitMqQueueService.subscribe (answering handler)
        (CompositeQueueService.rabbitMqService w) in
    fst (CompositeQueueService.deleteMessage messageId w) = fulfilled tt
    /\ fst (CompositeQueueService.subscribe handler w)
       = match fst sqs_after, fst rabbitMq_after with
         | fulfilled _, fulfilled _ => fulfilled tt
         | rejected e, _ => rejected e
         | fulfilled _, rejected e => rejected e
         end
    /\ snd (CompositeQueueService.subscribe handler w)
       = {| CompositeQueueService.sqsService := snd sqs_after;
            CompositeQueueService.rabbitMqService := snd rabbitMq_after |}.
Proof.
  intros handler messageId w sqs_after rabbitMq_after.
  subst sqs_after rabbitMq_after. split; [| split].
  - unfold CompositeQueueService.deleteMessage, CompositeQueueService.on_sqs,
      CompositeQueueService.on_rabbitMq.
    run.
    destruct (SqsQueueService.deleteMessage (Some messageId)
                (CompositeQueueService.sqsService w)); reflexivity.
  - unfold CompositeQueueService.subscribe, CompositeQueueService.on_sqs,
      CompositeQueueService.on_rabbitMq.
    run.
    destruct (SqsQueueService.subscribe _ (CompositeQueueService.sqsService w))
      as [r1 s1].
    cbn [CompositeQueueService.rabbitMqService].
    destruct (RabbitMqQueueService.subscribe _
                (CompositeQueueService.rabbitMqService w)) as [r2 s2].
    destruct r1 as [[] |], r2 as [[] |]; reflexivity.
  - unfold CompositeQueueService.subscribe, CompositeQueueService.on_sqs,
      CompositeQueueService.on_rabbitMq.
    run.
    destruct (SqsQueueService.subscribe _ (CompositeQueueService.sqsService w))
      as [r1 s1].
    cbn [CompositeQueueService.rabbitMqService].
    destruct (RabbitMqQueueService.subscribe _
                (CompositeQueueService.rabbitMqService w)) as [r2 s2].
    destruct r1 as [[] |], r2 as [[] |]; reflexivity.
Qed.

End WithBackends.
End CompositeFanOutProperties.

(* ------------------------------------------------------------------ *)
(** ** The handler of the consumer *)

Module ConsumerProperties.

Lemma handleMessage_accepts (m : QueueMessage) :
  is_fulfilled (QueueConsumerService.handleMessage m) = consumable m.
Proof.
  unfold QueueConsumerService.handleMessage, consumable, poisonous.
  destruct (body m) as [| | b | n | t | items | fields]; try reflexivity;
    match goal with
    | |- context [to_string_throws ?v] => destruct (to_string_throws v)
    end; reflexivity.
Qed.

Section WithBackends.
Context `{JsRuntime} `{Sqs.Backend} `{Amqp.Backend}.

(** The delete commands of a list of messages, one after the other. *)
Lemma sqs_deletes_send (client : Sqs.SQSClient) (l : list QueueMessage)
    (w : SqsQueueService.World) :
  SqsQueueService.sqsClient (SqsQueueService.this w) = Some client ->
  fold_left (fun w m => snd (SqsQueueService.deleteMessage (id m) w)) l w
  = {| SqsQueueService.this := SqsQueueService.this w;
       SqsQueueService.aws :=
         fold_left
           (fun aws m =>
              snd (Sqs.send_DeleteMessage client
                     {| Sqs.del_QueueUrl :=
                          SqsQueueService.queueUrl (SqsQueueService.this w);
                        Sqs.del_ReceiptHandle := id m |} aws))
           l (SqsQueueService.aws w) |}.
Proof.
  revert w. induction l as [| m l IH]; intros w C; [now destruct w |].
  cbn [fold_left]. rewrite SubscribeProperties.sqs_deleteMessage_sends, C.
  cbn [snd]. rewrite IH; [reflexivity | exact C].
Qed.

(** The handler of [QueueConsumerService] rejects the messages whose body
    is [null] or [undefined], and those whose [message] cannot be printed
    by a template literal; it accepts every other message. Under it:
    - of a batch polled from SQS, the delete commands sent to the service
      are those of the messages it can handle, in batch order, and no
      other;
    - a delivery of RabbitMQ is answered with [ack] when the payload can
      be handled and with a requeueing [nack] when it cannot, each time
      it is delivered;
    - the JSON text [null], and a JSON object whose [message] is an object
      with a [toString] property, are payloads that cannot be handled. *)
Theorem consumer_settles_only_what_it_can_handle :
  (forall (batch : list QueueMessage) (w : SqsQueueService.World)
          (client : Sqs.SQSClient),
      SqsQueueService.sqsClient (SqsQueueService.this w) = Some client ->
      SqsQueueService.for_of batch
        (SqsQueueService.process
           (answering (fun m => outcome_of (QueueConsumerService.handleMessage m))))
        w
      = (fulfilled tt,
         {| SqsQueueService.this := SqsQueueService.this w;
            SqsQueueService.aws :=
              fold_left
                (fun aws m =>
                   snd (Sqs.send_DeleteMessage client
                          {| Sqs.del_QueueUrl :=
                               SqsQueueService.queueUrl (SqsQueueService.this w);
                             Sqs.del_ReceiptHandle := id m |} aws))
                (filter consumable batch) (SqsQueueService.aws w) |}))
  /\ (forall (msg : Amqp.ConsumeMessage) (now : Z)
             (w : RabbitMqQueueService.World),
        RabbitMqQueueService.on_message
          (answering (fun m => outcome_of (QueueConsumerService.handleMessage m)))
          (Some msg) now w
        = (fulfilled tt,
           {| RabbitMqQueueService.this := RabbitMqQueueService.this w;
              RabbitMqQueueService.broker :=
                if poisonous (received_as (Amqp.content msg))
                then Amqp.channel_nack msg false true (RabbitMqQueueService.broker w)
                else Amqp.channel_ack msg (RabbitMqQueueService.broker w) |}))
  /\ (forall (text : string),
        JSON_parse text = fulfilled JNull ->
        poisonous (received_as text) = true)
  /\ (forall (text : string) (fields inner : JsRecord) (own : JsVal),
        JSON_parse text = fulfilled (JObj fields) ->
        lookup "message" fields = Some (JObj inner) ->
        lookup "toString" inner = Some own ->
        poisonous (received_as text) = true).
Proof.
  split; [| split; [| split]].
  - intros batch w client C.
    rewrite SubscribeProperties.sqs_batch_deletes_accepted.
    + f_equal. rewrite (filter_ext _ consumable).
      * now apply sqs_deletes_send.
      * intros m. rewrite <- handleMessage_accepts.
        destruct (QueueConsumerService.handleMessage m) as [[] | e]; reflexivity.
    + apply Forall_forall. intros m _.
      destruct (QueueConsumerService.handleMessage m) as [[] | e]; cbn; auto.
  - intros msg now w.
    destruct (SubscribeProperties.rabbitMq_on_message_outcome
                (answering
                   (fun m => outcome_of (QueueConsumerService.handleMessage m)))
                msg now w)
      as (q & E & O).
    destruct (MappingProperties.mapRabbitMqMessage_body msg now w)
      as (q' & E' & B).
    rewrite E in E'. injection E' as <-. rewrite O. unfold answering.
    fold (received_as (Amqp.content msg)) in B. rewrite <- B.
    pose proof (handleMessage_accepts q) as A. unfold consumable in A.
    destruct (QueueConsumerService.handleMessage q) as [[] | e];
      cbn [is_fulfilled] in A; apply (f_equal negb) in A;
      rewrite negb_involutive in A; cbn [negb] in A; rewrite <- A; reflexivity.
  - intros text P. unfold received_as. now rewrite P.
  - intros text fields inner own P M T. unfold received_as. rewrite P.
    cbn [poisonous member to_string_throws]. rewrite M.
    cbn [to_string_throws]. now rewrite T.
Qed.

End WithBackends.

Lemma consumer_settles_only_what_it_can_handle_witness :
  lookup "message"
    (match unprintable with JObj fields => fields | _ => [] end)
  = Some (JObj [("toString", JNum 1)])
  /\ @poisonous (@received_as Reference.runtime (Amqp.content amqp_unprintable))
     = true.
Proof.
  split; [reflexivity |].
  exact (proj2 (proj2 (proj2 (@consumer_settles_only_what_it_can_handle
                                Reference.runtime Reference.sqs_backend
                                Reference.amqp_backend)))
           (Amqp.content amqp_unprintable)
           [("message", JObj [("toString", JNum 1)])]
           [("toString", JNum 1)] (JNum 1) eq_refl eq_refl eq_refl).
Defined.

End ConsumerProperties.

(* ------------------------------------------------------------------ *)
(** ** The controller over the mock adapter *)

Module ControllerMockProperties.
Import QueueModule QueueController MockHistory.

Lemma same_id_true (a b : option string) : same_id a b = true <-> a = b.
Proof.
  destruct a as [x |], b as [y |]; cbn; try (split; (discriminate || reflexivity)).
  rewrite String.eqb_eq. split; [intros -> | intros [= ->]]; reflexivity.
Qed.

Lemma filter_same_id_absent (i : option string) (q : list QueueMessage) :
  ~ In i (map id q) -> filter (fun m => negb (same_id (id m) i)) q = q.
Proof.
  induction q as [| m q IH]; cbn; [reflexivity |]. intros N.
  destruct (same_id (id m) i) eqn:E; cbn.
  - apply same_id_true in E. destruct N. now left.
  - f_equal. apply IH. intros I. apply N. now right.
Qed.

Section WithBackends.
Context `{JsRuntime} `{Sqs.Backend} `{Amqp.Backend}.
Variable toISOString : Z -> string.

Lemma mock_receive_ten (q : list QueueMessage) (c now : Z) :
  QueueService.receiveMessages ten now (mock q c)
  = (fulfilled (firstn 10 q), mock (skipn 10 q) c).
Proof.
  unfold QueueService.receiveMessages, QueueService.dispatch, mock.
  unfold MockQueueService.receiveMessages.
  rewrite MockProperties.splice_front.
  cbn [MockQueueService.messages MockQueueService.messageIdCounter ten
       opt_field maxNumberOfMessages or_number Z.eqb].
  destruct (Nat.le_gt_cases (length q) 10) as [L | L].
  - replace (Z.to_nat (Z.min 10 (Z.of_nat (length q)))) with (length q) by lia.
    now rewrite !firstn_all2, !skipn_all2 by lia.
  - now replace (Z.to_nat (Z.min 10 (Z.of_nat (length q)))) with 10%nat by lia.
Qed.

Lemma mock_delete_all_disjoint (batch q : list QueueMessage) (c : Z) :
  (forall i, In i (map id batch) -> ~ In i (map id q)) ->
  delete_all batch (mock q c) = (fulfilled tt, mock q c).
Proof.
  unfold delete_all. induction batch as [| m batch IH]; intros D; [reflexivity |].
  cbn [SqsQueueService.for_of]. unfold bind at 1.
  assert (E : QueueService.deleteMessage_id (id m) (mock q c)
              = (fulfilled tt, mock q c)).
  { unfold QueueService.deleteMessage_id, QueueService.dispatch, mock.
    cbn [MockQueueService.deleteMessage_id modify MockQueueService.messages
         MockQueueService.messageIdCounter].
    rewrite filter_same_id_absent; [reflexivity |].
    apply D. now left. }
  rewrite E. apply IH. intros i I. apply D. now right.
Qed.

Lemma NoDup_firstn_skipn_disjoint {A} (n : nat) (l : list A) :
  NoDup l -> forall x, In x (firstn n l) -> ~ In x (skipn n l).
Proof.
  intros N x I1 I2. rewrite <- (firstn_skipn n l) in N.
  apply NoDup_app_remove_l in N as N2.
  revert N I1 I2. generalize (firstn n l) (skipn n l). intros f r.
  induction f as [| a f IH]; cbn; [intros _ [] |].
  intros N [-> | I1] I2.
  - apply NoDup_cons_iff in N as [N _]. apply N, in_or_app. now right.
  - apply NoDup_cons_iff in N as [_ N]. auto.
Qed.

Lemma map_firstn_skipn_disjoint (n : nat) (q : list QueueMessage) :
  NoDup (map id q) ->
  forall i, In i (map id (firstn n q)) -> ~ In i (map id (skipn n q)).
Proof.
  intros N i. rewrite <- firstn_map, <- skipn_map.
  now apply NoDup_firstn_skipn_disjoint.
Qed.

Lemma NoDup_map_skipn_id (n : nat) (q : list QueueMessage) :
  NoDup (map id q) -> NoDup (map id (skipn n q)).
Proof. apply MockHistoryProperties.NoDup_map_skipn. Qed.

Lemma mock_clear_more (fuel : nat) (c now : Z) :
  forall (q additional : list QueueMessage) (total : Z),
    NoDup (map id q) ->
    (forall i, In i (map id additional) -> ~ In i (map id q)) ->
    (additional = [] -> q = []) ->
    (additional <> [] -> length q <= 10 * (fuel - 1) /\ 1 <= fuel) ->
    clear_more fuel additional total now (mock q c)
    = (fulfilled (Some (total + Z.of_nat (length additional)
                        + Z.of_nat (length q))%Z),
       mock [] c).
Proof.
  induction fuel as [| fuel IH]; intros q additional total N D E B.
  - destruct additional as [| a additional].
    + rewrite (E eq_refl). cbn. unfold ret. do 2 f_equal. f_equal. lia.
    + destruct B as [_ B]; [discriminate | lia].
  - destruct additional as [| a additional].
    + rewrite (E eq_refl). cbn. unfold ret. do 2 f_equal. f_equal. lia.
    + destruct B as [B _]; [discriminate |].
      cbn [clear_more]. unfold bind at 1.
      rewrite (mock_delete_all_disjoint (a :: additional) q c D).
      unfold bind at 1. rewrite mock_receive_ten.
      rewrite IH.
      * do 2 f_equal. f_equal.
        pose proof (firstn_skipn 10 q) as S.
        apply (f_equal (@length _)) in S. rewrite length_app in S. lia.
      * now apply NoDup_map_skipn_id.
      * now apply map_firstn_skipn_disjoint.
      * intros F. destruct q as [| m q]; [reflexivity | discriminate].
      * intros F. destruct q as [| m q]; [now destruct F |].
        rewrite length_skipn. cbn [length] in *. lia.
Qed.

(** [clearAllMessages] on the mock adapter, wherever the adapter has
    been: with ten messages taken by each receive, [fuel] rounds of its
    [while] loop are enough for a queue of up to [10 * fuel + 10]
    messages; the loop then ends, the queue is empty, and the answer is a
    success that counts every message that was queued. *)
Theorem clearAllMessages_empties_the_mock :
  forall (calls : list Call) (fuel : nat) (now : Z),
    let s := after calls in
    length (MockQueueService.messages s) <= 10 * fuel + 10 ->
    clearAllMessages toISOString fuel now (mock_instance s)
    = (fulfilled
         (Some (success
                  {| messagesCleared :=
                       Z.of_nat (length (MockQueueService.messages s));
                     cleared_queueIdentifier := Some "mock-queue (in-memory)" |}
                  (toISOString now))),
       mock_instance
         {| MockQueueService.messages := [];
            MockQueueService.messageIdCounter :=
              MockQueueService.messageIdCounter s |}).
Proof.
  intros calls fuel now s L.
  destruct (MockHistoryProperties.well_numbered_after calls) as (N & _ & _).
  fold s in N. unfold ids in N. destruct s as [q c].
  cbn [MockQueueService.messages MockQueueService.messageIdCounter] in *.
  fold (mock q c). fold (mock [] c).
  unfold clearAllMessages, try_catch. unfold bind at 1.
  rewrite mock_receive_ten. unfold bind at 1.
  rewrite mock_delete_all_disjoint by now apply map_firstn_skipn_disjoint.
  unfold bind at 1. rewrite mock_receive_ten. unfold bind at 1.
  rewrite mock_clear_more.
  - pose proof (firstn_skipn 10 q) as S1.
    pose proof (firstn_skipn 10 (skipn 10 q)) as S2.
    apply (f_equal (@length _)) in S1, S2. rewrite length_app in S1, S2.
    replace (Z.of_nat (length (firstn 10 q))
             + Z.of_nat (length (firstn 10 (skipn 10 q)))
             + Z.of_nat (length (skipn 10 (skipn 10 q))))%Z
      with (Z.of_nat (length q)) by lia.
    reflexivity.
  - now do 2 apply NoDup_map_skipn_id.
  - apply map_firstn_skipn_disjoint. now apply NoDup_map_skipn_id.
  - intros F. destruct (skipn 10 q) as [| m r]; [reflexivity | discriminate].
  - intros F. rewrite !length_skipn.
    assert (10 < length q).
    { destruct (Nat.le_gt_cases (length q) 10) as [G | G]; [| exact G].
      rewrite skipn_all2 in F by exact G. now destruct F. }
    lia.
Qed.

End WithBackends.

Lemma clearAllMessages_empties_the_mock_witness :
  @clearAllMessages Reference.runtime Reference.sqs_backend
    Reference.amqp_backend string_of_Z 0 7
    (mock_instance (after [Publish (JStr "a") None 1; Publish (JStr "b") None 2]))
  = (fulfilled
       (Some (success {| messagesCleared := 2;
                         cleared_queueIdentifier := Some "mock-queue (in-memory)" |}
                      "7")),
     mock_instance {| MockQueueService.messages := [];
                      MockQueueService.messageIdCounter := 2 |}).
Proof.
  refine (@clearAllMessages_empties_the_mock Reference.runtime
            Reference.sqs_backend Reference.amqp_backend string_of_Z
            [Publish (JStr "a") None 1; Publish (JStr "b") None 2] 0 7 _).
  cbn. lia.
Defined.

End ControllerMockProperties.

(* ------------------------------------------------------------------ *)
(** ** Bulk publishing to the mock adapter *)

Module BulkProperties.
Import QueueModule QueueController MockHistory.

Section WithBackends.
Context `{JsRuntime} `{Sqs.Backend} `{Amqp.Backend}.
Variable toISOString : Z -> string.

Lemma mock_publish_each (clock : Z -> Z) (random : Z -> string) (n : nat) :
  forall (a : nat) (results : list BulkItem) (q : list QueueMessage) (c : Z),
    exists q',
      publish_each toISOString (map Z.of_nat (seq a n)) clock random results
        (mock q c)
      = (fulfilled
           (results
            ++ map (fun i => {| messageNumber := i;
                                item_messageId := mock_id (c + i - Z.of_nat a + 1);
                                item_timestamp := toISOString (clock i) |})
                   (map Z.of_nat (seq a n)))%list,
         mock q' (c + Z.of_nat n))
      /\ length q' = length q + n
      /\ firstn (length q) q' = q.
Proof.
  induction n as [| n IH]; intros a results q c.
  - exists q. cbn [seq map publish_each]. unfold ret.
    rewrite app_nil_r, Z.add_0_r, firstn_all. repeat split. lia.
  - cbn [seq map publish_each]. unfold bind at 1.
    unfold QueueService.publish, QueueService.dispatch,
      mock at 1.
    cbn [MockQueueService.publish MockQueueService.messages
         MockQueueService.messageIdCounter].
    match goal with
    | |- context [mock_instance {| MockQueueService.messages := ?q1;
                                   MockQueueService.messageIdCounter := ?c1 |}] =>
        fold (mock q1 c1);
        destruct (IH (S a)
                    (results
                     ++ [{| messageNumber := Z.of_nat a;
                            item_messageId := "mock-msg-" ++ string_of_Z (c + 1);
                            item_timestamp := toISOString (clock (Z.of_nat a)) |}])%list
                    q1 c1) as (q' & E & L & F)
    end.
    exists q'. rewrite E. split; [| split].
    + f_equal.
      * f_equal. rewrite <- app_assoc. f_equal. cbn [app map]. f_equal.
        -- f_equal. unfold mock_id. do 2 f_equal. lia.
        -- apply map_ext. intros i. f_equal. f_equal. lia.
      * f_equal. lia.
    + rewrite L, length_app. cbn. lia.
    + rewrite length_app in L.
      pose proof (f_equal (firstn (length q)) F) as G.
      rewrite firstn_firstn, length_app in G.
      replace (Nat.min (length q) (length q + length [_])) with (length q) in G by lia.
      rewrite G. now rewrite firstn_app, Nat.sub_diag, firstn_all, app_nil_r.
Qed.

(** [publishBulkMessages] on the mock adapter always answers with a
    success: it publishes one message for each index from 1 to [count]
    (5 when no count is given, none when the count is zero or negative),
    the ids following the counter of the adapter, behind the messages
    that were queued; and [totalPublished] repeats the count asked for
    even when nothing was published. *)
Theorem publishBulkMessages_on_the_mock :
  forall (s : MockQueueService.t) (requested : option Z) (startTime endTime : Z)
         (clock : Z -> Z) (random : Z -> string),
    let count := match requested with Some n => n | None => 5%Z end in
    exists items s',
      publishBulkMessages toISOString requested startTime endTime clock random
        (mock_instance s)
      = (fulfilled
           (success {| totalPublished := count;
                       bulk_messages := items;
                       bulk_queueIdentifier := Some "mock-queue (in-memory)";
                       durationMs := (endTime - startTime)%Z |}
                    (toISOString endTime)),
         mock_instance s')
      /\ map item_messageId items
         = map (fun i => mock_id (MockQueueService.messageIdCounter s + i))
               (indices_up_to count)
      /\ length items = Z.to_nat count
      /\ length (MockQueueService.messages s')
         = length (MockQueueService.messages s) + Z.to_nat count
      /\ firstn (length (MockQueueService.messages s))
                (MockQueueService.messages s')
         = MockQueueService.messages s
      /\ MockQueueService.messageIdCounter s'
         = (MockQueueService.messageIdCounter s + Z.of_nat (Z.to_nat count))%Z.
Proof.
  intros [q c] requested startTime endTime clock random count.
  cbn [MockQueueService.messages MockQueueService.messageIdCounter].
  destruct (mock_publish_each clock random (Z.to_nat count) 1 [] q c)
    as (q' & E & L & F).
  eexists. exists {| MockQueueService.messages := q';
                     MockQueueService.messageIdCounter :=
                       (c + Z.of_nat (Z.to_nat count))%Z |}.
  split; [| split; [| split; [| repeat split]]].
  - unfold publishBulkMessages, try_catch. unfold bind at 1.
    fold count. unfold indices_up_to.
    fold (mock q c). rewrite E. reflexivity.
  - cbn [app]. rewrite map_map. cbn [item_messageId]. unfold indices_up_to.
    apply map_ext. intros i. f_equal. lia.
  - cbn [app]. now rewrite !length_map, length_seq.
  - exact L.
  - exact F.
Qed.

End WithBackends.
End BulkProperties.

(* ------------------------------------------------------------------ *)
(** ** The module as it starts *)

Module StartupProperties.
Import QueueModule QueueController.

Section WithBackends.
Context `{JsRuntime} `{Sqs.Backend} `{Amqp.Backend}.
Variable toISOString : Z -> string.

(** The constructor of the RabbitMQ adapter leaves [isConnected] false,
    configured or not: only the ['connect'] event sets it. *)
Lemma rabbitMq_created_not_connected (opts : QueueModuleOptions)
    (b : Amqp.Broker) :
  RabbitMqQueueService.isConnected
    (RabbitMqQueueService.this (RabbitMqQueueService.create opts b)) = false.
Proof.
  unfold RabbitMqQueueService.create, RabbitMqQueueService.initializeRabbitMq.
  cbn [RabbitMqQueueService.this RabbitMqQueueService.options].
  destruct (rabbitmq opts) as [o |]; [| reflexivity].
  destruct (falsy_string (RabbitMqOptions.url o)); [reflexivity |].
  rewrite try_catch_rethrow. unfold RabbitMqQueueService.on_broker, lift.
  cbn [RabbitMqQueueService.broker RabbitMqQueueService.this].
  destruct (Amqp.waitForConnect b); reflexivity.
Qed.

Lemma rabbitMq_guard (w : RabbitMqQueueService.World) message popts ropts now
    random36 :
  RabbitMqQueueService.isConnected (RabbitMqQueueService.this w) = false ->
  RabbitMqQueueService.publish message popts now random36 w
  = (rejected RabbitMqQueueService.not_connected, w)
  /\ RabbitMqQueueService.receiveMessages ropts now w
     = (rejected RabbitMqQueueService.not_connected, w).
Proof.
  intros C.
  unfold RabbitMqQueueService.publish, RabbitMqQueueService.receiveMessages.
  rewrite C. split; reflexivity.
Qed.

(** With the provider set to [both] and no SQS queue URL in the
    environment, the module is built and hands out the composite. Until
    the RabbitMQ connection comes up neither child can take a message:
    the publish endpoint answers with the failure that no provider took
    the message, while the receive endpoint answers with a success and no
    message. *)
Theorem both_without_sqs_url_at_startup :
  forall (env : string -> option string) (aws : Sqs.Aws) (broker : Amqp.Broker),
    env "QUEUE_PROVIDER" = Some "both" ->
    falsy_string (env "SQS_QUEUE_URL") = true ->
    exists c,
      forRoot env aws broker = fulfilled (composite_instance c)
      /\ (forall (publishDto : PublishMessageDto) (now : Z) (random36 : string),
             publishMessage toISOString publishDto now random36
               (composite_instance c)
             = (fulfilled
                  (failure "Failed to publish message to any queue provider"
                           (toISOString now)),
                composite_instance c))
      /\ (forall (receiveDto : ReceiveMessagesDto) (now : Z),
             receiveMessages toISOString receiveDto now (composite_instance c)
             = (fulfilled
                  (success
                     {| count := 0;
                        received_messages := [];
                        received_queueIdentifier :=
                          CompositeQueueService.getQueueIdentifier c |}
                     (toISOString now)),
                composite_instance c)).
Proof.
  intros env aws broker P U.
  assert (Us : Spec.sqs_unconfigured (optionsFactory env) = true).
  { unfold Spec.sqs_unconfigured, optionsFactory. cbn. unfold config_get.
    destruct (env "SQS_QUEUE_URL"); exact U. }
  unfold forRoot, instantiate, useFactory.
  assert (Pv : provider (optionsFactory env) = "both").
  { unfold optionsFactory, config_get. cbn. now rewrite P. }
  rewrite Pv. cbn [String.eqb Ascii.eqb Bool.eqb].
  eexists. split; [reflexivity |].
  rewrite (UnconfiguredProperties.sqs_create_unconfigured _ Us).
  set (opts := optionsFactory env).
  set (r := RabbitMqQueueService.create opts broker).
  pose proof (rabbitMq_created_not_connected opts broker) as C. fold r in C.
  split.
  - intros publishDto now random36.
    unfold publishMessage, try_catch, bind, QueueService.publish,
      QueueService.dispatch, CompositeQueueService.publish,
      CompositeQueueService.create, CompositeQueueService.on_sqs,
      CompositeQueueService.on_rabbitMq.
    run.
    match goal with
    | |- context [SqsQueueService.publish ?m ?o ?s0] =>
        change (SqsQueueService.publish m o s0)
          with (@rejected string SqsQueueService.not_initialized, s0)
    end.
    cbn [CompositeQueueService.sqsService CompositeQueueService.rabbitMqService].
    destruct (rabbitMq_guard r
                (JObj [("message", JStr (dto_message publishDto));
                       ("metadata", object_or_undefined (dto_metadata publishDto));
                       ("timestamp", JStr (toISOString now))])
                (Some {| delaySeconds := None;
                         messageAttributes := dto_metadata publishDto |})
                None now random36 C) as [E _].
    rewrite E. reflexivity.
  - intros receiveDto now.
    unfold receiveMessages, try_catch, bind, QueueService.receiveMessages,
      QueueService.dispatch, CompositeQueueService.receiveMessages,
      CompositeQueueService.create, CompositeQueueService.on_sqs,
      CompositeQueueService.on_rabbitMq, identifier.
    run.
    match goal with
    | |- context [SqsQueueService.receiveMessages ?o ?n ?s0] =>
        change (SqsQueueService.receiveMessages o n s0)
          with (@rejected (list QueueMessage) SqsQueueService.not_initialized, s0)
    end.
    cbn [CompositeQueueService.sqsService CompositeQueueService.rabbitMqService].
    destruct (rabbitMq_guard r JNull None
                (Some {| maxNumberOfMessages :=
                           Some (or_number (maxMessages receiveDto) 10);
                         waitTimeSeconds :=
                           Some (or_number (dto_waitTimeSeconds receiveDto) 10);
                         visibilityTimeout := None |})
                now "" C) as [_ E].
    rewrite E. reflexivity.
Qed.

End WithBackends.

Lemma both_without_sqs_url_at_startup_witness :
  exists c,
    @forRoot Reference.sqs_backend Reference.amqp_backend env_both
      Reference.empty_queue Reference.empty_broker
    = fulfilled (composite_instance c)
    /\ fst (@publishMessage Reference.runtime Reference.sqs_backend
              Reference.amqp_backend string_of_Z
              {| dto_message := "hi"; dto_metadata := None |} 7 "0.qom6s7yfyzz"
              (composite_instance c))
       = fulfilled (failure "Failed to publish message to any queue provider" "7").
Proof.
  destruct (@both_without_sqs_url_at_startup Reference.runtime
              Reference.sqs_backend Reference.amqp_backend string_of_Z env_both
              Reference.empty_queue Reference.empty_broker eq_refl eq_refl)
    as (c & E & P & _).
  exists c. split; [exact E |].
  now rewrite (P {| dto_message := "hi"; dto_metadata := None |} 7%Z "0.qom6s7yfyzz").
Defined.

End StartupProperties.

(* ------------------------------------------------------------------ *)
(** ** A RabbitMQ message from publish to delivery *)

Module RabbitMqRoundTripProperties.

Lemma generateMessageId_not_empty (now : Z) (random36 : string) :
  (RabbitMqQueueService.generateMessageId now random36 =? "") = false.
Proof.
  unfold RabbitMqQueueService.generateMessageId.
  destruct (string_of_Z now) as [| c s] eqn:E; [| reflexivity].
  reflexivity.
Qed.

Section WithBackends.
Context `{JsRuntime} `{Amqp.Backend}.

(** [publish] of the connected RabbitMQ adapter hands the broker the text
    of the message under the exchange and routing key of the adapter,
    persistent, with the generated id as [messageId], the time as
    [timestamp] and the attributes as headers; it returns that id when
    the broker accepts and the error of the broker when it refuses. A
    delivery that carries these properties is mapped back to a message
    with the very id [publish] returned, whatever its delivery tag, and
    with the time of the publish as timestamp. *)
Theorem rabbitMq_publish_then_delivery :
  forall (message : JsVal) (text : string) (opts : option PublishOptions)
         (now received : Z) (random36 : string)
         (w : RabbitMqQueueService.World) (msg : Amqp.ConsumeMessage)
         (props : Amqp.MessageProperties),
    RabbitMqQueueService.isConnected (RabbitMqQueueService.this w) = true ->
    serialize message = Some text ->
    now <> 0%Z ->
    Amqp.properties msg = Some props ->
    Amqp.props_messageId props
    = Some (RabbitMqQueueService.generateMessageId now random36) ->
    Amqp.props_timestamp props = Some now ->
    let sent :=
      Amqp.channelWrapper_publish
        (RabbitMqQueueService.exchangeName (RabbitMqQueueService.this w))
        (RabbitMqQueueService.routingKey (RabbitMqQueueService.this w))
        text
        {| Amqp.pub_persistent := true;
           Amqp.pub_messageId := RabbitMqQueueService.generateMessageId now random36;
           Amqp.pub_timestamp := now;
           Amqp.pub_headers := opt_field opts messageAttributes |}
        (RabbitMqQueueService.broker w) in
    RabbitMqQueueService.publish message opts now random36 w
    = (match fst sent with
       | fulfilled _ =>
           fulfilled (RabbitMqQueueService.generateMessageId now random36)
       | rejected e => rejected e
       end,
       {| RabbitMqQueueService.this := RabbitMqQueueService.this w;
          RabbitMqQueueService.broker := snd sent |})
    /\ exists q,
         RabbitMqQueueService.mapRabbitMqMessage msg received w = (fulfilled q, w)
         /\ id q = Some (RabbitMqQueueService.generateMessageId now random36)
         /\ timestamp q = Some (DateAt now).
Proof.
  intros message text opts now received random36 w msg props C S Z P I T sent.
  split.
  - unfold RabbitMqQueueService.publish. rewrite C, S. cbn [negb].
    rewrite try_catch_rethrow. unfold bind, RabbitMqQueueService.on_broker, lift.
    subst sent.
    destruct (Amqp.channelWrapper_publish _ _ _ _ (RabbitMqQueueService.broker w))
      as [[[] | e] b']; reflexivity.
  - unfold RabbitMqQueueService.mapRabbitMqMessage, bind.
    rewrite MappingProperties.parse_or_raw. eexists.
    split; [reflexivity |]. cbn [id timestamp]. rewrite P.
    cbn [opt_field]. rewrite I, T. split.
    + unfold or_string. now rewrite generateMessageId_not_empty.
    + apply Z.eqb_neq in Z. now rewrite Z.
Qed.

End WithBackends.

Lemma rabbitMq_publish_then_delivery_witness :
  exists q,
    @RabbitMqQueueService.mapRabbitMqMessage Reference.runtime _ delivered_hi 9%Z
      (Reference.rabbitMq_service_connected (Reference.configured "rabbitmq"))
    = (fulfilled q,
       Reference.rabbitMq_service_connected (Reference.configured "rabbitmq"))
    /\ id q = Some "1763642060497-qom6s7yfy"
    /\ timestamp q = Some (DateAt 1763642060497).
Proof.
  refine (proj2 (@rabbitMq_publish_then_delivery Reference.runtime
                   Reference.amqp_backend (JStr "hi") "hi" None 1763642060497%Z
                   9%Z "0.qom6s7yfyzz"
                   (Reference.rabbitMq_service_connected
                      (Reference.configured "rabbitmq"))
                   delivered_hi _ eq_refl eq_refl _ eq_refl eq_refl eq_refl));
    discriminate.
Defined.

End RabbitMqRoundTripProperties.

(* ------------------------------------------------------------------ *)
(** ** The provider the welcome page reports *)

Module WelcomeProperties.
Import QueueModule.

Section WithBackends.
Context `{JsRuntime} `{Sqs.Backend} `{Amqp.Backend}.

(** The welcome page reports the provider as the variable
    [QUEUE_PROVIDER] or, when it is absent or empty, as [mock]; the module
    reads the same variable with the default [rabbitmq] and takes the
    empty text as it is. So the page names the provider the module was
    built for when the variable is set and not empty; without the variable
    it says [mock] while the module hands out the RabbitMQ adapter, and
    with the empty variable it says [mock] of a module that cannot be
    built. *)
Theorem welcome_reports_its_own_default :
  forall (env : string -> option string) (aws : Sqs.Aws) (broker : Amqp.Broker),
    let reported := member "provider" (member "queue" (AppController.getWelcome env)) in
    reported = JStr (or_default (env "QUEUE_PROVIDER") "mock")
    /\ (forall p, env "QUEUE_PROVIDER" = Some p -> p <> "" ->
        reported = JStr (provider (optionsFactory env)))
    /\ (env "QUEUE_PROVIDER" = None ->
        reported = JStr "mock"
        /\ exists r, forRoot env aws broker = fulfilled (rabbitMq_instance r))
    /\ (env "QUEUE_PROVIDER" = Some "" ->
        reported = JStr "mock"
        /\ forRoot env aws broker = rejected (unknown_provider "")).
Proof.
  intros env aws broker reported.
  assert (R : reported = JStr (or_default (env "QUEUE_PROVIDER") "mock"))
    by reflexivity.
  split; [exact R |]. rewrite R. clear R reported.
  unfold forRoot, instantiate, useFactory, optionsFactory, config_get.
  cbn [provider].
  split; [| split].
  - intros p E N. rewrite E. cbn [or_default template].
    destruct (String.eqb_spec p "") as [-> | _]; [now destruct N | reflexivity].
  - intros E. rewrite E. split; [reflexivity |]. cbn. eexists. reflexivity.
  - intros E. rewrite E. split; reflexivity.
Qed.

End WithBackends.

End WelcomeProperties.

(* ------------------------------------------------------------------ *)
(** ** From the endpoints to the consumer, on the mock adapter *)

Module ConsumerMockProperties.
Import QueueModule QueueController MockHistory.

Section WithBackends.
Context `{JsRuntime} `{Sqs.Backend} `{Amqp.Backend}.
Variable toISOString : Z -> string.

Lemma consumer_pass_leaves (old new : list QueueMessage) (c : Z) :
  Forall (fun m => consumable m = true) new ->
  MockQueueService.messages
    (consumer_pass {| MockQueueService.messages := (old ++ new)%list;
                      MockQueueService.messageIdCounter := c |})
  = filter (fun m => negb (consumable m)) old.
Proof.
  intros B.
  assert (P : forall m, put_back (outcome_of (QueueConsumerService.handleMessage m))
                        = negb (consumable m)).
  { intros m. rewrite <- ConsumerProperties.handleMessage_accepts.
    destruct (QueueConsumerService.handleMessage m) as [[] | e]; reflexivity. }
  assert (N : filter (fun m => negb (consumable m)) new = []).
  { induction B as [| m new Bm _ IH]; [reflexivity |].
    cbn [filter]. now rewrite Bm. }
  unfold consumer_pass. cbn [MockQueueService.messages].
  pose proof (MockQueueProperties.ticks_pass
                (fun m => outcome_of (QueueConsumerService.handleMessage m))
                (old ++ new)%list [] c) as T.
  rewrite app_nil_r in T. rewrite T. cbn [MockQueueService.messages app].
  rewrite (filter_ext _ _ P), filter_app, N. apply app_nil_r.
Qed.

Lemma mock_publish_each_bodies (clock : Z -> Z) (random : Z -> string)
    (indices : list Z) :
  forall (results : list BulkItem) (q : list QueueMessage) (c : Z),
    exists results' new c',
      publish_each toISOString indices clock random results (mock q c)
      = (fulfilled results', mock (q ++ new)%list c')
      /\ Forall (fun m => consumable m = true) new.
Proof.
  induction indices as [| i rest IH]; intros results q c.
  - exists results, [], c. cbn [publish_each]. unfold ret.
    rewrite app_nil_r. split; [reflexivity | constructor].
  - cbn [publish_each]. unfold bind at 1.
    unfold QueueService.publish, QueueService.dispatch, mock at 1.
    cbn [MockQueueService.publish MockQueueService.messages
         MockQueueService.messageIdCounter].
    match goal with
    | |- context [publish_each _ _ _ _ ?r
                    (mock_instance {| MockQueueService.messages := (q ++ [?m])%list;
                                      MockQueueService.messageIdCounter := ?c1 |})] =>
        fold (mock (q ++ [m])%list c1);
        destruct (IH r (q ++ [m])%list c1) as (results' & new & c' & E & B);
        exists results', (m :: new), c'
    end.
    rewrite E, <- app_assoc. split; [reflexivity |].
    constructor; [reflexivity | exact B].
Qed.

(** What the endpoints publish, the consumer takes. On the mock adapter,
    after a message published through the publish endpoint, or a batch
    through the bulk endpoint, one pass of the consumer over the queue
    leaves only such messages as were queued before and cannot be handled
    (the body is [null] or [undefined], or its [message] cannot be
    printed): every message of the endpoints has been handled and is
    gone. *)
Theorem consumer_takes_what_the_endpoints_publish :
  forall (s : MockQueueService.t) (publishDto : PublishMessageDto)
         (now : Z) (random36 : string) (requested : option Z)
         (startTime endTime : Z) (clock : Z -> Z) (random : Z -> string),
    let leftovers :=
      filter (fun m => negb (consumable m)) (MockQueueService.messages s) in
    (exists s',
        snd (publishMessage toISOString publishDto now random36 (mock_instance s))
        = mock_instance s'
        /\ length (MockQueueService.messages s')
           = S (length (MockQueueService.messages s))
        /\ MockQueueService.messages (consumer_pass s') = leftovers)
    /\ (exists s',
          snd (publishBulkMessages toISOString requested startTime endTime
                 clock random (mock_instance s))
          = mock_instance s'
          /\ MockQueueService.messages (consumer_pass s') = leftovers).
Proof.
  intros [q c] publishDto now random36 requested startTime endTime clock random
         leftovers.
  subst leftovers. cbn [MockQueueService.messages]. split.
  - eexists. split; [reflexivity |]. split.
    + cbn [MockQueueService.messages]. rewrite length_app. cbn. lia.
    + apply consumer_pass_leaves. constructor; [reflexivity | constructor].
  - destruct (mock_publish_each_bodies clock random
                (indices_up_to (match requested with Some n => n | None => 5%Z end))
                [] q c) as (results' & new & c' & E & B).
    exists {| MockQueueService.messages := (q ++ new)%list;
              MockQueueService.messageIdCounter := c' |}.
    split; [| now apply consumer_pass_leaves].
    unfold publishBulkMessages, try_catch. unfold bind at 1.
    fold (mock q c). rewrite E. reflexivity.
Qed.

End WithBackends.

End ConsumerMockProperties.
